(** * Stimulus matching, agent resolution and level building

    A shallow embedding of
    - [patched_find] (simulation/pyactrFunctionalityExtension.py), the
      replacement for pyACT-R's [VisualLocation.find];
    - [AgentTypeReturner] (simulation/AgentTypeReturner.py);
    - [build_level] (simulation/LevelBuilder.py).

    Python values are an inductive type, dictionaries with string keys are
    [gmap string _], exceptions are the [Raise] branch of [result], and
    objects whose fields are read or written ([self]) are records passed
    explicitly. *)

From Stdlib Require Import ZArith Bool Ascii String List Lia Permutation.
From Stdlib Require Import PrimFloat SpecFloat FloatOps.
From stdpp Require Import gmap strings list fin_maps.

Import ListNotations.
Local Open Scope Z_scope.
Local Open Scope string_scope.

(** ** Exceptions and fallible computations *)

Inductive exn : Type :=
| ACTRError
| AttributeError
| ImportError
| IndexError
| KeyError
| OverflowError
| TypeError
| ValueError.

Inductive result (A : Type) : Type :=
| Ok (a : A)
| Raise (e : exn).

Arguments Ok {A} a.
Arguments Raise {A} e.

Definition bind {A B : Type} (c : result A) (k : A -> result B) : result B :=
  match c with
  | Ok a => k a
  | Raise e => Raise e
  end.

Declare Scope result_scope.
Delimit Scope result_scope with result.
Notation "'let*' x ':=' c 'in' k" := (bind c (fun x => k))
  (at level 10, x pattern, c at level 100, k at level 200) : result_scope.
Local Open Scope result_scope.

Definition exn_eqb (a b : exn) : bool :=
  match a, b with
  | ACTRError, ACTRError | AttributeError, AttributeError
  | ImportError, ImportError | IndexError, IndexError
  | KeyError, KeyError | OverflowError, OverflowError
  | TypeError, TypeError | ValueError, ValueError => true
  | _, _ => false
  end.

(** [try: c except (e1, e2, ...): h] *)
Definition try_except {A : Type} (c : result A) (caught : list exn) (h : result A)
  : result A :=
  match c with
  | Ok a => Ok a
  | Raise e => if existsb (exn_eqb e) caught then h else Raise e
  end.

(** ** Python values

    The values stimuli, events and extra tests hold. A float is an IEEE 754
    double; [obj] is the identity of the float object, which is consulted
    for a NaN only. A tuple also stands for a list, which is indexed and
    compared in the same way. *)

#[warnings="-register-all"]
Inductive pyval : Type :=
| VNone
| VBool (b : bool)
| VInt (z : Z)
| VFloat (f : float) (obj : nat)
| VStr (s : string)
| VTuple (items : list pyval).

(** [f == z] for a float and an [int]: the exact values are compared. *)
Definition float_eq_int (f : float) (z : Z) : bool :=
  match Prim2SF f with
  | S754_zero _ => Z.eqb z 0
  | S754_finite s m e =>
      let n := if s then Z.neg m else Z.pos m in
      if Z.ltb e 0 then Z.eqb n (z * 2 ^ (- e)) else Z.eqb (n * 2 ^ e) z
  | S754_infinity _ | S754_nan => false
  end.

(** [f is g or f == g] for two floats: a NaN is unequal to every float
    under [==] and is found equal only as the same object. *)
Definition float_eq (f : float) (i : nat) (g : float) (j : nat) : bool :=
  PrimFloat.eqb f g || (is_nan f && is_nan g && Nat.eqb i j).

(** [a is b or a == b], the comparison [in], tuples and dicts use: [bool]
    is a subtype of [int], so [False == 0 == 0.0] and [True == 1 == 1.0];
    tuples compare item by item; values of unrelated types are unequal.
    Where the source writes [==] or [!=], one operand is a string or
    [None], for which this is [==]. *)
Fixpoint py_eq (a b : pyval) {struct a} : bool :=
  match a, b with
  | VNone, VNone => true
  | VBool x, VBool y => Bool.eqb x y
  | VBool x, VInt z | VInt z, VBool x => Z.eqb (Z.b2z x) z
  | VInt x, VInt y => Z.eqb x y
  | VFloat f _, VInt z | VInt z, VFloat f _ => float_eq_int f z
  | VFloat f _, VBool x | VBool x, VFloat f _ => float_eq_int f (Z.b2z x)
  | VFloat f i, VFloat g j => float_eq f i g j
  | VStr s, VStr t => String.eqb s t
  | VTuple l1, VTuple l2 =>
      (fix items_eq (l1 l2 : list pyval) {struct l1} : bool :=
         match l1, l2 with
         | [], [] => true
         | x :: l1', y :: l2' => py_eq x y && items_eq l1' l2'
         | _, _ => false
         end) l1 l2
  | _, _ => false
  end.

(** [x in t] for a tuple or list [t]. *)
Definition py_in (x : pyval) (t : list pyval) : bool :=
  existsb (py_eq x) t.

(** *** [int(s)] for a string *)

(** Strings are ASCII. White space is what [int] strips from an ASCII
    string: tab to carriage return, and the space. *)
Definition is_space (c : ascii) : bool :=
  let n := nat_of_ascii c in
  (Nat.eqb n 32 || (Nat.leb 9 n && Nat.leb n 13))%bool.

Definition digit_of (c : ascii) : option Z :=
  let n := nat_of_ascii c in
  if (Nat.leb 48 n && Nat.leb n 57)%bool then Some (Z.of_nat (n - 48)) else None.

Fixpoint lstrip (s : string) : string :=
  match s with
  | String c s' => if is_space c then lstrip s' else s
  | EmptyString => EmptyString
  end.

Fixpoint all_space (s : string) : bool :=
  match s with
  | String c s' => is_space c && all_space s'
  | EmptyString => true
  end.

(** Digits with single underscores between them, then optional trailing
    white space. [after_digit] tells whether the previous character was a
    digit (an underscore or the end is only allowed there). *)
Fixpoint digits (acc : Z) (after_digit : bool) (s : string) : option Z :=
  match s with
  | EmptyString => if after_digit then Some acc else None
  | String c s' =>
      match digit_of c with
      | Some d => digits (10 * acc + d) true s'
      | None =>
          if after_digit then
            if Ascii.eqb c "_" then
              match s' with
              | String c' _ =>
                  match digit_of c' with
                  | Some _ => digits acc false s'
                  | None => None
                  end
              | EmptyString => None
              end
            else if all_space s then Some acc else None
          else None
      end
  end.

Fixpoint digit_count (s : string) : nat :=
  match s with
  | String c s' =>
      match digit_of c with
      | Some _ => S (digit_count s')
      | None => digit_count s'
      end
  | EmptyString => O
  end.

(** [sys.int_info.default_max_str_digits]: a longer numeral is refused with
    [ValueError]. *)
Definition max_str_digits : nat := 4300.

Definition int_of_string (s : string) : result Z :=
  let body :=
    match lstrip s with
    | String "-" s' => option_map Z.opp (digits 0 false s')
    | String "+" s' => digits 0 false s'
    | s' => digits 0 false s'
    end in
  match body with
  | Some z =>
      if Nat.ltb max_str_digits (digit_count s) then Raise ValueError else Ok z
  | None => Raise ValueError
  end.

(** [int(f)] for a float: the value truncated towards zero; an infinity is
    refused with [OverflowError] and a NaN with [ValueError]. *)
Definition float_int (f : float) : result Z :=
  match Prim2SF f with
  | S754_zero _ => Ok 0
  | S754_finite s m e =>
      let magnitude :=
        if Z.ltb e 0 then Z.pos m / 2 ^ (- e) else Z.pos m * 2 ^ e in
      Ok (if s then - magnitude else magnitude)
  | S754_infinity _ => Raise OverflowError
  | S754_nan => Raise ValueError
  end.

(** [int(v)] *)
Definition py_int (v : pyval) : result Z :=
  match v with
  | VInt z => Ok z
  | VBool b => Ok (Z.b2z b)
  | VFloat f _ => float_int f
  | VStr s => int_of_string s
  | VNone | VTuple _ => Raise TypeError
  end.

(** [v[i]] for a non-negative literal index [i]. *)
Definition py_getitem (v : pyval) (i : nat) : result pyval :=
  match v with
  | VTuple items =>
      match nth_error items i with
      | Some x => Ok x
      | None => Raise IndexError
      end
  | VStr s =>
      match String.get i s with
      | Some c => Ok (VStr (String c EmptyString))
      | None => Raise IndexError
      end
  | VNone | VBool _ | VInt _ | VFloat _ _ => Raise TypeError
  end.

(** Truth value of an [int]. *)
Definition truthy_int (z : Z) : bool := negb (Z.eqb z 0).

(** ** Stimuli and the perceptual module

    A stimulus is a dict from attribute name to value. The store
    [self.environment.stimulus] is a dict from stimulus id to stimulus; it is
    kept as the list of its items in insertion order, which is the order
    [for each in self.environment.stimulus] enumerates, [stimulus[each]]
    being the second component. *)

(** [a == b] for two dicts: the same keys, with equal values. *)
Definition dict_eq (a b : gmap string pyval) : bool :=
  forallb (fun kv : string * pyval =>
             match b !! kv.1 with
             | Some w => py_eq kv.2 w
             | None => false
             end) (map_to_list a)
  && forallb (fun kv : string * pyval =>
                match a !! kv.1 with
                | Some _ => true
                | None => false
                end) (map_to_list b).

(** [stim_attrs in self.recent] *)
Definition in_recent (stim_attrs : gmap string pyval)
    (recent : list (gmap string pyval)) : bool :=
  existsb (dict_eq stim_attrs) recent.

Record Environment : Type := {
  stimulus : list (string * gmap string pyval)
}.

(** The fields of [self] that [patched_find] reads. *)
Record VisualLocation : Type := {
  environment : Environment;
  finst : Z;
  recent : list (gmap string pyval)
}.

(** ** Request chunks (pyactr) *)

(** Modelled from the spec: pyactr's slot values are not part of this
    repository. A slot of the chunk used for the search is either the empty
    value or a [VarvalClass] whose [values] field is a string or [None]. *)
Inductive slot : Type :=
| EmptyValue
| Varval (values : option string).

(** [s.values]: the empty value has no such attribute. *)
Definition slot_values (s : slot) : result (option string) :=
  match s with
  | EmptyValue => Raise AttributeError
  | Varval values => Ok values
  end.

(** Truth value of a [values] field. *)
Definition truthy_values (values : option string) : bool :=
  match values with
  | None | Some EmptyString => false
  | Some _ => true
  end.

(** [int(values)] *)
Definition int_of_values (values : option string) : result Z :=
  match values with
  | Some s => int_of_string s
  | None => Raise TypeError
  end.

Definition pyval_of_values (values : option string) : pyval :=
  match values with
  | Some s => VStr s
  | None => VNone
  end.

(** Modelled from the spec: pyactr's [Chunk] is not part of this repository.
    The chunk used for the search is a record with the slots [value],
    [screen_x] and [screen_y], and open-ended attribute slots mirroring
    stimulus attributes. *)
Record Chunk : Type := {
  value : slot;
  screen_x : slot;
  screen_y : slot;
  slots : gmap string slot
}.

(** Modelled from the spec: an entry of a request pattern is a concrete
    value, the empty marker, or a variable reference. *)
Inductive entry : Type :=
| Concrete (v : string)
| Unbound
| VarRef (x : string).

(** Modelled from the spec: the request pattern [otherchunk] either
    enumerates as slot/value pairs or is malformed. *)
Inductive Query : Type :=
| NotAChunk
| Request (pattern : gmap string entry).

Definition is_unbound (e : entry) : bool :=
  match e with
  | Unbound => true
  | _ => false
  end.

(** Modelled from the spec: [otherchunk.removeunused()] enumerates the slots
    that hold a value or a variable; a malformed pattern fails. *)
Definition removeunused (otherchunk : Query) : result (list (string * entry)) :=
  match otherchunk with
  | NotAChunk => Raise ACTRError
  | Request pattern =>
      Ok (List.filter (fun kv : string * entry => negb (is_unbound kv.2))
            (map_to_list pattern))
  end.

(** Modelled from the spec: [utilities.check_bound_vars]. A reference to a
    variable without a binding fails when [negative_impossible] holds and
    resolves to the no-constraint marker otherwise. *)
Definition check_bound_vars (actrvariables : gmap string string) (e : entry)
    (negative_impossible : bool) : result slot :=
  match e with
  | Concrete v => Ok (Varval (Some v))
  | Unbound => Ok EmptyValue
  | VarRef x =>
      match actrvariables !! x with
      | Some v => Ok (Varval (Some v))
      | None => if negative_impossible then Raise ACTRError else Ok EmptyValue
      end
  end.

(** The dict comprehension building [mod_attr_val]. *)
Fixpoint mod_attr_val (actrvariables : gmap string string)
    (items : list (string * entry)) : result (gmap string slot) :=
  match items with
  | [] => Ok ∅
  | x :: items' =>
      let* s := check_bound_vars actrvariables x.2 false in
      let* m := mod_attr_val actrvariables items' in
      Ok (<[x.1 := s]> m)
  end.

(** Modelled from the spec: [chunks.Chunk(utilities.VISUALLOCATION,
    **mod_attr_val)] fills the slots that were left out with the empty
    value. *)
Definition make_search_chunk (m : gmap string slot) : Chunk :=
  {| value := default EmptyValue (m !! "value");
     screen_x := default EmptyValue (m !! "screen_x");
     screen_y := default EmptyValue (m !! "screen_y");
     slots := delete "value" (delete "screen_x" (delete "screen_y" m)) |}.

(** Lines 78-85: resolve the request pattern. *)
Definition chunk_used_for_search (otherchunk : Query)
    (actrvariables : gmap string string) : result Chunk :=
  let* m :=
    try_except
      (let* items := removeunused otherchunk in mod_attr_val actrvariables items)
      [ACTRError] (Raise ACTRError) in
  Ok (make_search_chunk m).

(** ** Location records *)

(** Modelled from the spec: a chunk made from stimulus attributes is an
    attribute set tagged with a type marker. *)
Record LocationRecord : Type := {
  typename : string;
  attributes : gmap string pyval
}.

Definition VISUALLOCATION : string := "_visuallocation".

Definition makechunk (typename : string) (attrs : gmap string pyval)
  : LocationRecord :=
  {| typename := typename; attributes := attrs |}.

(** A call [makechunk(nameofchunk=..., typename=..., **kwargs)] passes each
    key of [kwargs] as a keyword argument: a key that repeats one of the two
    keywords written out makes the call itself fail with [TypeError]. *)
Definition repeats_keyword (kwargs : gmap string pyval) : bool :=
  match kwargs !! "nameofchunk", kwargs !! "typename" with
  | None, None => false
  | _, _ => true
  end.

Definition call_makechunk (nameofchunk typename : string)
    (kwargs : gmap string pyval) : result LocationRecord :=
  if repeats_keyword kwargs then Raise TypeError
  else Ok (makechunk typename kwargs).

Definition reserved : list string := ["position"; "text"; "vis_delay"].

(** [{k: stim_attrs[k] for k in stim_attrs if k not in ("position", "text",
    "vis_delay")}] *)
Definition filtered (stim_attrs : gmap string pyval) : gmap string pyval :=
  filter (fun kv : string * pyval => kv.1 ∉ reserved) stim_attrs.

(** Modelled from the spec: [satisfies candidate query] holds iff for every
    attribute constrained in the query with a non-empty value the candidate
    has that attribute with an equal value. The slots [value], [screen_x] and
    [screen_y] are tested by the text and coordinate filters against [text]
    and [position], which the filtered record no longer carries; the test
    ranges over the open-ended slots. *)
Definition satisfies (candidate : LocationRecord) (query : Chunk) : bool :=
  forallb (fun ks : string * slot =>
             match ks.2 with
             | EmptyValue | Varval None => true
             | Varval (Some v) =>
                 match attributes candidate !! ks.1 with
                 | Some w => py_eq w (VStr v)
                 | None => false
                 end
             end) (map_to_list (slots query)).

(** ** [patched_find] *)

(** What one pass through the loop body does with a stimulus: [continue]
    before [found_stim] is assigned, fall through after it is assigned, or
    [break] with the location chunk. *)
Inductive outcome : Type :=
| Skipped
| Rejected
| Matched (found : LocationRecord).

(** Lines 93-102: the attended flag and the FINST history. The result tells
    whether the loop continues with the next stimulus. *)
Definition attention_skip (self : VisualLocation)
    (extra_tests : gmap string pyval) (stim_attrs : gmap string pyval) : bool :=
  let attended_flag := default VNone (extra_tests !! "attended") in
  if py_in attended_flag [VBool false; VStr "False"] then
    truthy_int (finst self) && in_recent stim_attrs (recent self)
  else if negb (py_in attended_flag [VBool false; VStr "False"])
          && negb (py_eq attended_flag VNone) then
    truthy_int (finst self) && negb (in_recent stim_attrs (recent self))
  else false.

(** Lines 104-109: the text filter. *)
Definition text_skip (search : Chunk) (stim_attrs : gmap string pyval) : bool :=
  match value search with
  | EmptyValue => false
  | Varval values =>
      negb (py_eq (pyval_of_values values) (default VNone (stim_attrs !! "text")))
  end.

(** [stim_attrs["position"]] *)
Definition position_attr (stim_attrs : gmap string pyval) : result pyval :=
  match stim_attrs !! "position" with
  | Some p => Ok p
  | None => Raise KeyError
  end.

(** Line 112: [(int(stim_attrs["position"][0]), int(stim_attrs["position"][1]))] *)
Definition position_of (stim_attrs : gmap string pyval) : result (Z * Z) :=
  let* p0 := position_attr stim_attrs in
  let* c0 := py_getitem p0 0 in
  let* x := py_int c0 in
  let* p1 := position_attr stim_attrs in
  let* c1 := py_getitem p1 1 in
  let* y := py_int c1 in
  Ok (x, y).

(** The condition of the [if] inside a [try] of lines 115-130:
    [s.values and int(s.values) != component]. *)
Definition screen_test (s : slot) (component : Z) : result bool :=
  let* values := slot_values s in
  if truthy_values values then
    let* n := int_of_values values in
    Ok (negb (Z.eqb n component))
  else Ok false.

(** One [try ... except (TypeError, ValueError, AttributeError): pass] block;
    [Ok true] is the [continue]. *)
Definition screen_skip (s : slot) (component : Z) : result bool :=
  try_except (screen_test s component)
    [TypeError; ValueError; AttributeError] (Ok false).

Section PatchedFind.

(** [visible_chunk <= chunk_used_for_search], pyactr's [Chunk.__le__]. *)
Variable chunk_le : LocationRecord -> Chunk -> bool.

(** Lines 91-150: the loop body for one stimulus. *)
Definition examine (self : VisualLocation) (search : Chunk)
    (extra_tests : gmap string pyval) (stim_attrs : gmap string pyval)
  : result outcome :=
  if attention_skip self extra_tests stim_attrs then Ok Skipped
  else if text_skip search stim_attrs then Ok Skipped
  else
    let* position := position_of stim_attrs in
    let* skip_x := screen_skip (screen_x search) position.1 in
    if skip_x then Ok Skipped
    else
      let* skip_y := screen_skip (screen_y search) position.2 in
      if skip_y then Ok Skipped
      else
        let* visible_chunk :=
          call_makechunk "vis1" "_visuallocation" (filtered stim_attrs) in
        if chunk_le visible_chunk search then
          let temp_dict :=
            <["screen_y" := VInt position.2]>
              (<["screen_x" := VInt position.1]> (attributes visible_chunk)) in
          Ok (Matched (makechunk VISUALLOCATION temp_dict))
        else Ok Rejected.

(** Lines 90-152: the loop over the store and the [return]. [found_stim]
    is the loop-carried variable; [found] stays [None] until the [break]. *)
Fixpoint scan (self : VisualLocation) (search : Chunk)
    (extra_tests : gmap string pyval)
    (store : list (string * gmap string pyval))
    (found_stim : option (gmap string pyval))
  : result (option LocationRecord * option (gmap string pyval)) :=
  match store with
  | [] => Ok (None, found_stim)
  | each :: store' =>
      let stim_attrs := each.2 in
      let* o := examine self search extra_tests stim_attrs in
      match o with
      | Skipped => scan self search extra_tests store' found_stim
      | Rejected => scan self search extra_tests store' (Some stim_attrs)
      | Matched found => Ok (Some found, Some stim_attrs)
      end
  end.

Definition patched_find (self : VisualLocation) (otherchunk : Query)
    (actrvariables : option (gmap string string))
    (extra_tests : option (gmap string pyval))
  : result (option LocationRecord * option (gmap string pyval)) :=
  let extra_tests := default ∅ extra_tests in
  let actrvariables := default ∅ actrvariables in
  let* search := chunk_used_for_search otherchunk actrvariables in
  scan self search extra_tests (stimulus (environment self)) None.

End PatchedFind.

(** ** [AgentTypeReturner] *)

(** The objects a module attribute can hold, as far as the factory tells
    them apart: [None], a class (with the name of the module that defines
    it), or anything else. *)
Inductive pyobj : Type :=
| ONone
| OClass (__module__ : string) (__qualname__ : string)
| OOther (repr : string).

Definition is_none (o : pyobj) : bool :=
  match o with
  | ONone => true
  | _ => false
  end.

(** An imported module: its [__name__] and its attributes in the order of
    [inspect.getmembers] (sorted by name). *)
Record pymodule : Type := {
  __name__ : string;
  members : list (string * pyobj)
}.

(** [getattr(module, name, default)] *)
Definition getattr (module : pymodule) (name : string) (dflt : pyobj) : pyobj :=
  match List.find (fun m : string * pyobj => String.eqb m.1 name) (members module) with
  | Some m => m.2
  | None => dflt
  end.

(** [inspect.isclass(obj) and obj.__module__ == module.__name__] *)
Definition is_local_class (module : pymodule) (obj : pyobj) : bool :=
  match obj with
  | OClass m _ => String.eqb m (__name__ module)
  | _ => false
  end.

Definition _first_local_class (module : pymodule) : pyobj :=
  match List.find (fun m : string * pyobj => is_local_class module m.2)
          (members module) with
  | Some m => m.2
  | None => ONone
  end.

Record AgentTypeReturner : Type := {
  base_package : string;
  _cache : gmap string (pyobj * pyobj)
}.

(** [AgentTypeReturner(base_package)] *)
Definition new_AgentTypeReturner (base_package : string) : AgentTypeReturner :=
  {| base_package := base_package; _cache := ∅ |}.

Section AgentFactory.

(** [importlib.import_module] *)
Variable import_module : string -> result pymodule.

Definition _import_module (self : AgentTypeReturner) (fullname : string)
  : result pymodule :=
  import_module fullname.

(** Lines 89-125 of [_resolve_agent_classes]: what happens on a cache
    miss, up to the write to the cache. *)
Definition resolve_uncached (self : AgentTypeReturner) (name : string)
  : result (pyobj * pyobj) :=
  let runner_module_name := base_package self ++ "." ++ name in
  let adapter_module_name := base_package self ++ "." ++ name ++ "Adapter" in
  let* runner_module :=
    try_except (_import_module self runner_module_name)
      [ImportError] (Raise ValueError) in
  let* adapter_module :=
    try_except (_import_module self adapter_module_name)
      [ImportError] (Raise ValueError) in
  let runner_cls := getattr runner_module name ONone in
  let adapter_cls := getattr adapter_module (name ++ "Adapter") ONone in
  let runner_cls :=
    if is_none runner_cls then _first_local_class runner_module else runner_cls in
  let adapter_cls :=
    if is_none adapter_cls then _first_local_class adapter_module else adapter_cls in
  if is_none runner_cls || is_none adapter_cls then Raise ValueError
  else Ok (runner_cls, adapter_cls).

Definition _resolve_agent_classes (self : AgentTypeReturner) (name : string)
  : result (pyobj * pyobj) * AgentTypeReturner :=
  match _cache self !! name with
  | Some classes => (Ok classes, self)
  | None =>
      match resolve_uncached self name with
      | Raise e => (Raise e, self)
      | Ok classes =>
          (Ok classes,
           {| base_package := base_package self;
              _cache := <[name := classes]> (_cache self) |})
      end
  end.

(** The constructors and [build_agent] of the resolved classes belong to
    the agent packages. *)
Context {Env Ids Obj Agent : Type}.
Variable construct : pyobj -> Env -> result Obj.
Variable build_agent : Obj -> Ids -> result Agent.

Definition return_agent_type (self : AgentTypeReturner) (name : string)
    (actr_environment : Env) (agent_id_list : Ids)
  : result (option (Obj * Agent * Obj)) * AgentTypeReturner :=
  if String.eqb name "Human" then (Ok None, self)
  else
    match _resolve_agent_classes self name with
    | (Raise e, self') => (Raise e, self')
    | (Ok (runner_cls, adapter_cls), self') =>
        (let* runner := construct runner_cls actr_environment in
         let* actr_agent := build_agent runner agent_id_list in
         let* adapter := construct adapter_cls actr_environment in
         Ok (Some (runner, actr_agent, adapter)),
         self')
    end.

(** The factories a program can hold: a fresh one, or one on which
    [_resolve_agent_classes] has run. *)
Inductive reachable (base : string) : AgentTypeReturner -> Prop :=
| reachable_new : reachable base (new_AgentTypeReturner base)
| reachable_resolve (self : AgentTypeReturner) (name : string) :
    reachable base self ->
    reachable base (_resolve_agent_classes self name).2.

End AgentFactory.

(** ** [build_level] *)

(** [range(n)] *)
Definition py_range (n : Z) : list Z :=
  map Z.of_nat (seq 0 (Z.to_nat n)).

(** The position a list index [i] denotes in a list of length [len]:
    negative indices count from the end, anything else out of range
    raises. *)
Definition py_index (len : nat) (i : Z) : result nat :=
  if (0 <=? i)%Z && (i <? Z.of_nat len)%Z then Ok (Z.to_nat i)
  else if (- Z.of_nat len <=? i)%Z && (i <? 0)%Z then Ok (Z.to_nat (Z.of_nat len + i))
  else Raise IndexError.

Section BuildLevel.

Context {Agent Rng : Type}.

(** [rng.shuffle(coords)]: the shuffled list and the generator's next
    state. *)
Variable shuffle : Rng -> list (Z * Z) -> list (Z * Z) * Rng.

(** [matrix[r][c] = agent] *)
Definition set_cell (matrix : list (list (option Agent))) (r c : Z)
    (agent : Agent) : result (list (list (option Agent))) :=
  let* i := py_index (length matrix) r in
  match matrix !! i with
  | Some row =>
      let* j := py_index (length row) c in
      Ok (<[i := <[j := Some agent]> row]> matrix)
  | None => Raise IndexError
  end.

(** Lines 56-57: the placement loop. *)
Fixpoint place (matrix : list (list (option Agent)))
    (pairs : list (Agent * (Z * Z))) : result (list (list (option Agent))) :=
  match pairs with
  | [] => Ok matrix
  | (agent, (r, c)) :: pairs' =>
      let* matrix' := set_cell matrix r c agent in
      place matrix' pairs'
  end.

Definition build_level (height width : Z) (agents : list Agent) (rng : Rng)
  : result (list (list (option Agent))) * Rng :=
  if (height <=? 0)%Z || (width <=? 0)%Z then (Raise ValueError, rng)
  else
    let total_cells := height * width in
    let num_agents := Z.of_nat (length agents) in
    if (total_cells <? num_agents)%Z then (Raise ValueError, rng)
    else
      let matrix : list (list (option Agent)) :=
        map (fun _ => map (fun _ => None) (py_range width)) (py_range height) in
      let coords :=
        flat_map (fun r => map (fun c => (r, c)) (py_range width))
          (py_range height) in
      let '(coords, rng) := shuffle rng coords in
      (place matrix (combine agents (firstn (Z.to_nat num_agents) coords)), rng).

End BuildLevel.

(** ** Further predicates and accessors *)

(** The loop body skips the stimulus by a filter, before [found_stim] is
    assigned. *)
Definition skipped (chunk_le : LocationRecord -> Chunk -> bool)
    (self : VisualLocation) (search : Chunk) (extra_tests : gmap string pyval)
    (each : string * gmap string pyval) : bool :=
  match examine chunk_le self search extra_tests each.2 with
  | Ok Skipped => true
  | _ => false
  end.

(** [matrix[r][c]] for indices that are not negative. *)
Definition cell {A : Type} (matrix : list (list A)) (r c : Z) : option A :=
  match matrix !! Z.to_nat r with
  | Some row => row !! Z.to_nat c
  | None => None
  end.

(** The list [coords] of [build_level] before the shuffle. *)
Definition all_coords (height width : Z) : list (Z * Z) :=
  flat_map (fun r => map (fun c => (r, c)) (py_range width)) (py_range height).

(** ** Event helpers (simulation/pyactrFunctionalityExtension.py) *)

(** [sub in s] for two strings. *)
Fixpoint contains (sub s : string) : bool :=
  String.prefix sub s
  || match s with
     | String _ s' => contains sub s'
     | EmptyString => false
     end.

(** [s.replace(old, new)] for a non-empty [old]: occurrences are replaced
    from left to right and do not overlap. After a replacement the next
    [skip] characters, the rest of the occurrence, are dropped. *)
Fixpoint replace_from (old new : string) (skip : nat) (s : string) : string :=
  match s with
  | EmptyString => EmptyString
  | String c s' =>
      match skip with
      | S skip' => replace_from old new skip' s'
      | O =>
          if String.prefix old s then
            new ++ replace_from old new (String.length old - 1) s'
          else String c (replace_from old new O s')
      end
  end.

(** [s.replace("", new)] puts [new] before every character and at the
    end. *)
Fixpoint interleave (new s : string) : string :=
  match s with
  | EmptyString => new
  | String c s' => new ++ String c (interleave new s')
  end.

Definition replace (old new s : string) : string :=
  match old with
  | EmptyString => interleave new s
  | String _ _ => replace_from old new O s
  end.

(** [s[-1]] *)
Fixpoint last_char (s : string) : result string :=
  match s with
  | EmptyString => Raise IndexError
  | String c EmptyString => Ok (String c EmptyString)
  | String _ s' => last_char s'
  end.

(** An object as the event helpers use it: its attributes and, when it can
    be indexed, its items. *)
Record pyobject : Type := {
  obj_attrs : gmap string pyval;
  obj_items : option (list pyval)
}.

(** [getattr(o, name, None)] *)
Definition getattr_or_None (o : pyobject) (name : string) : pyval :=
  default VNone (obj_attrs o !! name).

(** [o[i]] for a non-negative literal index. *)
Definition getitem (o : pyobject) (i : nat) : result pyval :=
  match obj_items o with
  | Some items =>
      match nth_error items i with
      | Some x => Ok x
      | None => Raise IndexError
      end
  | None => Raise TypeError
  end.

(** The wrapper the event helpers receive: [simulation] is [None] when the
    wrapper has no such attribute, [Some None] when the simulation has no
    [current_event]. *)
Record EventSource : Type := {
  simulation : option (option pyobject)
}.

(** [agent.simulation.current_event] *)
Definition current_event (agent : EventSource) : result pyobject :=
  match simulation agent with
  | Some (Some event) => Ok event
  | _ => Raise AttributeError
  end.

(** [getattr(event, name, None)], and [event[i]] when that is [None]; the
    [except Exception] branch is the [Raise] of the result. *)
Definition attr_or_item (event : pyobject) (name : string) (i : nat)
  : result pyval :=
  let v := getattr_or_None event name in
  if py_eq v VNone then getitem event i else Ok v.

Definition get_production_fired (agent : EventSource) : result (option string) :=
  match current_event agent with
  | Raise AttributeError => Ok None
  | Raise e => Raise e
  | Ok event =>
      match attr_or_item event "action" 2 with
      | Raise _ => Ok None
      | Ok (VStr action) =>
          if contains "RULE FIRED: " action then
            Ok (Some (replace "RULE FIRED: " "" action))
          else Ok None
      | Ok _ => Ok None
      end
  end.

Definition request_if_production_fired (agent_construct : EventSource)
  : result bool :=
  let* fired := get_production_fired agent_construct in
  Ok (match fired with Some _ => true | None => false end).

Definition key_pressed (agent_construct : EventSource) : result (option string) :=
  match current_event agent_construct with
  | Raise AttributeError => Ok None
  | Raise e => Raise e
  | Ok event =>
      let module :=
        match attr_or_item event "module" 1 with
        | Ok m => m
        | Raise _ => VNone
        end in
      match attr_or_item event "action" 2 with
      | Raise _ => Ok None
      | Ok action =>
          if py_eq module (VStr "manual") then
            match action with
            | VStr a =>
                if contains "KEY PRESSED:" a then
                  let* k := last_char a in Ok (Some k)
                else Ok None
            | _ => Ok None
            end
          else Ok None
      end
  end.

Definition request_if_key_pressed (agent_construct : EventSource) : result bool :=
  let* key := key_pressed agent_construct in
  Ok (match key with Some _ => true | None => false end).

(** ** Goal, production and memory helpers
    (simulation/pyactrFunctionalityExtension.py)

    The model [agent_construct.actr_agent] is a record of the three
    attributes the helpers use. [goals] is a dict from buffer name to
    buffer, kept as the list of its items in insertion order;
    [productions] is a dict from production name to a dict of entries;
    [decmem] is dict-like with chunks as keys, kept as the list of its
    items. *)

(** How [set_goal] ends: normally, with an exception of [add], or with the
    [StopIteration] of [next] on an empty iterator. *)
Inductive goal_result (A : Type) : Type :=
| Updated (a : A)
| Failed (e : exn)
| Exhausted.

Arguments Updated {A} a.
Arguments Failed {A} e.
Arguments Exhausted {A}.

Section HelperLayer.

Context {Buffer ChunkT Val DMKey DMVal : Type}.
Context `{EqDecision DMKey}.

Record ACTRModel : Type := {
  goals : list (string * Buffer);
  productions : gmap string (gmap string Val);
  decmem : list (DMKey * DMVal)
}.

Record AgentConstruct : Type := {
  actr_agent : ACTRModel
}.

(** [buffer.add(chunk)] of pyactr: the buffer after the call, or the
    exception ([AttributeError] when the object has no [add]). The method
    is pyactr's; the helpers are followed as far as the buffer it is called
    on goes, and nothing is said of what else the method may touch. *)
Variable add : Buffer -> ChunkT -> result Buffer.

(** [str(list(goals.keys()))] inside the diagnostic messages. *)
Variable repr_keys : list string -> string.

(** [model.productionstring(name=name, string=string)] of pyactr. *)
Variable productionstring : ACTRModel -> string -> string -> result ACTRModel.

(** [getattr(chunk, "typename", None)], when it is a string. *)
Variable typename_of : DMKey -> option string.

Definition with_goals (agent_construct : AgentConstruct)
    (goals' : list (string * Buffer)) : AgentConstruct :=
  {| actr_agent :=
       {| goals := goals';
          productions := productions (actr_agent agent_construct);
          decmem := decmem (actr_agent agent_construct) |} |}.

Definition with_productions (agent_construct : AgentConstruct)
    (productions' : gmap string (gmap string Val)) : AgentConstruct :=
  {| actr_agent :=
       {| goals := goals (actr_agent agent_construct);
          productions := productions';
          decmem := decmem (actr_agent agent_construct) |} |}.

Definition with_decmem (agent_construct : AgentConstruct)
    (decmem' : list (DMKey * DMVal)) : AgentConstruct :=
  {| actr_agent :=
       {| goals := goals (actr_agent agent_construct);
          productions := productions (actr_agent agent_construct);
          decmem := decmem' |} |}.

(** [goals.get(key, None)] *)
Definition goals_get (goals : list (string * Buffer)) (key : string)
  : option Buffer :=
  match List.find (fun kb : string * Buffer => String.eqb kb.1 key) goals with
  | Some kb => Some kb.2
  | None => None
  end.

(** The dict after the buffer stored under [key] has become [buffer]. *)
Fixpoint goals_update (goals : list (string * Buffer)) (key : string)
    (buffer : Buffer) : list (string * Buffer) :=
  match goals with
  | [] => []
  | kb :: goals' =>
      if String.eqb kb.1 key then (kb.1, buffer) :: goals'
      else kb :: goals_update goals' key buffer
  end.

Definition get_goal (agent_construct : AgentConstruct) : option Buffer :=
  let key := "g" in
  goals_get (goals (actr_agent agent_construct)) key.

Definition set_goal (agent_construct : AgentConstruct) (chunk : ChunkT)
  : goal_result AgentConstruct :=
  match goals (actr_agent agent_construct) with
  | [] => Exhausted
  | kb :: goals' =>
      let first_goal := kb.2 in
      match add first_goal chunk with
      | Ok first_goal' =>
          Updated (with_goals agent_construct ((kb.1, first_goal') :: goals'))
      | Raise e => Failed e
      end
  end.

(** The value returned and the lines printed. *)
Definition get_imaginal (agent_construct : AgentConstruct) (key : string)
  : option Buffer * list string :=
  let goals := goals (actr_agent agent_construct) in
  match goals_get goals key with
  | None =>
      (None,
       ["'" ++ key ++ "' not found. Available buffers: "
        ++ repr_keys (map fst goals)])
  | Some buffer => (Some buffer, [])
  end.

(** The wrapper after the call, or the exception, and the lines printed. *)
Definition set_imaginal (agent_construct : AgentConstruct) (new_chunk : ChunkT)
    (key : string) : result AgentConstruct * list string :=
  let goals := goals (actr_agent agent_construct) in
  match goals_get goals key with
  | None =>
      (Ok agent_construct,
       ["Buffer '" ++ key ++ "' not found. Available keys: "
        ++ repr_keys (map fst goals)])
  | Some target =>
      (let* target' :=
         try_except (add target new_chunk) [AttributeError] (Raise TypeError) in
       Ok (with_goals agent_construct (goals_update goals key target')),
       [])
  end.

(** [agent_construct.actr_agent.productions[production_name]["utility"] =
    utility] *)
Definition update_utility (agent_construct : AgentConstruct)
    (production_name : string) (utility : Val) : result AgentConstruct :=
  let productions := productions (actr_agent agent_construct) in
  match productions !! production_name with
  | None => Raise KeyError
  | Some entries =>
      Ok (with_productions agent_construct
            (<[production_name := <["utility" := utility]> entries]> productions))
  end.

Definition get_production_utility (agent_construct : AgentConstruct)
    (production_name : string) : option Val :=
  let lookup : result Val :=
    match productions (actr_agent agent_construct) !! production_name with
    | None => Raise KeyError
    | Some entries =>
        match entries !! "utility" with
        | None => Raise KeyError
        | Some utility => Ok utility
        end
    end in
  match lookup with
  | Ok utility => Some utility
  | Raise _ => None
  end.

Definition add_production (agent_construct : AgentConstruct) (name string : string)
    (utility : option Val) : result AgentConstruct :=
  let model := actr_agent agent_construct in
  let* model' := productionstring model name string in
  let agent_construct' := {| actr_agent := model' |} in
  match utility with
  | Some u => update_utility agent_construct' name u
  | None => Ok agent_construct'
  end.

Definition get_declarative_memory (agent_construct : AgentConstruct)
  : list (DMKey * DMVal) :=
  decmem (actr_agent agent_construct).

(** [getattr(chunk, "typename", None) == typename] *)
Definition has_typename (typename : string) (chunk : DMKey) : bool :=
  match typename_of chunk with
  | Some t => String.eqb t typename
  | None => false
  end.

Definition get_declarative_chunk_type (agent_construct : AgentConstruct)
    (typename : string) : list DMKey :=
  let dm := decmem (actr_agent agent_construct) in
  List.filter (has_typename typename) (map fst dm).

(** [del dm[chunk]] *)
Fixpoint del_item (dm : list (DMKey * DMVal)) (chunk : DMKey)
  : result (list (DMKey * DMVal)) :=
  match dm with
  | [] => Raise KeyError
  | kv :: dm' =>
      if decide (kv.1 = chunk) then Ok dm'
      else let* rest := del_item dm' chunk in Ok (kv :: rest)
  end.

(** The loop [for chunk in to_delete: del dm[chunk]]: how it ends and the
    memory it leaves. *)
Fixpoint delete_each (dm : list (DMKey * DMVal)) (to_delete : list DMKey)
  : result unit * list (DMKey * DMVal) :=
  match to_delete with
  | [] => (Ok tt, dm)
  | chunk :: to_delete' =>
      match del_item dm chunk with
      | Ok dm' => delete_each dm' to_delete'
      | Raise e => (Raise e, dm)
      end
  end.

Definition delete_declarative_chunk_type (agent_construct : AgentConstruct)
    (typename : string) : result nat * AgentConstruct :=
  let dm := decmem (actr_agent agent_construct) in
  let to_delete := List.filter (has_typename typename) (map fst dm) in
  match delete_each dm to_delete with
  | (Ok _, dm') => (Ok (length to_delete), with_decmem agent_construct dm')
  | (Raise e, dm') => (Raise e, with_decmem agent_construct dm')
  end.

End HelperLayer.

Arguments ACTRModel : clear implicits.
Arguments AgentConstruct : clear implicits.

(** ** [ExampleGUI] (gui/ExampleGUI.py)

    Floating-point numbers are an uninterpreted type with uninterpreted
    operations: the expressions of the source are kept as they are written,
    and nothing is assumed about what they evaluate to. *)

(** Lower-case hexadecimal digits of a number that is not negative. *)
Definition hex_digit (n : Z) : string :=
  String.substring (Z.to_nat n) 1 "0123456789abcdef".

Fixpoint hex_from (fuel : nat) (n : Z) : string :=
  match fuel with
  | O => EmptyString
  | S fuel' =>
      if (n <? 16)%Z then hex_digit n
      else hex_from fuel' (n / 16) ++ hex_digit (n mod 16)
  end.

(** [f"{n:02x}"]: at least two characters, padded with a zero; the sign of
    a negative number counts as a character. *)
Definition format_02x (n : Z) : string :=
  let digits := hex_from (S (Z.to_nat (Z.log2 (Z.abs n)))) (Z.abs n) in
  if (n <? 0)%Z then "-" ++ digits
  else if (n <? 16)%Z then "0" ++ digits
  else digits.

(** What the canvas shows: the arguments of [create_rectangle],
    [create_oval] and [create_text]; the font of a text is
    [("TkDefaultFont", font_size, "bold")]. *)
Inductive item (F : Type) : Type :=
| Rectangle (x1 y1 x2 y2 : Z) (outline fill : string)
| Oval (x1 y1 x2 y2 : F) (fill outline : string) (width : Z)
| Text (x y : F) (text fill : string) (font_size : Z).

Arguments Rectangle {F} x1 y1 x2 y2 outline fill.
Arguments Oval {F} x1 y1 x2 y2 fill outline width.
Arguments Text {F} x y text fill font_size.

(** A [tk.Canvas]: its configured size and background, and its items in
    drawing order. *)
Record Canvas (F : Type) : Type := {
  cv_width : Z;
  cv_height : Z;
  cv_bg : string;
  cv_items : list (item F)
}.

Arguments cv_width {F} c.
Arguments cv_height {F} c.
Arguments cv_bg {F} c.
Arguments cv_items {F} c.

(** [env]: the attribute the view reads. A cell is a list of objects or
    [None]s. *)
Record Env : Type := {
  level_matrix : list (list (list (option pyobject)))
}.

Record ExampleGUI (F Root : Type) : Type := {
  env : Env;
  root : option Root;
  cell_px : Z;
  canvas : option (Canvas F);
  _color_cache : gmap string string
}.

Arguments env {F Root} e.
Arguments root {F Root} e.
Arguments cell_px {F Root} e.
Arguments canvas {F Root} e.
Arguments _color_cache {F Root} e.

(** How a drawing method ends: normally, with the [IndexError] of
    [matrix[r][c]], or with the [AssertionError] of [_draw_agent]. *)
Inductive drawn (A : Type) : Type :=
| Drawn (a : A)
| IndexFailure
| AssertionFailure.

Arguments Drawn {A} a.
Arguments IndexFailure {A}.
Arguments AssertionFailure {A}.

Definition and_then {A B : Type} (d : drawn A) (k : A -> drawn B) : drawn B :=
  match d with
  | Drawn a => k a
  | IndexFailure => IndexFailure
  | AssertionFailure => AssertionFailure
  end.

Section Gui.

Context {F Root : Type}.

(** Float arithmetic, comparison and conversion: [x + y], [x - y], [x * y],
    [x / y], [x < y], [x == y], [float(n)] and [int(x)]; [decimal] gives the
    float a literal denotes. *)
Variables fadd fsub fmul fdiv : F -> F -> F.
Variables flt feq : F -> F -> bool.
Variable of_int : Z -> F.
Variable trunc : F -> Z.
Variable decimal : string -> F.

(** [hash(key)] *)
Variable hash : string -> Z.

Definition with_canvas (self : ExampleGUI F Root) (canvas' : option (Canvas F))
  : ExampleGUI F Root :=
  {| env := env self; root := root self; cell_px := cell_px self;
     canvas := canvas'; _color_cache := _color_cache self |}.

Definition with_cache (self : ExampleGUI F Root) (cache : gmap string string)
  : ExampleGUI F Root :=
  {| env := env self; root := root self; cell_px := cell_px self;
     canvas := canvas self; _color_cache := cache |}.

(** [rows = len(matrix)] and [cols = len(matrix[0]) if rows else 0] *)
Definition dimensions (matrix : list (list (list (option pyobject)))) : nat * nat :=
  (length matrix,
   match matrix with
   | first :: _ => length first
   | [] => O
   end).

Definition _cell_bounds (self : ExampleGUI F Root) (col row : Z) : Z * Z * Z * Z :=
  let x1 := (col * cell_px self)%Z in
  let y1 := (row * cell_px self)%Z in
  let x2 := (x1 + cell_px self)%Z in
  let y2 := (y1 + cell_px self)%Z in
  (x1, y1, x2, y2).

Definition _ensure_canvas (self : ExampleGUI F Root) : ExampleGUI F Root :=
  match canvas self, root self with
  | Some _, _ | _, None => self
  | None, Some _ =>
      let rows := (dimensions (level_matrix (env self))).1 in
      let cols := (dimensions (level_matrix (env self))).2 in
      let w := Z.max 1 (Z.of_nat cols * cell_px self) in
      let h := Z.max 1 (Z.of_nat rows * cell_px self) in
      with_canvas self
        (Some {| cv_width := w; cv_height := h; cv_bg := "#101014"; cv_items := [] |})
  end.

Definition _resize_canvas (self : ExampleGUI F Root) (cols rows : nat)
  : ExampleGUI F Root :=
  match canvas self with
  | None => self
  | Some cv =>
      with_canvas self
        (Some {| cv_width := Z.max 1 (Z.of_nat cols * cell_px self);
                 cv_height := Z.max 1 (Z.of_nat rows * cell_px self);
                 cv_bg := cv_bg cv; cv_items := cv_items cv |})
  end.

(** The inner function [hue_to_rgb] of [_hsl_to_rgb]. *)
Definition hue_to_rgb (p q t : F) : F :=
  let t := if flt t (of_int 0) then fadd t (of_int 1) else t in
  let t := if flt (of_int 1) t then fsub t (of_int 1) else t in
  if flt t (fdiv (of_int 1) (of_int 6)) then
    fadd p (fmul (fmul (fsub q p) (of_int 6)) t)
  else if flt t (fdiv (of_int 1) (of_int 2)) then q
  else if flt t (fdiv (of_int 2) (of_int 3)) then
    fadd p (fmul (fmul (fsub q p) (fsub (fdiv (of_int 2) (of_int 3)) t)) (of_int 6))
  else p.

Definition _hsl_to_rgb (h s l : F) : F * F * F :=
  if feq s (of_int 0) then (l, l, l)
  else
    let q :=
      if flt l (decimal "0.5") then fmul l (fadd (of_int 1) s)
      else fsub (fadd l s) (fmul l s) in
    let p := fsub (fmul (of_int 2) l) q in
    let r := hue_to_rgb p q (fadd h (fdiv (of_int 1) (of_int 3))) in
    let g := hue_to_rgb p q h in
    let b := hue_to_rgb p q (fsub h (fdiv (of_int 1) (of_int 3))) in
    (r, g, b).

(** The colour computed on a cache miss. *)
Definition hexcol (key : string) : string :=
  let h := (Z.abs (hash key) mod 360)%Z in
  let rgb :=
    _hsl_to_rgb (fdiv (of_int h) (decimal "360.0")) (decimal "0.45")
      (decimal "0.72") in
  "#" ++ format_02x (trunc (fmul rgb.1.1 (of_int 255)))
      ++ format_02x (trunc (fmul rgb.1.2 (of_int 255)))
      ++ format_02x (trunc (fmul rgb.2 (of_int 255))).

(** Truth value of [hit = self._color_cache.get(key)]. *)
Definition truthy_hit (hit : option string) : bool :=
  match hit with
  | None | Some EmptyString => false
  | Some _ => true
  end.

(** The colour returned and the view with its cache. *)
Definition _color_for (self : ExampleGUI F Root) (key : string)
  : string * ExampleGUI F Root :=
  let hit := _color_cache self !! key in
  if truthy_hit hit then (default EmptyString hit, self)
  else
    let hexcol := hexcol key in
    (hexcol, with_cache self (<[key := hexcol]> (_color_cache self))).

(** [self.canvas.create_...(...)] on a canvas that is there. *)
Definition create (cv : Canvas F) (it : item F) : Canvas F :=
  {| cv_width := cv_width cv; cv_height := cv_height cv; cv_bg := cv_bg cv;
     cv_items := cv_items cv ++ [it] |}.

Definition _draw_agent (self : ExampleGUI F Root) (col row : Z) (label : string)
  : drawn (ExampleGUI F Root) :=
  let '(x1, y1, x2, y2) := _cell_bounds self col row in
  let cx := fdiv (of_int (x1 + x2)) (of_int 2) in
  let cy := fdiv (of_int (y1 + y2)) (of_int 2) in
  let r := fmul (of_int (cell_px self)) (decimal "0.35") in
  let '(color, self) := _color_for self label in
  match canvas self with
  | None => AssertionFailure
  | Some cv =>
      let cv :=
        create cv (Oval (fsub cx r) (fsub cy r) (fadd cx r) (fadd cy r)
                     color "#ECECF1" 1) in
      let short :=
        String.substring 0 4
          (match label with EmptyString => "A" | _ => label end) in
      let cv :=
        create cv
          (Text cx cy short "#0B0B0D"
             (Z.max 8 (trunc (fmul (of_int (cell_px self)) (decimal "0.28"))))) in
      Drawn (with_canvas self (Some cv))
  end.

(** Lines 85-90: the objects of one cell. *)
Fixpoint draw_cell (self : ExampleGUI F Root) (c r : Z)
    (cell : list (option pyobject)) : drawn (ExampleGUI F Root) :=
  match cell with
  | [] => Drawn self
  | None :: cell' => draw_cell self c r cell'
  | Some obj :: cell' =>
      match getattr_or_None obj "name" with
      | VStr (String a label') =>
          and_then (_draw_agent self c r (String a label'))
            (fun self => draw_cell self c r cell')
      | _ => draw_cell self c r cell'
      end
  end.

(** Lines 82-90: the inner loop over the columns of row [r]. *)
Fixpoint draw_cols (self : ExampleGUI F Root)
    (matrix : list (list (list (option pyobject)))) (r : Z) (cs : list Z)
  : drawn (ExampleGUI F Root) :=
  match cs with
  | [] => Drawn self
  | c :: cs' =>
      match cell matrix r c with
      | None => IndexFailure
      | Some objs =>
          and_then (draw_cell self c r objs)
            (fun self => draw_cols self matrix r cs')
      end
  end.

(** Lines 81-90: the outer loop over the rows. *)
Fixpoint draw_rows (self : ExampleGUI F Root)
    (matrix : list (list (list (option pyobject)))) (rs : list Z) (cols : nat)
  : drawn (ExampleGUI F Root) :=
  match rs with
  | [] => Drawn self
  | r :: rs' =>
      and_then (draw_cols self matrix r (py_range (Z.of_nat cols)))
        (fun self => draw_rows self matrix rs' cols)
  end.

(** Lines 74-78: the rectangle of every cell, row by row. *)
Definition grid (self : ExampleGUI F Root) (rows cols : nat) : list (item F) :=
  map (fun rc : Z * Z =>
         let '(x1, y1, x2, y2) := _cell_bounds self rc.2 rc.1 in
         Rectangle x1 y1 x2 y2 "#2A2A33" "#17171F")
    (all_coords (Z.of_nat rows) (Z.of_nat cols)).

Definition update (self : ExampleGUI F Root) : drawn (ExampleGUI F Root) :=
  match canvas self with
  | None => Drawn self
  | Some _ =>
      let matrix := level_matrix (env self) in
      let rows := (dimensions matrix).1 in
      let cols := (dimensions matrix).2 in
      let self := _resize_canvas self cols rows in
      match canvas self with
      | None => Drawn self
      | Some cv =>
          let cv :=
            {| cv_width := cv_width cv; cv_height := cv_height cv;
               cv_bg := cv_bg cv; cv_items := grid self rows cols |} in
          draw_rows (with_canvas self (Some cv)) matrix
            (py_range (Z.of_nat rows)) cols
      end
  end.

(** [ExampleGUI(env, root, cell_px=cell_px)] *)
Definition new_ExampleGUI (env : Env) (root : option Root) (cell_px : Z)
  : drawn (ExampleGUI F Root) :=
  let self :=
    {| env := env; root := root; cell_px := Z.max 8 cell_px; canvas := None;
       _color_cache := ∅ |} in
  match root with
  | Some _ => update (_ensure_canvas self)
  | None => Drawn self
  end.

Definition set_root (self : ExampleGUI F Root) (root : Root)
  : drawn (ExampleGUI F Root) :=
  let self :=
    {| env := env self; root := Some root; cell_px := cell_px self;
       canvas := canvas self; _color_cache := _color_cache self |} in
  update (_ensure_canvas self).

End Gui.

(** Every truthy entry of the first cache is an entry of the second. *)
Definition truthy_sub (K K' : gmap string string) : Prop :=
  forall k v, K !! k = Some v -> v <> EmptyString -> K' !! k = Some v.

(** What drawing keeps of a view: the environment, the root, the cell
    size, a canvas with its size and background, and the truthy entries of
    the colour cache. *)
Definition kept {F Root : Type} (self self1 : ExampleGUI F Root) : Prop :=
  env self1 = env self /\ root self1 = root self /\ cell_px self1 = cell_px self
  /\ (exists cv cv1,
        canvas self = Some cv /\ canvas self1 = Some cv1
        /\ cv_width cv1 = cv_width cv /\ cv_height cv1 = cv_height cv
        /\ cv_bg cv1 = cv_bg cv)
  /\ truthy_sub (_color_cache self) (_color_cache self1).

(** The drawing step [f] takes [self] to [self1], and takes [self] with any
    cache that has the truthy entries of [self1] to [self1] with that
    cache. *)
Definition replays {F Root : Type}
    (f : ExampleGUI F Root -> drawn (ExampleGUI F Root))
    (self self1 : ExampleGUI F Root) : Prop :=
  f self = Drawn self1
  /\ kept self self1
  /\ forall K2, truthy_sub (_color_cache self1) K2 ->
                f (with_cache self K2) = Drawn (with_cache self1 K2).

(** Some row of the matrix is shorter than the first one. *)
Definition ragged (matrix : list (list (list (option pyobject)))) : Prop :=
  exists row, In row matrix /\ (length row < (dimensions matrix).2)%nat.

(** ** Predicates used in the statements *)

(** A slot is a coordinate constraint when it carries [values] that
    [int] accepts. *)
Definition parses (s : slot) : Prop :=
  exists values n, s = Varval values /\ int_of_values values = Ok n.

(** A slot admits a position component: it is no coordinate constraint, or
    it parses to that component. *)
Definition admits (s : slot) (component : Z) : Prop :=
  ~ parses s \/ exists v, s = Varval (Some v) /\ int_of_string v = Ok component.

(** A stimulus on which lines 112 and 139-143 raise nothing: its position
    has two components that [int] accepts, and none of its attributes
    repeats a keyword of the call of [makechunk]. *)
Definition well_formed (stim_attrs : gmap string pyval) : Prop :=
  (exists p, position_of stim_attrs = Ok p)
  /\ repeats_keyword (filtered stim_attrs) = false.

(** The loop passes over a stimulus: it is skipped by a filter or rejected
    by the compatibility test, and nothing is raised. *)
Definition passed_over (chunk_le : LocationRecord -> Chunk -> bool)
    (self : VisualLocation) (search : Chunk) (extra_tests : gmap string pyval)
    (each : string * gmap string pyval) : Prop :=
  examine chunk_le self search extra_tests each.2 = Ok Skipped
  \/ examine chunk_le self search extra_tests each.2 = Ok Rejected.

(** A stimulus without a [position], or with a first or second position
    component that [int] refuses with [e]. *)
Definition bad_position (stim_attrs : gmap string pyval) (e : exn) : Prop :=
  (stim_attrs !! "position" = None /\ e = KeyError)
  \/ exists p c0,
      stim_attrs !! "position" = Some p /\ py_getitem p 0 = Ok c0
      /\ (py_int c0 = Raise e
          \/ exists x c1,
              py_int c0 = Ok x /\ py_getitem p 1 = Ok c1 /\ py_int c1 = Raise e).

(** A module offers no class for an expected name: it has no attribute of
    that name (or the attribute is [None]) and defines no class of its own. *)
Definition no_class (module : pymodule) (expected : string) : Prop :=
  getattr module expected ONone = ONone /\ _first_local_class module = ONone.

(** The agent type [name] cannot be resolved in package [base]: an import
    raises [ImportError], or both modules import and one of them offers no
    class. *)
Definition unresolvable (import_module : string -> result pymodule)
    (base name : string) : Prop :=
  import_module (base ++ "." ++ name) = Raise ImportError
  \/ exists runner_module,
      import_module (base ++ "." ++ name) = Ok runner_module
      /\ (import_module (base ++ "." ++ name ++ "Adapter") = Raise ImportError
          \/ exists adapter_module,
              import_module (base ++ "." ++ name ++ "Adapter") = Ok adapter_module
              /\ (no_class runner_module name
                  \/ no_class adapter_module (name ++ "Adapter"))).

(** A matrix of [height] rows of [width] cells each. *)
Definition well_shaped {A : Type} (matrix : list (list A)) (height width : Z)
  : Prop :=
  length matrix = Z.to_nat height
  /\ Forall (fun row => length row = Z.to_nat width) matrix.

(** The inputs [build_level] refuses. *)
Definition refused {Agent : Type} (height width : Z) (agents : list Agent) : Prop :=
  (height <= 0 \/ width <= 0 \/ height * width < Z.of_nat (length agents))%Z.

(** ** Stimuli, requests and modules used in the examples *)

Definition stimulus_at (x y : Z) : gmap string pyval :=
  {[ "position" := VTuple [VInt x; VInt y] ]}.

Definition red_at (x y : Z) : gmap string pyval :=
  <["color" := VStr "red"]> (stimulus_at x y).

Definition no_position : gmap string pyval :=
  {[ "text" := VStr "X" ]}.

Definition screen (store : list (string * gmap string pyval))
    (finst : Z) (recent : list (gmap string pyval)) : VisualLocation :=
  {| environment := {| stimulus := store |}; finst := finst; recent := recent |}.

Definition unconstrained : Chunk :=
  {| value := EmptyValue; screen_x := EmptyValue; screen_y := EmptyValue;
     slots := ∅ |}.

Definition location (x y : Z) : LocationRecord :=
  makechunk VISUALLOCATION {[ "screen_x" := VInt x; "screen_y" := VInt y ]}.

Definition at_column (sx : string) : Chunk :=
  {| value := EmptyValue; screen_x := Varval (Some sx); screen_y := EmptyValue;
     slots := ∅ |}.

Definition at_point (sx sy : string) : Chunk :=
  {| value := EmptyValue; screen_x := Varval (Some sx);
     screen_y := Varval (Some sy); slots := ∅ |}.

(** A package [agents] with the modules [Example] (which defines the class
    [Runner], not [Example]), [ExampleAdapter] and [Solo] (without an
    adapter module). *)
Definition agents_package (fullname : string) : result pymodule :=
  if String.eqb fullname "agents.Example" then
    Ok {| __name__ := "agents.Example";
          members := [("Any", OClass "typing" "Any");
                      ("Runner", OClass "agents.Example" "Runner");
                      ("pyactr", OOther "module")] |}
  else if String.eqb fullname "agents.ExampleAdapter" then
    Ok {| __name__ := "agents.ExampleAdapter";
          members := [("ExampleAdapter",
                       OClass "agents.ExampleAdapter" "ExampleAdapter")] |}
  else if String.eqb fullname "agents.Solo" then
    Ok {| __name__ := "agents.Solo";
          members := [("Solo", OClass "agents.Solo" "Solo")] |}
  else Raise ImportError.

(** A generator that reverses the list and counts its uses. *)
Definition reversing (rng : nat) (coords : list (Z * Z)) : list (Z * Z) * nat :=
  (rev coords, S rng).

(** A package in which each module defines a helper class besides the
    class of the expected name. *)
Definition tidy_package (fullname : string) : result pymodule :=
  if String.eqb fullname "agents.Tidy" then
    Ok {| __name__ := "agents.Tidy";
          members := [("Helper", OClass "agents.Tidy" "Helper");
                      ("Tidy", OClass "agents.Tidy" "Tidy")] |}
  else if String.eqb fullname "agents.TidyAdapter" then
    Ok {| __name__ := "agents.TidyAdapter";
          members := [("Bridge", OClass "agents.TidyAdapter" "Bridge");
                      ("TidyAdapter", OClass "agents.TidyAdapter" "TidyAdapter")] |}
  else Raise ImportError.

(** A model whose buffers hold lists of chunk names, with the imaginal
    buffer first; [add] replaces the content of a buffer, and
    [productionstring] registers a production without entries. *)
Definition replacing_add (buffer : list string) (chunk : string)
  : result (list string) :=
  Ok [chunk].

Definition registering (model : ACTRModel (list string) Z (string * string) nat)
    (name rule : string) : result (ACTRModel (list string) Z (string * string) nat) :=
  Ok {| goals := goals model;
        productions := <[name := ∅]> (productions model);
        decmem := decmem model |}.

Definition example_agent : AgentConstruct (list string) Z (string * string) nat :=
  {| actr_agent :=
       {| goals := [("imaginal", []); ("g", ["start"])];
          productions := {[ "encode" := {[ "utility" := 0%Z; "reward" := 1%Z ]} ]};
          decmem := [(("fact", "a"), 1%nat); (("goal", "b"), 2%nat);
                     (("fact", "c"), 3%nat)] |} |}.

(** A view of a two-by-two matrix with two named objects, one unnamed
    object and a [None]; the float operations are those of the integers,
    every literal denotes 1, and the hash of a string is its length. *)
Definition named (name : string) : option pyobject :=
  Some {| obj_attrs := {[ "name" := VStr name ]}; obj_items := None |}.

Definition example_env : Env :=
  {| level_matrix :=
       [[[named "alice"; None]; []];
        [[Some {| obj_attrs := ∅; obj_items := None |}]; [named "bob"; named "alice"]]] |}.

Definition example_view : ExampleGUI Z unit :=
  {| env := example_env; root := Some tt; cell_px := 40;
     canvas := Some {| cv_width := 1; cv_height := 1; cv_bg := "#101014";
                       cv_items := [] |};
     _color_cache := {[ "bob" := "" ]} |}.

Definition int_update : ExampleGUI Z unit -> drawn (ExampleGUI Z unit) :=
  update Z.add Z.sub Z.mul Z.div Z.ltb Z.eqb (fun n => n) (fun x => x)
    (fun _ => 1%Z) (fun key => Z.of_nat (String.length key)).

(** * Properties *)

(** ** Conversions and the coordinate filter *)

Example int_of_string_padded : int_of_string " 42 " = Ok 42.
Proof. reflexivity. Qed.

Example int_of_string_underscore : int_of_string "-1_000" = Ok (-1000).
Proof. reflexivity. Qed.

Example int_of_string_inner_space : int_of_string "4 2" = Raise ValueError.
Proof. reflexivity. Qed.

Example int_of_string_double_underscore : int_of_string "1__0" = Raise ValueError.
Proof. reflexivity. Qed.

Lemma int_of_string_raises (s : string) (e : exn) :
  int_of_string s = Raise e -> e = ValueError.
Proof.
  unfold int_of_string.
  destruct (match lstrip s with
            | String "-" s' => option_map Z.opp (digits 0 false s')
            | String "+" s' => digits 0 false s'
            | s' => digits 0 false s'
            end); [|congruence].
  destruct (Nat.ltb max_str_digits (digit_count s)); congruence.
Qed.

Lemma int_of_string_nonempty (s : string) (n : Z) :
  int_of_string s = Ok n -> truthy_values (Some s) = true.
Proof. destruct s; [discriminate | reflexivity]. Qed.

Lemma float_int_raises (f : float) (e : exn) :
  float_int f = Raise e -> e = OverflowError \/ e = ValueError.
Proof.
  unfold float_int. destruct (Prim2SF f); try discriminate; intros [= <-]; auto.
Qed.

Lemma py_int_raises (v : pyval) (e : exn) :
  py_int v = Raise e -> e = TypeError \/ e = ValueError \/ e = OverflowError.
Proof.
  destruct v as [| | |f obj|s|]; simpl; try discriminate;
    try (intros [= <-]; by left).
  - intros H. destruct (float_int_raises _ _ H); auto.
  - intros H. right; left. eapply int_of_string_raises, H.
Qed.

Lemma int_of_values_raises (values : option string) (e : exn) :
  int_of_values values = Raise e -> e = TypeError \/ e = ValueError.
Proof.
  destruct values as [s|]; simpl; [|intros [= <-]; by left].
  intros H. right. eapply int_of_string_raises, H.
Qed.

(** The condition inside the [try] raises nothing but what the handler
    catches. *)
Lemma screen_test_raises (s : slot) (component : Z) (e : exn) :
  screen_test s component = Raise e ->
  e = TypeError \/ e = ValueError \/ e = AttributeError.
Proof.
  unfold screen_test. destruct s as [|values]; simpl.
  - intros [= <-]. auto.
  - destruct (truthy_values values); [|discriminate].
    destruct (int_of_values values) as [n|e'] eqn:Hi; simpl; [discriminate|].
    intros [= <-]. destruct (int_of_values_raises _ _ Hi); auto.
Qed.

Lemma screen_skip_total (s : slot) (component : Z) :
  exists b, screen_skip s component = Ok b.
Proof.
  unfold screen_skip.
  destruct (screen_test s component) as [b|e] eqn:Ht; simpl; [by exists b|].
  destruct (screen_test_raises _ _ _ Ht) as [-> | [-> | ->]]; by exists false.
Qed.

(** A slot whose [values] parse constrains the component to the parsed
    integer. *)
Lemma screen_skip_parsed (s : string) (n component : Z) :
  int_of_string s = Ok n ->
  screen_skip (Varval (Some s)) component = Ok false ->
  component = n.
Proof.
  intros Hn. unfold screen_skip, screen_test, slot_values, bind.
  rewrite (int_of_string_nonempty _ _ Hn). unfold int_of_values. rewrite Hn.
  simpl. destruct (Z.eqb_spec n component); [congruence | discriminate].
Qed.

Lemma screen_skip_unparsed (s : slot) (component : Z) :
  ~ parses s -> screen_skip s component = Ok false.
Proof.
  intros Hp. unfold screen_skip, screen_test.
  destruct s as [|values]; simpl; [done|].
  destruct (truthy_values values); [|done].
  destruct (int_of_values values) as [n|e] eqn:Hi; simpl.
  - exfalso. apply Hp. by exists values, n.
  - destruct (int_of_values_raises _ _ Hi) as [-> | ->]; done.
Qed.

Lemma screen_skip_admits (s : slot) (component : Z) :
  admits s component -> screen_skip s component = Ok false.
Proof.
  intros [Hp|(v & -> & Hv)]; [by apply screen_skip_unparsed|].
  unfold screen_skip, screen_test, slot_values, bind.
  rewrite (int_of_string_nonempty _ _ Hv). unfold int_of_values. rewrite Hv.
  simpl. by rewrite Z.eqb_refl.
Qed.

(** ** The scan *)

Section FindFacts.

Variable chunk_le : LocationRecord -> Chunk -> bool.
Variable self : VisualLocation.
Variable search : Chunk.
Variable extra_tests : gmap string pyval.

Local Abbreviation examine' := (examine chunk_le self search extra_tests).
Local Abbreviation scan' := (scan chunk_le self search extra_tests).

(** What the loop body has established when it reaches the assignment to
    [found_stim]. *)
Lemma examine_reaches (stim_attrs : gmap string pyval) (o : outcome) :
  examine' stim_attrs = Ok o -> o <> Skipped ->
  attention_skip self extra_tests stim_attrs = false
  /\ text_skip search stim_attrs = false
  /\ exists x y,
      position_of stim_attrs = Ok (x, y)
      /\ screen_skip (screen_x search) x = Ok false
      /\ screen_skip (screen_y search) y = Ok false
      /\ repeats_keyword (filtered stim_attrs) = false
      /\ o = (if chunk_le (makechunk "_visuallocation" (filtered stim_attrs)) search
              then Matched (makechunk VISUALLOCATION
                              (<["screen_y" := VInt y]>
                                 (<["screen_x" := VInt x]> (filtered stim_attrs))))
              else Rejected).
Proof.
  unfold examine. intros He Hne.
  assert (Hskip : Ok Skipped = Ok o -> False) by (intros [= <-]; by apply Hne).
  destruct (attention_skip self extra_tests stim_attrs); [by destruct Hskip|].
  destruct (text_skip search stim_attrs); [by destruct Hskip|].
  destruct (position_of stim_attrs) as [[x y]|e]; [|discriminate].
  cbn [bind fst snd] in He.
  destruct (screen_skip (screen_x search) x) as [[|]|e] eqn:Hx;
    [by destruct Hskip| |discriminate].
  cbn [bind] in He.
  destruct (screen_skip (screen_y search) y) as [[|]|e] eqn:Hy;
    [by destruct Hskip| |discriminate].
  cbn [bind] in He. unfold call_makechunk in He.
  destruct (repeats_keyword (filtered stim_attrs)) eqn:Hk; [discriminate|].
  cbn [bind] in He.
  change (attributes (makechunk "_visuallocation" (filtered stim_attrs)))
    with (filtered stim_attrs) in He.
  do 2 (split; [done|]). exists x, y. do 4 (split; [done|]).
  destruct (chunk_le _ search); congruence.
Qed.

Lemma examine_Matched (stim_attrs : gmap string pyval) (found : LocationRecord) :
  examine' stim_attrs = Ok (Matched found) ->
  exists x y,
    position_of stim_attrs = Ok (x, y)
    /\ screen_skip (screen_x search) x = Ok false
    /\ screen_skip (screen_y search) y = Ok false
    /\ found = makechunk VISUALLOCATION
                 (<["screen_y" := VInt y]>
                    (<["screen_x" := VInt x]> (filtered stim_attrs))).
Proof.
  intros He.
  destruct (examine_reaches _ _ He) as (_ & _ & x & y & Hp & Hx & Hy & _ & Ho);
    [discriminate|].
  exists x, y. repeat split; try done.
  destruct (chunk_le _ search); congruence.
Qed.

(** A location chunk is returned together with the stimulus it was made
    from. *)
Lemma scan_found store found_stim found r :
  scan' store found_stim = Ok (Some found, r) ->
  exists each,
    In each store /\ r = Some each.2 /\ examine' each.2 = Ok (Matched found).
Proof.
  revert found_stim.
  induction store as [|each store IH]; intros found_stim; simpl; [discriminate|].
  destruct (examine' each.2) as [[| |found']|e] eqn:He; simpl; try discriminate.
  - intros H. destruct (IH _ H) as (x & Hin & Hx). exists x. auto.
  - intros H. destruct (IH _ H) as (x & Hin & Hx). exists x. auto.
  - intros [= <- <-]. exists each. auto.
Qed.

(** The returned stimulus is one the loop assigned to [found_stim]. *)
Lemma scan_found_stim store found_stim found stim_attrs :
  scan' store found_stim = Ok (found, Some stim_attrs) ->
  found_stim = Some stim_attrs
  \/ exists each o,
      In each store /\ each.2 = stim_attrs
      /\ examine' stim_attrs = Ok o /\ o <> Skipped.
Proof.
  revert found_stim.
  induction store as [|each store IH]; intros found_stim; simpl.
  - intros [= <- <-]. by left.
  - destruct (examine' each.2) as [[| |found']|e] eqn:He; simpl; try discriminate.
    + intros H. destruct (IH _ H) as [?|(x & o & Hin & Hx)]; [by left|].
      right. exists x, o. tauto.
    + intros H. destruct (IH _ H) as [[= <-]|(x & o & Hin & Hx)]; right.
      * exists each, Rejected. repeat split; auto.
      * exists x, o. tauto.
    + intros [= <- <-]. right. exists each, (Matched found').
      repeat split; auto.
Qed.

(** Stimuli the loop passes over leave the rest of the scan as it is,
    up to the value carried in [found_stim]. *)
Lemma scan_passed_over pre found_stim :
  Forall (passed_over chunk_le self search extra_tests) pre ->
  exists found_stim', forall rest,
    scan' (pre ++ rest) found_stim = scan' rest found_stim'.
Proof.
  intros Hpre. revert found_stim.
  induction Hpre as [|each pre [He|He] _ IH]; intros found_stim.
  - by exists found_stim.
  - destruct (IH found_stim) as [fs Hfs]. exists fs. intros rest.
    simpl. rewrite He. simpl. apply Hfs.
  - destruct (IH (Some each.2)) as [fs Hfs]. exists fs. intros rest.
    simpl. rewrite He. simpl. apply Hfs.
Qed.

(** The scan stops at a match: what follows it in the store is never
    examined. *)
Lemma scan_stops_at_match pre each post found_stim found :
  Forall (passed_over chunk_le self search extra_tests) pre ->
  examine' each.2 = Ok (Matched found) ->
  scan' (pre ++ each :: post) found_stim = Ok (Some found, Some each.2).
Proof.
  intros Hpre He.
  destruct (scan_passed_over pre found_stim Hpre) as [fs ->].
  simpl. by rewrite He.
Qed.

(** An exception of the loop body ends the scan. *)
Lemma scan_raises pre each post found_stim e :
  Forall (passed_over chunk_le self search extra_tests) pre ->
  examine' each.2 = Raise e ->
  scan' (pre ++ each :: post) found_stim = Raise e.
Proof.
  intros Hpre He.
  destruct (scan_passed_over pre found_stim Hpre) as [fs ->].
  simpl. by rewrite He.
Qed.

(** With a well-formed position and attributes that can be passed as
    keywords, the loop body raises nothing. *)
Lemma examine_total stim_attrs :
  well_formed stim_attrs -> exists o, examine' stim_attrs = Ok o.
Proof.
  intros [[p Hp] Hk]. unfold examine.
  destruct (attention_skip self extra_tests stim_attrs); [by eexists|].
  destruct (text_skip search stim_attrs); [by eexists|].
  rewrite Hp. simpl.
  destruct (screen_skip_total (screen_x search) p.1) as [[|] ->]; simpl;
    [by eexists|].
  destruct (screen_skip_total (screen_y search) p.2) as [[|] ->]; simpl;
    [by eexists|].
  unfold call_makechunk. rewrite Hk. simpl.
  destruct (chunk_le _ search); by eexists.
Qed.

Lemma scan_total store found_stim :
  Forall (fun each : string * gmap string pyval => well_formed each.2) store ->
  exists r, scan' store found_stim = Ok r.
Proof.
  intros Hs. revert found_stim.
  induction Hs as [|each store Hw _ IH]; intros found_stim; simpl.
  - by eexists.
  - destruct (examine_total _ Hw) as [[| |found] ->]; simpl; eauto.
Qed.

(** The loop body on a stimulus that passes the attention and text
    filters, has a well-formed position that both coordinate slots admit,
    and can be passed as keywords: the outcome is the compatibility test's. *)
Lemma examine_admitted stim_attrs x y :
  attention_skip self extra_tests stim_attrs = false ->
  text_skip search stim_attrs = false ->
  position_of stim_attrs = Ok (x, y) ->
  admits (screen_x search) x ->
  admits (screen_y search) y ->
  repeats_keyword (filtered stim_attrs) = false ->
  examine' stim_attrs
  = Ok (if chunk_le (makechunk "_visuallocation" (filtered stim_attrs)) search
        then Matched (makechunk VISUALLOCATION
                        (<["screen_y" := VInt y]>
                           (<["screen_x" := VInt x]> (filtered stim_attrs))))
        else Rejected).
Proof.
  intros Ha Ht Hp Hx Hy Hk. unfold examine. rewrite Ha, Ht, Hp.
  cbn [bind fst snd].
  rewrite (screen_skip_admits _ _ Hx). cbn [bind].
  rewrite (screen_skip_admits _ _ Hy). cbn [bind].
  unfold call_makechunk. rewrite Hk. cbn [bind].
  by destruct (chunk_le _ search).
Qed.

End FindFacts.

(** ** [patched_find] *)

Lemma patched_find_inv chunk_le self otherchunk actrvariables extra_tests r :
  patched_find chunk_le self otherchunk actrvariables extra_tests = Ok r ->
  exists search,
    chunk_used_for_search otherchunk (default ∅ actrvariables) = Ok search
    /\ scan chunk_le self search (default ∅ extra_tests)
         (stimulus (environment self)) None = Ok r.
Proof.
  unfold patched_find.
  destruct (chunk_used_for_search otherchunk (default ∅ actrvariables))
    as [search|e]; simpl; [|discriminate].
  intros H. by exists search.
Qed.

Lemma patched_find_resolved chunk_le self otherchunk actrvariables extra_tests search :
  chunk_used_for_search otherchunk (default ∅ actrvariables) = Ok search ->
  patched_find chunk_le self otherchunk actrvariables extra_tests
  = scan chunk_le self search (default ∅ extra_tests)
      (stimulus (environment self)) None.
Proof. unfold patched_find. by intros ->. Qed.

(** With lenient resolution a request pattern that enumerates always
    resolves. *)
Lemma mod_attr_val_total actrvariables items :
  exists m, mod_attr_val actrvariables items = Ok m.
Proof.
  induction items as [|[k e] items [m IH]]; simpl; [by eexists|].
  rewrite IH.
  destruct e as [v| |x]; simpl; try by eexists.
  destruct (actrvariables !! x); simpl; by eexists.
Qed.

Lemma chunk_used_for_search_total pattern actrvariables :
  exists search, chunk_used_for_search (Request pattern) actrvariables = Ok search.
Proof.
  unfold chunk_used_for_search. simpl.
  destruct (mod_attr_val_total actrvariables
              (List.filter (fun kv : string * entry => negb (is_unbound kv.2))
                 (map_to_list pattern))) as [m ->].
  simpl. by eexists.
Qed.

(** An empty store yields [(None, None)] for every request pattern that
    enumerates. *)
Lemma patched_find_empty_store chunk_le self pattern actrvariables extra_tests :
  stimulus (environment self) = [] ->
  patched_find chunk_le self (Request pattern) actrvariables extra_tests
  = Ok (None, None).
Proof.
  intros Hs.
  destruct (chunk_used_for_search_total pattern (default ∅ actrvariables))
    as [search Hq].
  rewrite (patched_find_resolved _ _ _ _ _ _ Hq), Hs. reflexivity.
Qed.

(** A store in which every stimulus is skipped by a filter yields
    [(None, None)]. *)
Lemma patched_find_all_skipped chunk_le self otherchunk actrvariables extra_tests search :
  chunk_used_for_search otherchunk (default ∅ actrvariables) = Ok search ->
  Forall (fun each : string * gmap string pyval =>
            examine chunk_le self search (default ∅ extra_tests) each.2 = Ok Skipped)
    (stimulus (environment self)) ->
  patched_find chunk_le self otherchunk actrvariables extra_tests = Ok (None, None).
Proof.
  intros Hq Hs. rewrite (patched_find_resolved _ _ _ _ _ _ Hq).
  induction Hs as [|each store He _ IH]; simpl; [done|].
  by rewrite He.
Qed.

(** The loop body depends on [self] and [extra_tests] through the
    attention filter only. *)
Lemma examine_attention chunk_le self1 self2 search extra1 extra2 stim_attrs :
  attention_skip self1 extra1 stim_attrs = attention_skip self2 extra2 stim_attrs ->
  examine chunk_le self1 search extra1 stim_attrs
  = examine chunk_le self2 search extra2 stim_attrs.
Proof. unfold examine. by intros ->. Qed.

Lemma scan_attention chunk_le self1 self2 search extra1 extra2 store found_stim :
  Forall (fun each : string * gmap string pyval =>
            attention_skip self1 extra1 each.2 = attention_skip self2 extra2 each.2)
    store ->
  scan chunk_le self1 search extra1 store found_stim
  = scan chunk_le self2 search extra2 store found_stim.
Proof.
  intros Hs. revert found_stim.
  induction Hs as [|each store Ha _ IH]; intros found_stim; simpl; [done|].
  rewrite (examine_attention _ _ _ _ _ _ _ Ha).
  destruct (examine chunk_le self2 search extra2 each.2) as [[| |found]|e];
    simpl; auto.
Qed.

(** The scan does not read the ids of the stimuli. *)
Lemma scan_ignores_ids chunk_le self search extra_tests store1 store2 found_stim :
  List.map snd store1 = List.map snd store2 ->
  scan chunk_le self search extra_tests store1 found_stim
  = scan chunk_le self search extra_tests store2 found_stim.
Proof.
  revert store2 found_stim.
  induction store1 as [|each1 store1 IH]; intros [|each2 store2] found_stim;
    simpl; try discriminate; [done|].
  intros [= -> Hs].
  destruct (examine chunk_le self search extra_tests each2.2) as [[| |found]|e];
    simpl; auto.
Qed.

(** The attention filter reads the [attended] entry of the extra tests,
    whether the FINST count is zero, and whether the stimulus is in the
    history. *)
Lemma attention_skip_agrees self1 self2 extra1 extra2 stim_attrs :
  extra1 !! "attended" = extra2 !! "attended" ->
  (finst self1 = 0 <-> finst self2 = 0) ->
  in_recent stim_attrs (recent self1) = in_recent stim_attrs (recent self2) ->
  attention_skip self1 extra1 stim_attrs = attention_skip self2 extra2 stim_attrs.
Proof.
  intros He Hf Hr. unfold attention_skip. rewrite He, Hr.
  assert (Ht : truthy_int (finst self1) = truthy_int (finst self2)).
  { unfold truthy_int.
    destruct (Z.eqb_spec (finst self1) 0) as [H1|H1],
             (Z.eqb_spec (finst self2) 0) as [H2|H2]; try done.
    - by destruct H2; apply Hf.
    - by destruct H1; apply Hf. }
  by rewrite Ht.
Qed.

(** The scenarios of the specification. *)

Example scenario_unconstrained :
  patched_find satisfies
    (screen [("s1", <["text" := VStr "X"]> (stimulus_at 2 3))] 0 [])
    (Request ∅) None None
  = Ok (Some (location 2 3), Some (<["text" := VStr "X"]> (stimulus_at 2 3))).
Proof. vm_compute. reflexivity. Qed.

Example scenario_column :
  patched_find satisfies
    (screen [("s1", stimulus_at 0 0); ("s2", stimulus_at 5 5)] 0 [])
    (Request {[ "screen_x" := Concrete "5" ]}) None None
  = Ok (Some (location 5 5), Some (stimulus_at 5 5)).
Proof. vm_compute. reflexivity. Qed.

Example scenario_unattended :
  patched_find satisfies
    (screen [("s1", stimulus_at 0 0); ("s2", stimulus_at 5 5)] 4 [stimulus_at 0 0])
    (Request ∅) None (Some {[ "attended" := VBool false ]})
  = Ok (Some (location 5 5), Some (stimulus_at 5 5)).
Proof. vm_compute. reflexivity. Qed.

Example scenario_attended :
  patched_find satisfies
    (screen [("s1", stimulus_at 0 0); ("s2", stimulus_at 5 5)] 4 [stimulus_at 5 5])
    (Request ∅) None (Some {[ "attended" := VBool true ]})
  = Ok (Some (location 5 5), Some (stimulus_at 5 5)).
Proof. vm_compute. reflexivity. Qed.

Example scenario_no_target :
  patched_find satisfies
    (screen [("s1", <["text" := VStr "X"]> (stimulus_at 2 3)); ("s2", stimulus_at 5 5)]
       0 [])
    (Request {[ "value" := Concrete "TARGET" ]}) None None
  = Ok (None, None).
Proof. vm_compute. reflexivity. Qed.

Example scenario_malformed :
  patched_find satisfies (screen [("s1", stimulus_at 2 3)] 0 []) NotAChunk None None
  = Raise ACTRError.
Proof. reflexivity. Qed.

Example scenario_unbound_variable :
  patched_find satisfies
    (screen [("s1", stimulus_at 2 3)] 0 [])
    (Request {[ "screen_x" := VarRef "x" ]}) None None
  = Ok (Some (location 2 3), Some (stimulus_at 2 3)).
Proof. vm_compute. reflexivity. Qed.

(** C1 (the code departs from it): a stimulus that passes the filters and is
    rejected by the compatibility test stays in [found_stim]. With one red
    stimulus and a request for a blue one, no stimulus matches and the
    result is [(None, stimulus)], not [(None, None)]. *)
Theorem patched_find_returns_rejected_stimulus :
  let self := screen [("s1", red_at 5 5)] 0 [] in
  let request := Request {[ "color" := Concrete "blue" ]} in
  (exists search,
      chunk_used_for_search request ∅ = Ok search
      /\ examine satisfies self search ∅ (red_at 5 5) = Ok Rejected)
  /\ patched_find satisfies self request None None = Ok (None, Some (red_at 5 5)).
Proof.
  split; [eexists; split|]; vm_compute; reflexivity.
Qed.

(** C2: when [extra_tests["attended"]] is [False] or ["False"] and the
    FINST history is enabled, a stimulus returned by [patched_find] is not
    in [self.recent]. *)
Theorem unattended_request_excludes_recent chunk_le self otherchunk
    actrvariables extra_tests attended_flag found stim_attrs :
  extra_tests !! "attended" = Some attended_flag ->
  attended_flag = VBool false \/ attended_flag = VStr "False" ->
  finst self <> 0 ->
  patched_find chunk_le self otherchunk actrvariables (Some extra_tests)
  = Ok (found, Some stim_attrs) ->
  in_recent stim_attrs (recent self) = false.
Proof.
  intros Hflag Hfalse Hfinst Hfind.
  destruct (patched_find_inv _ _ _ _ _ _ Hfind) as (search & _ & Hscan).
  destruct (scan_found_stim _ _ _ _ _ _ _ _ Hscan)
    as [|(each & o & _ & _ & He & Ho)]; [discriminate|].
  destruct (examine_reaches _ _ _ _ _ _ He Ho) as (Hatt & _).
  unfold attention_skip in Hatt. simpl default in Hatt. rewrite Hflag in Hatt.
  assert (Hin : py_in attended_flag [VBool false; VStr "False"] = true)
    by (destruct Hfalse as [-> | ->]; reflexivity).
  cbn [default from_option id] in Hatt. rewrite Hin in Hatt.
  assert (Ht : truthy_int (finst self) = true).
  { unfold truthy_int. by destruct (Z.eqb_spec (finst self) 0). }
  rewrite Ht in Hatt. exact Hatt.
Qed.

(** C3: when the [screen_x] and [screen_y] slots of the resolved request
    hold strings that [int] accepts, a location chunk returned by
    [patched_find] has exactly those integers as [screen_x] and
    [screen_y]. *)
Theorem location_has_requested_coordinates chunk_le self otherchunk
    actrvariables extra_tests search sx sy x y found found_stim :
  chunk_used_for_search otherchunk (default ∅ actrvariables) = Ok search ->
  screen_x search = Varval (Some sx) -> int_of_string sx = Ok x ->
  screen_y search = Varval (Some sy) -> int_of_string sy = Ok y ->
  patched_find chunk_le self otherchunk actrvariables extra_tests
  = Ok (Some found, found_stim) ->
  attributes found !! "screen_x" = Some (VInt x)
  /\ attributes found !! "screen_y" = Some (VInt y).
Proof.
  intros Hq Hsx Hx Hsy Hy Hfind.
  rewrite (patched_find_resolved _ _ _ _ _ _ Hq) in Hfind.
  destruct (scan_found _ _ _ _ _ _ _ _ Hfind) as (each & _ & _ & He).
  destruct (examine_Matched _ _ _ _ _ _ He) as (px & py & _ & Hpx & Hpy & ->).
  rewrite Hsx in Hpx. rewrite Hsy in Hpy.
  apply (screen_skip_parsed _ _ _ Hx) in Hpx.
  apply (screen_skip_parsed _ _ _ Hy) in Hpy. subst px py.
  simpl. split.
  - rewrite lookup_insert_ne by done. apply lookup_insert_eq.
  - apply lookup_insert_eq.
Qed.

(** C5: a location chunk returned by [patched_find] has none of the keys
    [position], [text] and [vis_delay]; it carries the two position
    components as the integers [screen_x] and [screen_y], and otherwise the
    attributes of the stimulus. *)
Theorem location_has_no_reserved_keys chunk_le self otherchunk actrvariables
    extra_tests found found_stim :
  patched_find chunk_le self otherchunk actrvariables extra_tests
  = Ok (Some found, found_stim) ->
  (forall k, k ∈ reserved -> attributes found !! k = None)
  /\ exists stim_attrs x y,
      found_stim = Some stim_attrs
      /\ position_of stim_attrs = Ok (x, y)
      /\ attributes found !! "screen_x" = Some (VInt x)
      /\ attributes found !! "screen_y" = Some (VInt y)
      /\ forall k, k ∉ reserved -> k <> "screen_x" -> k <> "screen_y" ->
                   attributes found !! k = stim_attrs !! k.
Proof.
  intros Hfind.
  destruct (patched_find_inv _ _ _ _ _ _ Hfind) as (search & _ & Hscan).
  destruct (scan_found _ _ _ _ _ _ _ _ Hscan) as (each & _ & -> & He).
  destruct (examine_Matched _ _ _ _ _ _ He) as (x & y & Hp & _ & _ & ->).
  simpl. split.
  - intros k Hk.
    assert (k <> "screen_x" /\ k <> "screen_y") as [Hkx Hky].
    { apply list_elem_of_In in Hk. simpl in Hk.
      destruct Hk as [<-|[<-|[<-|[]]]]; by split. }
    rewrite !lookup_insert_ne by done.
    apply map_lookup_filter_None. right. intros v _ Hnot. by apply Hnot.
  - exists each.2, x, y. repeat split; try done.
    + rewrite lookup_insert_ne by done. apply lookup_insert_eq.
    + apply lookup_insert_eq.
    + intros k Hk Hkx Hky. rewrite !lookup_insert_ne by done.
      unfold filtered. rewrite map_lookup_filter.
      destruct (each.2 !! k) as [v|]; simpl; [|done].
      by rewrite option_guard_True.
Qed.

(** The qualifier on the enumeration order is needed: the same two stimuli
    enumerated in the other order give another result. *)
Example enumeration_order_matters :
  patched_find satisfies
    (screen [("s1", stimulus_at 1 1); ("s2", stimulus_at 2 2)] 0 []) (Request ∅)
    None None
  = Ok (Some (location 1 1), Some (stimulus_at 1 1))
  /\ patched_find satisfies
       (screen [("s2", stimulus_at 2 2); ("s1", stimulus_at 1 1)] 0 []) (Request ∅)
       None None
     = Ok (Some (location 2 2), Some (stimulus_at 2 2)).
Proof. split; vm_compute; reflexivity. Qed.

(** C6: two invocations of [patched_find] with the same request and
    bindings yield the same output, be it a result or an exception, as soon
    as they agree on what the code reads of the rest: the stimuli of the
    store in enumeration order, whether the FINST count is zero, which
    stimuli of the store are in the history, and the [attended] entry of the
    extra tests. In particular two invocations on identical inputs do. The
    ids of the stimuli, the value of a non-zero FINST count, the order and
    the other entries of the history and the other extra tests are not
    read. *)
Theorem patched_find_deterministic chunk_le self1 self2 otherchunk
    actrvariables extra_tests1 extra_tests2 :
  List.map snd (stimulus (environment self1))
  = List.map snd (stimulus (environment self2)) ->
  (finst self1 = 0 <-> finst self2 = 0) ->
  (forall each, In each (stimulus (environment self1)) ->
                in_recent each.2 (recent self1) = in_recent each.2 (recent self2)) ->
  default ∅ extra_tests1 !! "attended" = default ∅ extra_tests2 !! "attended" ->
  patched_find chunk_le self1 otherchunk actrvariables extra_tests1
  = patched_find chunk_le self2 otherchunk actrvariables extra_tests2.
Proof.
  intros Hs Hf Hr He. unfold patched_find.
  destruct (chunk_used_for_search otherchunk (default ∅ actrvariables))
    as [search|e]; cbn [bind]; [|done].
  rewrite <- (scan_ignores_ids chunk_le self2 search (default ∅ extra_tests2)
                _ _ None Hs).
  apply scan_attention, List.Forall_forall. intros each Hin.
  apply attention_skip_agrees; [done | done | by apply Hr].
Qed.

(** C7: a [screen_x] or [screen_y] slot that is empty or whose [values]
    [int] refuses constrains no position component, and its failure to
    parse is not raised. A stimulus that passes the attention and text
    filters and satisfies the request is returned wherever it lies along an
    axis whose slot does not parse (along the other axis its component is
    the one requested), when every stimulus before it is passed over; and
    whatever the two slots hold, [patched_find] raises nothing when the
    stimuli of the store are well formed. *)
Theorem unparsed_coordinate_is_no_constraint chunk_le self otherchunk
    actrvariables extra_tests search :
  chunk_used_for_search otherchunk (default ∅ actrvariables) = Ok search ->
  (forall pre each post x y,
      stimulus (environment self) = (pre ++ each :: post)%list ->
      Forall (passed_over chunk_le self search (default ∅ extra_tests)) pre ->
      attention_skip self (default ∅ extra_tests) each.2 = false ->
      text_skip search each.2 = false ->
      position_of each.2 = Ok (x, y) ->
      admits (screen_x search) x ->
      admits (screen_y search) y ->
      repeats_keyword (filtered each.2) = false ->
      chunk_le (makechunk "_visuallocation" (filtered each.2)) search = true ->
      patched_find chunk_le self otherchunk actrvariables extra_tests
      = Ok (Some (makechunk VISUALLOCATION
                    (<["screen_y" := VInt y]>
                       (<["screen_x" := VInt x]> (filtered each.2)))),
            Some each.2))
  /\ (Forall (fun each : string * gmap string pyval => well_formed each.2)
        (stimulus (environment self)) ->
      exists r,
        patched_find chunk_le self otherchunk actrvariables extra_tests = Ok r).
Proof.
  intros Hq. rewrite (patched_find_resolved _ _ _ _ _ _ Hq). split.
  - intros pre each post x y Hstore Hpre Ha Ht Hp Hx Hy Hk Hle. rewrite Hstore.
    apply scan_stops_at_match; [done|].
    rewrite (examine_admitted _ _ _ _ _ x y Ha Ht Hp Hx Hy Hk). by rewrite Hle.
  - intros Hs. by apply scan_total.
Qed.

(** C4 (as stated it fails): with three matching stimuli in the store, the
    second and the third both pass all filters and satisfy the request, the
    second precedes the third, and the result is derived from the first. *)
Lemma first_match_is_not_any_earlier_match :
  let self :=
    screen [("s1", stimulus_at 1 1); ("s2", stimulus_at 2 2); ("s3", stimulus_at 3 3)]
      0 [] in
  examine satisfies self unconstrained ∅ (stimulus_at 2 2) = Ok (Matched (location 2 2))
  /\ examine satisfies self unconstrained ∅ (stimulus_at 3 3) = Ok (Matched (location 3 3))
  /\ patched_find satisfies self (Request ∅) None None
     = Ok (Some (location 1 1), Some (stimulus_at 1 1))
  /\ location 1 1 <> location 2 2
  /\ stimulus_at 1 1 <> stimulus_at 2 2.
Proof.
  repeat split; try (vm_compute; reflexivity).
  - intros H. apply (f_equal (fun l => attributes l !! "screen_x")) in H.
    vm_compute in H. discriminate.
  - intros H. apply (f_equal (fun m : gmap string pyval => m !! "position")) in H.
    vm_compute in H. discriminate.
Qed.

(** C4 (amended): when a stimulus passes all filters and satisfies the
    request, and every stimulus enumerated before it is passed over, the
    result is derived from it, whatever follows it in the store. *)
Theorem first_match_wins chunk_le self otherchunk actrvariables extra_tests
    search pre each post found :
  chunk_used_for_search otherchunk (default ∅ actrvariables) = Ok search ->
  stimulus (environment self) = (pre ++ each :: post)%list ->
  Forall (passed_over chunk_le self search (default ∅ extra_tests)) pre ->
  examine chunk_le self search (default ∅ extra_tests) each.2 = Ok (Matched found) ->
  patched_find chunk_le self otherchunk actrvariables extra_tests
  = Ok (Some found, Some each.2).
Proof.
  intros Hq Hstore Hpre He.
  rewrite (patched_find_resolved _ _ _ _ _ _ Hq), Hstore.
  by apply scan_stops_at_match.
Qed.

Lemma bad_position_raises stim_attrs e :
  bad_position stim_attrs e ->
  position_of stim_attrs = Raise e
  /\ (e = KeyError \/ e = ValueError \/ e = TypeError \/ e = OverflowError).
Proof.
  unfold position_of, position_attr.
  intros [[-> ->]|(p & c0 & -> & Hc0 & [H0|(x & c1 & Hx & Hc1 & H1)])].
  - auto.
  - simpl. rewrite Hc0. simpl. rewrite H0. simpl. split; [done|].
    destruct (py_int_raises _ _ H0) as [-> | [-> | ->]]; auto.
  - simpl. rewrite Hc0. simpl. rewrite Hx. simpl. rewrite Hc1. simpl.
    rewrite H1. simpl. split; [done|].
    destruct (py_int_raises _ _ H1) as [-> | [-> | ->]]; auto.
Qed.

(** Numbers compare by value across [bool], [int] and [float]; a NaN is
    equal to itself as the same object only. *)
Example py_eq_examples :
  py_eq (VFloat 0 0) (VBool false) = true
  /\ py_in (VFloat (-0) 0) [VBool false; VStr "False"] = true
  /\ py_eq (VInt 1) (VFloat 1 0) = true
  /\ py_eq (VFloat 0.5 0) (VInt 0) = false
  /\ py_eq (VInt 9007199254740993) (VFloat 9007199254740992 0) = false
  /\ py_eq (VFloat infinity 0) (VFloat infinity 1) = true
  /\ py_eq (VFloat nan 0) (VFloat nan 0) = true
  /\ py_eq (VFloat nan 0) (VFloat nan 1) = false
  /\ py_eq (VTuple [VInt 1; VFloat 2 0]) (VTuple [VBool true; VInt 2]) = true
  /\ py_eq (VStr "1") (VInt 1) = false.
Proof. repeat split; vm_compute; reflexivity. Qed.

(** What [int] refuses, and how: [None] and a tuple with [TypeError], a
    string that is no numeral and a NaN with [ValueError], an infinite
    float with [OverflowError]; a finite float is truncated. *)
Example py_int_examples :
  py_int VNone = Raise TypeError
  /\ py_int (VTuple [VInt 1]) = Raise TypeError
  /\ py_int (VStr "left") = Raise ValueError
  /\ py_int (VFloat nan 0) = Raise ValueError
  /\ py_int (VFloat infinity 0) = Raise OverflowError
  /\ py_int (VFloat neg_infinity 0) = Raise OverflowError
  /\ py_int (VFloat 5.75 0) = Ok 5
  /\ py_int (VFloat (-5.75) 0) = Ok (-5)
  /\ py_int (VFloat (-0.5) 0) = Ok 0
  /\ py_int (VBool true) = Ok 1.
Proof. repeat split; vm_compute; reflexivity. Qed.

(** C10 (as stated it fails), in two ways. The second stimulus of the
    first store passes the attention and text filters and has no
    [position], yet nothing is raised: the scan stops at the first
    stimulus, which matches. And the stimulus of the second store has a
    first position component that [int] refuses, an infinite float, and
    what [patched_find] raises is [OverflowError], none of the three
    exceptions the claim lists. *)
Lemma bad_position_counterexamples :
  let self := screen [("s1", stimulus_at 1 1); ("s2", no_position)] 0 [] in
  let far : gmap string pyval :=
    {[ "position" := VTuple [VFloat infinity 0; VInt 0] ]} in
  (attention_skip self ∅ no_position = false
   /\ text_skip unconstrained no_position = false
   /\ no_position !! "position" = None
   /\ patched_find satisfies self (Request ∅) None None
      = Ok (Some (location 1 1), Some (stimulus_at 1 1)))
  /\ (attention_skip (screen [("s1", far)] 0 []) ∅ far = false
      /\ text_skip unconstrained far = false
      /\ bad_position far OverflowError
      /\ patched_find satisfies (screen [("s1", far)] 0 []) (Request ∅) None None
         = Raise OverflowError).
Proof.
  split; [repeat split; vm_compute; reflexivity|].
  split; [vm_compute; reflexivity|]. split; [vm_compute; reflexivity|].
  split; [|vm_compute; reflexivity].
  right. exists (VTuple [VFloat infinity 0; VInt 0]), (VFloat infinity 0).
  split; [reflexivity|]. split; [reflexivity|]. left. vm_compute. reflexivity.
Qed.

(** C10 (amended): when a stimulus passes the attention and text filters
    and has no [position], or a position component that [int] refuses, and
    every stimulus enumerated before it is passed over, [patched_find]
    raises what line 112 raises on it, whatever follows it in the store:
    [KeyError] without a position, and for a component [TypeError],
    [ValueError] or, for an infinite float, [OverflowError]. *)
Theorem bad_position_is_raised chunk_le self otherchunk actrvariables
    extra_tests search pre each post e :
  chunk_used_for_search otherchunk (default ∅ actrvariables) = Ok search ->
  stimulus (environment self) = (pre ++ each :: post)%list ->
  Forall (passed_over chunk_le self search (default ∅ extra_tests)) pre ->
  attention_skip self (default ∅ extra_tests) each.2 = false ->
  text_skip search each.2 = false ->
  bad_position each.2 e ->
  (e = KeyError \/ e = ValueError \/ e = TypeError \/ e = OverflowError)
  /\ patched_find chunk_le self otherchunk actrvariables extra_tests = Raise e.
Proof.
  intros Hq Hstore Hpre Hatt Htext Hbad.
  destruct (bad_position_raises _ _ Hbad) as [Hp He]. split; [done|].
  rewrite (patched_find_resolved _ _ _ _ _ _ Hq), Hstore.
  apply scan_raises; [done|].
  unfold examine. by rewrite Hatt, Htext, Hp.
Qed.

(** *** Instances *)

Lemma unattended_request_excludes_recent_witness :
  let self :=
    screen [("s1", stimulus_at 1 1); ("s2", stimulus_at 2 2)] 4 [stimulus_at 1 1] in
  patched_find satisfies self (Request ∅) None (Some {[ "attended" := VBool false ]})
  = Ok (Some (location 2 2), Some (stimulus_at 2 2))
  /\ in_recent (stimulus_at 2 2) (recent self) = false.
Proof.
  intros self.
  assert (Hfind :
    patched_find satisfies self (Request ∅) None (Some {[ "attended" := VBool false ]})
    = Ok (Some (location 2 2), Some (stimulus_at 2 2)))
    by (vm_compute; reflexivity).
  split; [exact Hfind|].
  apply (unattended_request_excludes_recent satisfies self (Request ∅) None
           {[ "attended" := VBool false ]} (VBool false)
           (Some (location 2 2)) (stimulus_at 2 2)).
  - reflexivity.
  - by left.
  - simpl. lia.
  - exact Hfind.
Defined.

Lemma location_has_requested_coordinates_witness :
  let self := screen [("s1", stimulus_at 0 0); ("s2", stimulus_at 5 7)] 0 [] in
  let request := Request {[ "screen_x" := Concrete "5"; "screen_y" := VarRef "y" ]} in
  let bindings : gmap string string := {[ "y" := "7" ]} in
  patched_find satisfies self request (Some bindings) None
  = Ok (Some (location 5 7), Some (stimulus_at 5 7))
  /\ attributes (location 5 7) !! "screen_x" = Some (VInt 5)
  /\ attributes (location 5 7) !! "screen_y" = Some (VInt 7).
Proof.
  intros self request bindings.
  assert (Hfind :
    patched_find satisfies self request (Some bindings) None
    = Ok (Some (location 5 7), Some (stimulus_at 5 7)))
    by (vm_compute; reflexivity).
  split; [exact Hfind|].
  apply (location_has_requested_coordinates satisfies self request (Some bindings)
           None (at_point "5" "7") "5" "7" 5 7 (location 5 7)
           (Some (stimulus_at 5 7))).
  - vm_compute. reflexivity.
  - reflexivity.
  - reflexivity.
  - reflexivity.
  - reflexivity.
  - exact Hfind.
Defined.

Lemma location_has_no_reserved_keys_witness :
  let stim_attrs : gmap string pyval :=
    <["text" := VStr "X"]> (<["vis_delay" := VInt 3]> (red_at 2 3)) in
  let self := screen [("s1", stim_attrs)] 0 [] in
  let found :=
    makechunk VISUALLOCATION
      {[ "color" := VStr "red"; "screen_x" := VInt 2; "screen_y" := VInt 3 ]} in
  patched_find satisfies self (Request ∅) None None = Ok (Some found, Some stim_attrs)
  /\ forall k, k ∈ reserved -> attributes found !! k = None.
Proof.
  intros stim_attrs self found.
  assert (Hfind :
    patched_find satisfies self (Request ∅) None None
    = Ok (Some found, Some stim_attrs)) by (vm_compute; reflexivity).
  split; [exact Hfind|].
  exact (proj1 (location_has_no_reserved_keys satisfies self (Request ∅) None None
                  found (Some stim_attrs) Hfind)).
Defined.

Lemma patched_find_deterministic_witness :
  let self1 :=
    screen [("s1", stimulus_at 1 1); ("s2", stimulus_at 2 2)] 4
      [stimulus_at 1 1; stimulus_at 1 1] in
  let self2 :=
    screen [("a", stimulus_at 1 1); ("b", stimulus_at 2 2)] 9
      [red_at 3 3; stimulus_at 1 1] in
  let extra_tests1 : gmap string pyval := {[ "attended" := VBool false ]} in
  let extra_tests2 : gmap string pyval :=
    {[ "attended" := VBool false; "color" := VStr "red" ]} in
  patched_find satisfies self1 (Request ∅) None (Some extra_tests1)
  = Ok (Some (location 2 2), Some (stimulus_at 2 2))
  /\ patched_find satisfies self1 (Request ∅) None (Some extra_tests1)
     = patched_find satisfies self2 (Request ∅) None (Some extra_tests2).
Proof.
  intros self1 self2 extra_tests1 extra_tests2.
  split; [vm_compute; reflexivity|].
  apply (patched_find_deterministic satisfies self1 self2 (Request ∅) None
           (Some extra_tests1) (Some extra_tests2)).
  - reflexivity.
  - split; intros H; vm_compute in H; discriminate H.
  - intros each [<-|[<-|[]]]; vm_compute; reflexivity.
  - vm_compute. reflexivity.
Defined.

Lemma unparsed_coordinate_is_no_constraint_witness :
  let self := screen [("s1", stimulus_at 1 1); ("s2", stimulus_at 9 7)] 0 [] in
  let request :=
    Request {[ "screen_x" := Concrete "left"; "screen_y" := Concrete "7" ]} in
  patched_find satisfies self request None None
  = Ok (Some (location 9 7), Some (stimulus_at 9 7)).
Proof.
  intros self request.
  destruct (unparsed_coordinate_is_no_constraint satisfies self request None None
              (at_point "left" "7")) as [Hfound _].
  - vm_compute. reflexivity.
  - rewrite (Hfound [("s1", stimulus_at 1 1)] ("s2", stimulus_at 9 7) [] 9 7).
    + vm_compute. reflexivity.
    + reflexivity.
    + constructor; [left; vm_compute; reflexivity | constructor].
    + vm_compute. reflexivity.
    + reflexivity.
    + vm_compute. reflexivity.
    + left. intros (values & n & [= <-] & Hn). vm_compute in Hn. discriminate Hn.
    + right. exists "7". split; reflexivity.
    + vm_compute. reflexivity.
    + vm_compute. reflexivity.
Defined.

Lemma first_match_wins_witness :
  let self :=
    screen [("s1", stimulus_at 1 1); ("s2", stimulus_at 2 2); ("s3", stimulus_at 2 3)]
      0 [] in
  let request := Request {[ "screen_x" := Concrete "2" ]} in
  examine satisfies self (at_column "2") ∅ (stimulus_at 2 3) = Ok (Matched (location 2 3))
  /\ patched_find satisfies self request None None
     = Ok (Some (location 2 2), Some (stimulus_at 2 2)).
Proof.
  intros self request. split; [vm_compute; reflexivity|].
  apply (first_match_wins satisfies self request None None (at_column "2")
           [("s1", stimulus_at 1 1)] ("s2", stimulus_at 2 2)
           [("s3", stimulus_at 2 3)] (location 2 2)).
  - vm_compute. reflexivity.
  - reflexivity.
  - constructor; [left; vm_compute; reflexivity | constructor].
  - vm_compute. reflexivity.
Defined.

Lemma bad_position_is_raised_witness :
  let self :=
    screen [("s1", stimulus_at 1 1); ("s2", no_position); ("s3", stimulus_at 2 2)]
      0 [] in
  let request := Request {[ "screen_x" := Concrete "2" ]} in
  examine satisfies self (at_column "2") ∅ (stimulus_at 2 2) = Ok (Matched (location 2 2))
  /\ patched_find satisfies self request None None = Raise KeyError.
Proof.
  intros self request. split; [vm_compute; reflexivity|].
  apply (bad_position_is_raised satisfies self request None None (at_column "2")
           [("s1", stimulus_at 1 1)] ("s2", no_position)
           [("s3", stimulus_at 2 2)] KeyError).
  - vm_compute. reflexivity.
  - reflexivity.
  - constructor; [left; vm_compute; reflexivity | constructor].
  - vm_compute. reflexivity.
  - vm_compute. reflexivity.
  - left. split; reflexivity.
Defined.

(** ** [AgentTypeReturner] *)

Section AgentFactoryFacts.

Variable import_module : string -> result pymodule.

Lemma resolve_uncached_base self self' name :
  base_package self = base_package self' ->
  resolve_uncached import_module self name
  = resolve_uncached import_module self' name.
Proof. unfold resolve_uncached, _import_module. by intros ->. Qed.

(** The cache holds what resolution computes: entries are only written
    after a successful resolution. *)
Lemma reachable_cache base self :
  reachable import_module base self ->
  base_package self = base
  /\ forall name classes,
      _cache self !! name = Some classes ->
      resolve_uncached import_module self name = Ok classes.
Proof.
  induction 1 as [|self name' _ [Hbase Hcache]].
  - split; [done|]. intros name classes. simpl. by rewrite lookup_empty.
  - unfold _resolve_agent_classes.
    destruct (_cache self !! name') as [classes'|] eqn:Hc; simpl; [done|].
    destruct (resolve_uncached import_module self name') as [classes'|e] eqn:Hr;
      simpl; [|done].
    split; [done|]. intros name classes.
    rewrite (resolve_uncached_base _ self) by done.
    destruct (decide (name' = name)) as [->|Hne].
    + rewrite lookup_insert_eq. by intros [= <-].
    + rewrite lookup_insert_ne by done. apply Hcache.
Qed.

Lemma unresolvable_uncached self name :
  unresolvable import_module (base_package self) name ->
  resolve_uncached import_module self name = Raise ValueError.
Proof.
  unfold unresolvable, resolve_uncached, _import_module.
  intros [-> | (rm & -> & [-> | (am & -> & Hno)])]; simpl; try done.
  destruct Hno as [[-> ->] | [-> ->]]; simpl; [done|].
  by rewrite orb_true_r.
Qed.

End AgentFactoryFacts.

(** C8 (as stated it fails): the module [agents.Example] imports and has no
    attribute [Example], the expected class, yet nothing is raised: the
    first class the module defines is taken. *)
Lemma missing_expected_class_is_not_raised :
  "Example" <> "Human"
  /\ (exists runner_module,
        agents_package "agents.Example" = Ok runner_module
        /\ getattr runner_module "Example" ONone = ONone)
  /\ (_resolve_agent_classes agents_package (new_AgentTypeReturner "agents") "Example").1
     = Ok (OClass "agents.Example" "Runner",
           OClass "agents.ExampleAdapter" "ExampleAdapter").
Proof.
  split; [done|]. split; [eexists; split; reflexivity|]. vm_compute. reflexivity.
Qed.

(** C8 (amended): on a factory a program can hold, resolution raises
    [ValueError] and leaves the factory as it is whenever an import raises
    [ImportError], or both modules import and one of them has neither the
    expected attribute nor a class of its own; so does [return_agent_type]
    for every name but ["Human"]. *)
Theorem unresolvable_agent_type_raises (import_module : string -> result pymodule)
    {Env Ids Obj Agent : Type} (construct : pyobj -> Env -> result Obj)
    (build_agent : Obj -> Ids -> result Agent)
    (base : string) (self : AgentTypeReturner) (name : string)
    (actr_environment : Env) (agent_id_list : Ids) :
  reachable import_module base self ->
  unresolvable import_module base name ->
  _resolve_agent_classes import_module self name = (Raise ValueError, self)
  /\ (name <> "Human" ->
      return_agent_type import_module construct build_agent self name
        actr_environment agent_id_list
      = (Raise ValueError, self)).
Proof.
  intros Hreach Hun.
  destruct (reachable_cache _ _ _ Hreach) as [<- Hcache].
  pose proof (unresolvable_uncached _ _ _ Hun) as Hraise.
  assert (Hresolve :
    _resolve_agent_classes import_module self name = (Raise ValueError, self)).
  { unfold _resolve_agent_classes.
    destruct (_cache self !! name) as [classes|] eqn:Hc.
    - apply Hcache in Hc. congruence.
    - by rewrite Hraise. }
  split; [done|]. intros Hname. unfold return_agent_type.
  destruct (String.eqb_spec name "Human"); [done|]. by rewrite Hresolve.
Qed.

Lemma unresolvable_agent_type_raises_witness :
  let self := (_resolve_agent_classes agents_package
                 (new_AgentTypeReturner "agents") "Example").2 in
  _cache self !! "Example"
  = Some (OClass "agents.Example" "Runner",
          OClass "agents.ExampleAdapter" "ExampleAdapter")
  /\ _resolve_agent_classes agents_package self "Solo" = (Raise ValueError, self)
  /\ return_agent_type agents_package
       (fun (cls : pyobj) (_ : unit) => Ok cls)
       (fun (runner : pyobj) (ids : list nat) => Ok (length ids))
       self "Solo" tt [1; 2]%nat
     = (Raise ValueError, self).
Proof.
  intros self. split; [vm_compute; reflexivity|].
  destruct (unresolvable_agent_type_raises agents_package
              (fun (cls : pyobj) (_ : unit) => Ok cls)
              (fun (runner : pyobj) (ids : list nat) => Ok (length ids))
              "agents" self "Solo" tt [1; 2]%nat) as [Hresolve Hreturn].
  - apply reachable_resolve, reachable_new.
  - right. eexists. split; [reflexivity|]. left. reflexivity.
  - split; [exact Hresolve|]. apply Hreturn. discriminate.
Defined.

(** ** [build_level] *)

Lemma py_range_In (n i : Z) : In i (py_range n) <-> (0 <= i < n)%Z.
Proof.
  unfold py_range. rewrite in_map_iff. split.
  - intros (k & <- & Hk). apply in_seq in Hk. lia.
  - intros Hi. exists (Z.to_nat i). split; [lia|]. apply in_seq. lia.
Qed.

Lemma py_range_length (n : Z) : length (py_range n) = Z.to_nat n.
Proof. unfold py_range. by rewrite length_map, length_seq. Qed.

Lemma py_index_in_range (len : nat) (i : Z) :
  (0 <= i < Z.of_nat len)%Z -> py_index len i = Ok (Z.to_nat i).
Proof.
  intros Hi. unfold py_index.
  destruct (Z.leb_spec 0 i); [|lia]. destruct (Z.ltb_spec i (Z.of_nat len)); [|lia].
  reflexivity.
Qed.

Lemma In_firstn {A : Type} (x : A) (n : nat) (l : list A) :
  In x (firstn n l) -> In x l.
Proof.
  revert l. induction n as [|n IH]; intros [|y l]; simpl; try tauto.
  intros [->|H]; auto.
Qed.

Section BuildLevelFacts.

Context {Agent Rng : Type}.
Variable shuffle : Rng -> list (Z * Z) -> list (Z * Z) * Rng.

Lemma set_cell_in_range (matrix : list (list (option Agent)))
    (height width r c : Z) (agent : Agent) :
  well_shaped matrix height width ->
  (0 <= r < height)%Z -> (0 <= c < width)%Z ->
  exists matrix',
    set_cell matrix r c agent = Ok matrix' /\ well_shaped matrix' height width.
Proof.
  intros [Hlen Hrows] Hr Hc. unfold set_cell.
  rewrite py_index_in_range by lia. simpl.
  destruct (lookup_lt_is_Some_2 matrix (Z.to_nat r)) as [row Hrow]; [lia|].
  rewrite Hrow.
  pose proof (proj1 (Forall_lookup _ _) Hrows _ _ Hrow) as Hw. simpl in Hw.
  rewrite py_index_in_range by lia. simpl.
  eexists. split; [reflexivity|]. split.
  - by rewrite length_insert.
  - apply Forall_insert; [done|]. by rewrite length_insert.
Qed.

Lemma place_in_range (pairs : list (Agent * (Z * Z))) :
  forall (matrix : list (list (option Agent))) (height width : Z),
    well_shaped matrix height width ->
    Forall (fun pair : Agent * (Z * Z) =>
              (0 <= pair.2.1 < height)%Z /\ (0 <= pair.2.2 < width)%Z) pairs ->
    exists matrix',
      place matrix pairs = Ok matrix' /\ well_shaped matrix' height width.
Proof.
  induction pairs as [|[agent [r c]] pairs IH]; intros matrix height width Hm Hp.
  - exists matrix. by split.
  - inversion Hp as [|? ? [Hr Hc] Hp']; subst. simpl in Hr, Hc.
    destruct (set_cell_in_range matrix height width r c agent Hm Hr Hc)
      as (matrix' & Hset & Hm').
    simpl. rewrite Hset. simpl. by apply IH.
Qed.

Lemma empty_matrix_shaped (height width : Z) :
  well_shaped
    (map (fun _ : Z => map (fun _ : Z => @None Agent) (py_range width))
       (py_range height))
    height width.
Proof.
  split.
  - by rewrite length_map, py_range_length.
  - apply List.Forall_forall. intros row Hrow.
    apply in_map_iff in Hrow as (r & <- & _).
    by rewrite length_map, py_range_length.
Qed.

Lemma coords_in_range (height width r c : Z) :
  In (r, c)
    (flat_map (fun r => map (fun c => (r, c)) (py_range width)) (py_range height)) ->
  (0 <= r < height)%Z /\ (0 <= c < width)%Z.
Proof.
  rewrite in_flat_map. intros (r' & Hr & Hin).
  apply in_map_iff in Hin as (c' & [= <- <-] & Hc).
  by rewrite <- !py_range_In.
Qed.

Hypothesis shuffle_permutes :
  forall rng coords, Permutation coords (shuffle rng coords).1.

Lemma build_level_refused height width (agents : list Agent) rng :
  refused height width agents ->
  build_level shuffle height width agents rng = (Raise ValueError, rng).
Proof.
  unfold refused, build_level. intros Href.
  destruct (Z.leb_spec height 0); [done|].
  destruct (Z.leb_spec width 0); [done|]. simpl.
  destruct (Z.ltb_spec (height * width) (Z.of_nat (length agents))); [done|lia].
Qed.

Lemma build_level_accepted height width (agents : list Agent) rng :
  ~ refused height width agents ->
  exists matrix rng',
    build_level shuffle height width agents rng = (Ok matrix, rng')
    /\ well_shaped matrix height width.
Proof.
  unfold refused, build_level. intros Href.
  destruct (Z.leb_spec height 0); [lia|].
  destruct (Z.leb_spec width 0); [lia|]. simpl.
  destruct (Z.ltb_spec (height * width) (Z.of_nat (length agents))); [lia|].
  pose proof (shuffle_permutes rng
    (flat_map (fun r => map (fun c => (r, c)) (py_range width)) (py_range height)))
    as Hperm.
  destruct (shuffle rng _) as [coords rng']. simpl in Hperm.
  destruct (place_in_range
              (combine agents (firstn (Z.to_nat (Z.of_nat (length agents))) coords))
              _ height width (empty_matrix_shaped height width))
    as (matrix & Hplace & Hshape).
  - apply List.Forall_forall. intros [agent [r c]] Hin. simpl.
    apply in_combine_r, In_firstn in Hin.
    apply (Permutation_in _ (Permutation_sym Hperm)) in Hin.
    by apply coords_in_range.
  - exists matrix, rng'. by rewrite Hplace.
Qed.

End BuildLevelFacts.

(** C9: [build_level] raises [ValueError] if and only if [height <= 0] or
    [width <= 0] or [len(agents) > height * width]; it then raises before
    the generator is used and before any matrix exists; otherwise it
    returns a [height] by [width] matrix. *)
Theorem build_level_raises_iff {Agent Rng : Type}
    (shuffle : Rng -> list (Z * Z) -> list (Z * Z) * Rng)
    (height width : Z) (agents : list Agent) (rng : Rng) :
  (forall rng coords, Permutation coords (shuffle rng coords).1) ->
  ((exists e, (build_level shuffle height width agents rng).1 = Raise e)
   <-> (height <= 0 \/ width <= 0 \/ Z.of_nat (length agents) > height * width)%Z)
  /\ ((height <= 0 \/ width <= 0 \/ Z.of_nat (length agents) > height * width)%Z ->
      build_level shuffle height width agents rng = (Raise ValueError, rng))
  /\ (~ (height <= 0 \/ width <= 0 \/ Z.of_nat (length agents) > height * width)%Z ->
      exists matrix rng',
        build_level shuffle height width agents rng = (Ok matrix, rng')
        /\ well_shaped matrix height width).
Proof.
  intros Hperm.
  assert (Hiff : (height <= 0 \/ width <= 0
                  \/ Z.of_nat (length agents) > height * width)%Z
                 <-> refused height width agents) by (unfold refused; lia).
  assert (Hdec : refused height width agents \/ ~ refused height width agents)
    by (unfold refused; lia).
  rewrite !Hiff. repeat split.
  - intros [e He]. destruct Hdec as [|Hacc]; [done|].
    destruct (build_level_accepted shuffle Hperm _ _ _ rng Hacc)
      as (matrix & rng' & Hb & _).
    rewrite Hb in He. discriminate.
  - intros Href. exists ValueError.
    by rewrite (build_level_refused shuffle _ _ _ rng Href).
  - by apply build_level_refused.
  - by apply build_level_accepted.
Qed.

Example build_level_two_agents :
  build_level reversing 2 2 ["a"; "b"] 0%nat
  = (Ok [[None; None]; [Some "b"; Some "a"]], 1%nat).
Proof. reflexivity. Qed.

Example build_level_no_rows :
  build_level reversing 0 3 ([] : list string) 7%nat = (Raise ValueError, 7%nat).
Proof. reflexivity. Qed.

Lemma build_level_raises_iff_witness :
  build_level reversing 2 2 ["a"; "b"; "c"; "d"; "e"] 0%nat
  = (Raise ValueError, 0%nat)
  /\ exists matrix rng',
      build_level reversing 2 2 ["a"; "b"; "c"; "d"] 0%nat = (Ok matrix, rng')
      /\ well_shaped matrix 2 2.
Proof.
  assert (Hperm : forall (rng : nat) (coords : list (Z * Z)),
             Permutation coords (reversing rng coords).1)
    by (intros rng coords; apply Permutation_rev).
  split.
  - apply (build_level_raises_iff reversing 2 2 ["a"; "b"; "c"; "d"; "e"] 0%nat Hperm).
    simpl. lia.
  - apply (build_level_raises_iff reversing 2 2 ["a"; "b"; "c"; "d"] 0%nat Hperm).
    simpl. lia.
Defined.

(** * Further properties *)

(** ** [patched_find]: the filters *)

Lemma py_eq_None (v : pyval) : py_eq v VNone = true -> v = VNone.
Proof. by destruct v. Qed.

Lemma py_eq_VStr (s : string) (w : pyval) : py_eq (VStr s) w = true -> w = VStr s.
Proof.
  destruct w; simpl; try discriminate.
  intros H. apply String.eqb_eq in H. by subst.
Qed.

(** X1: when [extra_tests["attended"]] is neither [False], ["False"] nor
    [None] and the FINST history is enabled, a stimulus returned by
    [patched_find] is in [self.recent]. *)
Theorem attended_request_returns_recent chunk_le self otherchunk
    actrvariables extra_tests attended_flag found stim_attrs :
  extra_tests !! "attended" = Some attended_flag ->
  py_in attended_flag [VBool false; VStr "False"] = false ->
  attended_flag <> VNone ->
  finst self <> 0 ->
  patched_find chunk_le self otherchunk actrvariables (Some extra_tests)
  = Ok (found, Some stim_attrs) ->
  in_recent stim_attrs (recent self) = true.
Proof.
  intros Hflag Hfalse Hnone Hfinst Hfind.
  destruct (patched_find_inv _ _ _ _ _ _ Hfind) as (search & _ & Hscan).
  destruct (scan_found_stim _ _ _ _ _ _ _ _ Hscan)
    as [|(each & o & _ & _ & He & Ho)]; [discriminate|].
  destruct (examine_reaches _ _ _ _ _ _ He Ho) as (Hatt & _).
  unfold attention_skip in Hatt. simpl default in Hatt. rewrite Hflag in Hatt.
  cbn [default from_option id] in Hatt. rewrite Hfalse in Hatt.
  assert (Hn : py_eq attended_flag VNone = false).
  { destruct (py_eq attended_flag VNone) eqn:E; [|done].
    by apply py_eq_None in E. }
  rewrite Hn in Hatt. cbn [negb andb] in Hatt.
  assert (Ht : truthy_int (finst self) = true).
  { unfold truthy_int. by destruct (Z.eqb_spec (finst self) 0). }
  rewrite Ht in Hatt. cbn [andb] in Hatt.
  by destruct (in_recent stim_attrs (recent self)).
Qed.

Lemma attended_request_returns_recent_witness :
  let self :=
    screen [("s1", stimulus_at 1 1); ("s2", stimulus_at 2 2)] 4 [stimulus_at 2 2] in
  patched_find satisfies self (Request ∅) None (Some {[ "attended" := VStr "yes" ]})
  = Ok (Some (location 2 2), Some (stimulus_at 2 2))
  /\ in_recent (stimulus_at 2 2) (recent self) = true.
Proof.
  intros self.
  assert (Hfind :
    patched_find satisfies self (Request ∅) None (Some {[ "attended" := VStr "yes" ]})
    = Ok (Some (location 2 2), Some (stimulus_at 2 2)))
    by (vm_compute; reflexivity).
  split; [exact Hfind|].
  apply (attended_request_returns_recent satisfies self (Request ∅) None
           {[ "attended" := VStr "yes" ]} (VStr "yes")
           (Some (location 2 2)) (stimulus_at 2 2)).
  - reflexivity.
  - reflexivity.
  - discriminate.
  - simpl. lia.
  - exact Hfind.
Defined.

(** X2: when the FINST count is zero, or [extra_tests] has no [attended]
    entry (or holds [None] there), the attention filter is off: the result
    is the one obtained without extra tests and without history. *)
Theorem attention_filter_off chunk_le self otherchunk actrvariables extra_tests :
  finst self = 0 \/ default VNone (extra_tests !! "attended") = VNone ->
  patched_find chunk_le self otherchunk actrvariables (Some extra_tests)
  = patched_find chunk_le
      {| environment := environment self; finst := 0; recent := [] |}
      otherchunk actrvariables None.
Proof.
  intros Hoff. unfold patched_find.
  destruct (chunk_used_for_search otherchunk (default ∅ actrvariables))
    as [search|e]; simpl; [|done].
  apply scan_attention, List.Forall_forall. intros each _.
  unfold attention_skip. cbn [finst default from_option id].
  rewrite lookup_empty. cbn [from_option].
  change (py_in VNone [VBool false; VStr "False"]) with false.
  change (py_eq VNone VNone) with true. cbn [negb andb].
  destruct Hoff as [-> | ->].
  - change (truthy_int 0) with false. cbn [andb].
    destruct (py_in _ _); [done|]. by destruct (negb _ && negb _).
  - reflexivity.
Qed.

Lemma attention_filter_off_witness :
  let store := [("s1", stimulus_at 1 1); ("s2", stimulus_at 2 2)] in
  patched_find satisfies (screen store 0 [stimulus_at 1 1]) (Request ∅) None
    (Some {[ "attended" := VBool false ]})
  = Ok (Some (location 1 1), Some (stimulus_at 1 1))
  /\ patched_find satisfies (screen store 4 [stimulus_at 1 1]) (Request ∅) None
       (Some {[ "color" := VStr "red" ]})
     = Ok (Some (location 1 1), Some (stimulus_at 1 1)).
Proof.
  intros store. split.
  - rewrite (attention_filter_off satisfies (screen store 0 [stimulus_at 1 1])
               (Request ∅) None {[ "attended" := VBool false ]}).
    + vm_compute. reflexivity.
    + left. reflexivity.
  - rewrite (attention_filter_off satisfies (screen store 4 [stimulus_at 1 1])
               (Request ∅) None {[ "color" := VStr "red" ]}).
    + vm_compute. reflexivity.
    + right. reflexivity.
Defined.

(** X3: when the [value] slot of the resolved request holds a string, a
    stimulus returned by [patched_find] has that string as its [text]. *)
Theorem returned_stimulus_has_requested_text chunk_le self otherchunk
    actrvariables extra_tests search v found stim_attrs :
  chunk_used_for_search otherchunk (default ∅ actrvariables) = Ok search ->
  value search = Varval (Some v) ->
  patched_find chunk_le self otherchunk actrvariables extra_tests
  = Ok (found, Some stim_attrs) ->
  stim_attrs !! "text" = Some (VStr v).
Proof.
  intros Hq Hv Hfind.
  rewrite (patched_find_resolved _ _ _ _ _ _ Hq) in Hfind.
  destruct (scan_found_stim _ _ _ _ _ _ _ _ Hfind)
    as [|(each & o & _ & _ & He & Ho)]; [discriminate|].
  destruct (examine_reaches _ _ _ _ _ _ He Ho) as (_ & Htext & _).
  unfold text_skip in Htext. rewrite Hv in Htext. simpl in Htext.
  apply negb_false_iff, py_eq_VStr in Htext.
  destruct (stim_attrs !! "text") as [w|]; simpl in Htext; [by subst|discriminate].
Qed.

Lemma returned_stimulus_has_requested_text_witness :
  let target : gmap string pyval := <["text" := VStr "TARGET"]> (stimulus_at 2 2) in
  let self :=
    screen [("s1", <["text" := VStr "X"]> (stimulus_at 1 1)); ("s2", target)] 0 [] in
  let request := Request {[ "value" := Concrete "TARGET" ]} in
  patched_find satisfies self request None None = Ok (Some (location 2 2), Some target)
  /\ target !! "text" = Some (VStr "TARGET").
Proof.
  intros target self request.
  assert (Hfind :
    patched_find satisfies self request None None
    = Ok (Some (location 2 2), Some target)) by (vm_compute; reflexivity).
  split; [exact Hfind|].
  apply (returned_stimulus_has_requested_text satisfies self request None None
           {| value := Varval (Some "TARGET"); screen_x := EmptyValue;
              screen_y := EmptyValue; slots := ∅ |}
           "TARGET" (Some (location 2 2)) target).
  - vm_compute. reflexivity.
  - reflexivity.
  - exact Hfind.
Defined.

(** X4: when the [screen_x] and [screen_y] slots of the resolved request
    hold strings that [int] accepts, a stimulus returned by [patched_find],
    with or without a location chunk, has those integers as its position. *)
Theorem returned_stimulus_has_requested_position chunk_le self otherchunk
    actrvariables extra_tests search sx sy x y found stim_attrs :
  chunk_used_for_search otherchunk (default ∅ actrvariables) = Ok search ->
  screen_x search = Varval (Some sx) -> int_of_string sx = Ok x ->
  screen_y search = Varval (Some sy) -> int_of_string sy = Ok y ->
  patched_find chunk_le self otherchunk actrvariables extra_tests
  = Ok (found, Some stim_attrs) ->
  position_of stim_attrs = Ok (x, y).
Proof.
  intros Hq Hsx Hx Hsy Hy Hfind.
  rewrite (patched_find_resolved _ _ _ _ _ _ Hq) in Hfind.
  destruct (scan_found_stim _ _ _ _ _ _ _ _ Hfind)
    as [|(each & o & _ & _ & He & Ho)]; [discriminate|].
  destruct (examine_reaches _ _ _ _ _ _ He Ho)
    as (_ & _ & px & py & Hp & Hpx & Hpy & _).
  rewrite Hsx in Hpx. rewrite Hsy in Hpy.
  apply (screen_skip_parsed _ _ _ Hx) in Hpx.
  apply (screen_skip_parsed _ _ _ Hy) in Hpy. by subst.
Qed.

Lemma returned_stimulus_has_requested_position_witness :
  let self := screen [("s1", stimulus_at 0 0); ("s2", red_at 5 7)] 0 [] in
  let request :=
    Request {[ "screen_x" := Concrete "5"; "screen_y" := Concrete " 7";
               "color" := Concrete "blue" ]} in
  patched_find satisfies self request None None = Ok (None, Some (red_at 5 7))
  /\ position_of (red_at 5 7) = Ok (5, 7).
Proof.
  intros self request.
  assert (Hfind :
    patched_find satisfies self request None None = Ok (None, Some (red_at 5 7)))
    by (vm_compute; reflexivity).
  split; [exact Hfind|].
  apply (returned_stimulus_has_requested_position satisfies self request None None
           {| value := EmptyValue; screen_x := Varval (Some "5");
              screen_y := Varval (Some " 7");
              slots := {[ "color" := Varval (Some "blue") ]} |}
           "5" " 7" 5 7 None (red_at 5 7)).
  - vm_compute. reflexivity.
  - reflexivity.
  - reflexivity.
  - reflexivity.
  - reflexivity.
  - exact Hfind.
Defined.

(** ** [patched_find]: what the scan returns and raises *)

Section ScanFacts.

Variable chunk_le : LocationRecord -> Chunk -> bool.
Variable self : VisualLocation.
Variable search : Chunk.
Variable extra_tests : gmap string pyval.

Local Abbreviation examine' := (examine chunk_le self search extra_tests).
Local Abbreviation scan' := (scan chunk_le self search extra_tests).

(** Without a match, [found_stim] is the last stimulus that reached the
    compatibility test, or the initial value when there is none. *)
Lemma scan_unmatched store found_stim r :
  scan' store found_stim = Ok (None, r) ->
  (r = found_stim
   /\ Forall (fun each : string * gmap string pyval =>
                examine' each.2 = Ok Skipped) store)
  \/ exists pre each post,
      store = (pre ++ each :: post)%list
      /\ r = Some each.2
      /\ examine' each.2 = Ok Rejected
      /\ Forall (fun each : string * gmap string pyval =>
                   examine' each.2 = Ok Skipped) post.
Proof.
  revert found_stim.
  induction store as [|each store IH]; intros found_stim; simpl.
  - intros [= <-]. left. by split.
  - destruct (examine' each.2) as [[| |found']|e] eqn:He; simpl; try discriminate.
    + intros H. destruct (IH _ H) as [[-> Hall]|(pre & x & post & -> & Hx)].
      * left. split; [done|]. by constructor.
      * right. by exists (each :: pre), x, post.
    + intros H. destruct (IH _ H) as [[-> Hall]|(pre & x & post & -> & Hx)].
      * right. by exists [], each, store.
      * right. by exists (each :: pre), x, post.
Qed.

(** An exception comes from a stimulus that passed the attention and text
    filters: from line 112, or from the call of lines 139-143 on a stimulus
    that passed the coordinate filter as well. *)
Lemma scan_raised store found_stim e :
  scan' store found_stim = Raise e ->
  exists each,
    In each store
    /\ attention_skip self extra_tests each.2 = false
    /\ text_skip search each.2 = false
    /\ (position_of each.2 = Raise e
        \/ exists x y,
            position_of each.2 = Ok (x, y)
            /\ screen_skip (screen_x search) x = Ok false
            /\ screen_skip (screen_y search) y = Ok false
            /\ repeats_keyword (filtered each.2) = true
            /\ e = TypeError).
Proof.
  revert found_stim.
  induction store as [|each store IH]; intros found_stim; simpl; [discriminate|].
  destruct (examine' each.2) as [[| |found']|e'] eqn:He; simpl.
  - intros H. destruct (IH _ H) as (x & Hin & Hx). exists x. auto.
  - intros H. destruct (IH _ H) as (x & Hin & Hx). exists x. auto.
  - discriminate.
  - intros [= <-]. exists each. split; [by left|].
    unfold examine in He.
    destruct (attention_skip self extra_tests each.2); [discriminate|].
    destruct (text_skip search each.2); [discriminate|].
    do 2 (split; [done|]).
    destruct (position_of each.2) as [[x y]|e'']; [|left; by injection He as <-].
    right. exists x, y. cbn [bind fst snd] in He.
    destruct (screen_skip_total (screen_x search) x) as [[|] Hx];
      rewrite Hx in He; cbn [bind] in He; [discriminate|].
    destruct (screen_skip_total (screen_y search) y) as [[|] Hy];
      rewrite Hy in He; cbn [bind] in He; [discriminate|].
    unfold call_makechunk in He.
    destruct (repeats_keyword (filtered each.2)); cbn [bind] in He.
    + by injection He as <-.
    + destruct (chunk_le _ search); discriminate.
Qed.

(** Stimuli that a filter skips can be left out of the store. *)
Lemma scan_without_skipped store found_stim :
  scan' (List.filter (fun each => negb (skipped chunk_le self search extra_tests each))
           store) found_stim
  = scan' store found_stim.
Proof.
  revert found_stim.
  induction store as [|each store IH]; intros found_stim; simpl; [done|].
  unfold skipped at 1.
  destruct (examine' each.2) as [[| |found']|e] eqn:He; simpl; rewrite ?He; simpl;
    auto.
Qed.

End ScanFacts.

Lemma position_of_raises stim_attrs e :
  position_of stim_attrs = Raise e ->
  e = KeyError \/ e = IndexError \/ e = TypeError \/ e = ValueError
  \/ e = OverflowError.
Proof.
  assert (Hget : forall p i e', py_getitem p i = Raise e' ->
                                e' = IndexError \/ e' = TypeError).
  { intros p i e'. destruct p as [| | |f obj|s|items]; simpl;
      try (intros [= <-]; by right).
    - destruct (String.get i s); [discriminate|]. intros [= <-]. by left.
    - destruct (nth_error items i); [discriminate|]. intros [= <-]. by left. }
  unfold position_of, position_attr.
  destruct (stim_attrs !! "position") as [p|]; simpl; [|intros [= <-]; by left].
  destruct (py_getitem p 0) as [c0|e0] eqn:H0; simpl.
  2: { intros [= <-]. destruct (Hget _ _ _ H0) as [-> | ->]; auto. }
  destruct (py_int c0) as [x|e0] eqn:Hx; simpl.
  2: { intros [= <-]. destruct (py_int_raises _ _ Hx) as [-> | [-> | ->]]; auto 6. }
  destruct (py_getitem p 1) as [c1|e1] eqn:H1; simpl.
  2: { intros [= <-]. destruct (Hget _ _ _ H1) as [-> | ->]; auto. }
  destruct (py_int c1) as [y|e1] eqn:Hy; simpl; [discriminate|].
  intros [= <-]. destruct (py_int_raises _ _ Hy) as [-> | [-> | ->]]; auto 6.
Qed.

(** X5: when [patched_find] returns no location chunk, the stimulus it
    returns is [None] if every stimulus was skipped by a filter, and
    otherwise the last stimulus of the store that passed the filters and was
    rejected by the compatibility test. *)
Theorem unmatched_result_is_last_rejected chunk_le self otherchunk
    actrvariables extra_tests search found_stim :
  chunk_used_for_search otherchunk (default ∅ actrvariables) = Ok search ->
  patched_find chunk_le self otherchunk actrvariables extra_tests
  = Ok (None, found_stim) ->
  (found_stim = None
   /\ Forall (fun each : string * gmap string pyval =>
                examine chunk_le self search (default ∅ extra_tests) each.2
                = Ok Skipped) (stimulus (environment self)))
  \/ exists pre each post,
      stimulus (environment self) = (pre ++ each :: post)%list
      /\ found_stim = Some each.2
      /\ examine chunk_le self search (default ∅ extra_tests) each.2 = Ok Rejected
      /\ chunk_le (makechunk "_visuallocation" (filtered each.2)) search = false
      /\ Forall (fun each : string * gmap string pyval =>
                   examine chunk_le self search (default ∅ extra_tests) each.2
                   = Ok Skipped) post.
Proof.
  intros Hq Hfind.
  rewrite (patched_find_resolved _ _ _ _ _ _ Hq) in Hfind.
  destruct (scan_unmatched _ _ _ _ _ _ _ Hfind)
    as [[-> Hall]|(pre & each & post & Hs & -> & He & Hpost)].
  - left. by split.
  - right. exists pre, each, post. repeat split; try done.
    destruct (examine_reaches _ _ _ _ _ _ He)
      as (_ & _ & x & y & _ & _ & _ & _ & Ho);
      [discriminate|].
    by destruct (chunk_le _ search).
Qed.

Lemma unmatched_result_is_last_rejected_witness :
  let self :=
    screen [("s1", red_at 1 1); ("s2", red_at 2 2); ("s3", stimulus_at 7 7)] 0 [] in
  let request := Request {[ "color" := Concrete "blue"; "screen_x" := VarRef "x" ]} in
  let bindings : gmap string string := {[ "x" := "2" ]} in
  patched_find satisfies self request (Some bindings) None
  = Ok (None, Some (red_at 2 2)).
Proof.
  intros self request bindings.
  assert (Hfind :
    patched_find satisfies self request (Some bindings) None
    = Ok (None, Some (red_at 2 2))) by (vm_compute; reflexivity).
  destruct (unmatched_result_is_last_rejected satisfies self request (Some bindings)
              None
              {| value := EmptyValue; screen_x := Varval (Some "2");
                 screen_y := EmptyValue;
                 slots := {[ "color" := Varval (Some "blue") ]} |}
              (Some (red_at 2 2)))
    as [[Hnone _]|(pre & each & post & _ & Hsome & _)].
  - vm_compute. reflexivity.
  - exact Hfind.
  - discriminate.
  - exact Hfind.
Defined.

(** A stimulus with an attribute named [typename] passes the filters and
    is refused by the call of lines 139-143. *)
Example typename_attribute_raises :
  let odd : gmap string pyval := <["typename" := VStr "cue"]> (stimulus_at 1 1) in
  position_of odd = Ok (1, 1)
  /\ repeats_keyword (filtered odd) = true
  /\ patched_find satisfies (screen [("s1", odd)] 0 []) (Request ∅) None None
     = Raise TypeError.
Proof. repeat split; vm_compute; reflexivity. Qed.

(** X6: once the request has resolved, an exception raised by
    [patched_find] comes from a stimulus of the store that passed the
    attention and text filters. It is the [KeyError], [IndexError],
    [TypeError], [ValueError] or [OverflowError] that line 112 raises on the
    position of that stimulus, or the [TypeError] of the call of lines
    139-143 on a stimulus that passed the coordinate filter and has an
    attribute named [nameofchunk] or [typename]. The filters themselves
    raise nothing; what pyactr's [makechunk], [Chunk] and [<=] do once
    called is theirs. *)
Theorem raised_exception_comes_from_a_stimulus chunk_le self otherchunk
    actrvariables extra_tests search e :
  chunk_used_for_search otherchunk (default ∅ actrvariables) = Ok search ->
  patched_find chunk_le self otherchunk actrvariables extra_tests = Raise e ->
  exists each,
    In each (stimulus (environment self))
    /\ attention_skip self (default ∅ extra_tests) each.2 = false
    /\ text_skip search each.2 = false
    /\ ((position_of each.2 = Raise e
         /\ (e = KeyError \/ e = IndexError \/ e = TypeError \/ e = ValueError
             \/ e = OverflowError))
        \/ (e = TypeError
            /\ repeats_keyword (filtered each.2) = true
            /\ exists x y,
                position_of each.2 = Ok (x, y)
                /\ screen_skip (screen_x search) x = Ok false
                /\ screen_skip (screen_y search) y = Ok false)).
Proof.
  intros Hq Hfind.
  rewrite (patched_find_resolved _ _ _ _ _ _ Hq) in Hfind.
  destruct (scan_raised _ _ _ _ _ _ _ Hfind)
    as (each & Hin & Ha & Ht & [Hp|(x & y & Hp & Hx & Hy & Hk & ->)]).
  - exists each. do 3 (split; [done|]). left. split; [done|].
    by eapply position_of_raises.
  - exists each. do 3 (split; [done|]). right. do 2 (split; [done|]).
    by exists x, y.
Qed.

Lemma raised_exception_comes_from_a_stimulus_witness :
  let short : gmap string pyval := {[ "position" := VTuple [VInt 3] ]} in
  let self := screen [("s1", stimulus_at 1 1); ("s2", short)] 0 [] in
  let request := Request {[ "screen_x" := Concrete "3" ]} in
  patched_find satisfies self request None None = Raise IndexError
  /\ exists each,
      In each (stimulus (environment self)) /\ position_of each.2 = Raise IndexError.
Proof.
  intros short self request.
  assert (Hfind : patched_find satisfies self request None None = Raise IndexError)
    by (vm_compute; reflexivity).
  split; [exact Hfind|].
  destruct (raised_exception_comes_from_a_stimulus satisfies self request None None
              (at_column "3") IndexError)
    as (each & Hin & _ & _ & [[Hp _]|[Hno _]]).
  - vm_compute. reflexivity.
  - exact Hfind.
  - exists each. split; [exact Hin | exact Hp].
  - discriminate Hno.
Defined.

(** X7: stimuli that a filter skips are silent: leaving them out of the
    store does not change what [patched_find] returns or raises. *)
Theorem skipped_stimuli_are_silent chunk_le self self' otherchunk
    actrvariables extra_tests search :
  chunk_used_for_search otherchunk (default ∅ actrvariables) = Ok search ->
  finst self' = finst self ->
  recent self' = recent self ->
  stimulus (environment self')
  = List.filter
      (fun each => negb (skipped chunk_le self search (default ∅ extra_tests) each))
      (stimulus (environment self)) ->
  patched_find chunk_le self' otherchunk actrvariables extra_tests
  = patched_find chunk_le self otherchunk actrvariables extra_tests.
Proof.
  intros Hq Hf Hr Hs.
  rewrite !(patched_find_resolved _ _ _ _ _ _ Hq), Hs.
  rewrite <- (scan_without_skipped chunk_le self).
  apply scan_attention, List.Forall_forall. intros each _.
  unfold attention_skip. by rewrite Hf, Hr.
Qed.

Lemma skipped_stimuli_are_silent_witness :
  let request := Request {[ "screen_x" := Concrete "2" ]} in
  patched_find satisfies (screen [("s2", stimulus_at 2 2)] 0 []) request None None
  = patched_find satisfies
      (screen [("s1", stimulus_at 1 1); ("s2", stimulus_at 2 2); ("s3", stimulus_at 3 3)]
         0 [])
      request None None.
Proof.
  intros request.
  apply (skipped_stimuli_are_silent satisfies
           (screen [("s1", stimulus_at 1 1); ("s2", stimulus_at 2 2);
                    ("s3", stimulus_at 3 3)] 0 [])
           (screen [("s2", stimulus_at 2 2)] 0 [])
           request None None (at_column "2")).
  - vm_compute. reflexivity.
  - reflexivity.
  - reflexivity.
  - vm_compute. reflexivity.
Defined.

(** X8: the ids under which the store keeps the stimuli do not matter: two
    stores that enumerate the same stimuli in the same order give the same
    result. *)
Theorem stimulus_ids_are_irrelevant chunk_le self1 self2 otherchunk
    actrvariables extra_tests :
  List.map snd (stimulus (environment self1))
  = List.map snd (stimulus (environment self2)) ->
  finst self1 = finst self2 ->
  recent self1 = recent self2 ->
  patched_find chunk_le self1 otherchunk actrvariables extra_tests
  = patched_find chunk_le self2 otherchunk actrvariables extra_tests.
Proof.
  intros Hs Hf Hr. unfold patched_find.
  destruct (chunk_used_for_search otherchunk (default ∅ actrvariables))
    as [search|e]; simpl; [|done].
  rewrite (scan_ignores_ids _ _ _ _ _ _ _ Hs).
  apply scan_attention, List.Forall_forall. intros each _.
  unfold attention_skip. by rewrite Hf, Hr.
Qed.

Lemma stimulus_ids_are_irrelevant_witness :
  patched_find satisfies
    (screen [("a", stimulus_at 1 1); ("b", stimulus_at 2 2)] 0 [])
    (Request {[ "screen_x" := Concrete "2" ]}) None None
  = patched_find satisfies
      (screen [("left", stimulus_at 1 1); ("right", stimulus_at 2 2)] 0 [])
      (Request {[ "screen_x" := Concrete "2" ]}) None None.
Proof.
  apply (stimulus_ids_are_irrelevant satisfies); reflexivity.
Defined.

(** ** [AgentTypeReturner]: the cache *)

(** X9: a resolution that succeeded is cached: resolving the same name
    again returns the same classes and leaves the factory as it is, and no
    module is imported for it (the result is the same for every importer). *)
Theorem resolution_is_cached (import_module import_module' : string -> result pymodule)
    (self self' : AgentTypeReturner) (name : string) (classes : pyobj * pyobj) :
  _resolve_agent_classes import_module self name = (Ok classes, self') ->
  _resolve_agent_classes import_module' self' name = (Ok classes, self').
Proof.
  unfold _resolve_agent_classes.
  destruct (_cache self !! name) as [cached|] eqn:Hc.
  - intros [= <- <-]. by rewrite Hc.
  - destruct (resolve_uncached import_module self name) as [found|e];
      [|discriminate].
    intros [= <- <-]. simpl. by rewrite lookup_insert_eq.
Qed.

Lemma resolution_is_cached_witness :
  let self' := (_resolve_agent_classes agents_package
                  (new_AgentTypeReturner "agents") "Example").2 in
  _resolve_agent_classes (fun _ => Raise ImportError) self' "Example"
  = (Ok (OClass "agents.Example" "Runner",
         OClass "agents.ExampleAdapter" "ExampleAdapter"), self').
Proof.
  intros self'.
  apply (resolution_is_cached agents_package (fun _ => Raise ImportError)
           (new_AgentTypeReturner "agents") self' "Example").
  vm_compute. reflexivity.
Defined.

(** X10: resolving a name never changes the package, never changes or
    removes a cache entry, and adds at most the entry for that name; a
    resolution that raises leaves the factory as it is. *)
Theorem resolution_only_adds_its_entry (import_module : string -> result pymodule)
    (self : AgentTypeReturner) (name : string) :
  let outcome := _resolve_agent_classes import_module self name in
  base_package outcome.2 = base_package self
  /\ (forall other classes,
        _cache self !! other = Some classes ->
        _cache outcome.2 !! other = Some classes)
  /\ (forall other, other <> name -> _cache outcome.2 !! other = _cache self !! other)
  /\ (forall e, outcome.1 = Raise e -> outcome.2 = self).
Proof.
  unfold _resolve_agent_classes.
  destruct (_cache self !! name) as [cached|] eqn:Hc; simpl; [done|].
  destruct (resolve_uncached import_module self name) as [found|e]; simpl; [|done].
  repeat split; try done.
  - intros other classes Ho. rewrite lookup_insert_ne; [done|]. congruence.
  - intros other Hne. by rewrite lookup_insert_ne.
Qed.

Section ResolutionFacts.

Variable import_module : string -> result pymodule.

Lemma resolve_uncached_not_none self name runner_cls adapter_cls :
  resolve_uncached import_module self name = Ok (runner_cls, adapter_cls) ->
  runner_cls <> ONone /\ adapter_cls <> ONone.
Proof.
  unfold resolve_uncached.
  destruct (try_except (_import_module import_module self _) _ _) as [rm|e];
    simpl; [|discriminate].
  destruct (try_except (_import_module import_module self _) _ _) as [am|e];
    simpl; [|discriminate].
  destruct (is_none (if is_none (getattr rm name ONone) then _ else _)) eqn:Hr;
    simpl; [discriminate|].
  destruct (is_none (if is_none (getattr am _ ONone) then _ else _)) eqn:Ha;
    simpl; [discriminate|].
  intros [= <- <-]. split; intros E; rewrite E in *; discriminate.
Qed.

Lemma resolve_uncached_expected self name runner_module adapter_module :
  import_module (base_package self ++ "." ++ name) = Ok runner_module ->
  import_module (base_package self ++ "." ++ name ++ "Adapter") = Ok adapter_module ->
  getattr runner_module name ONone <> ONone ->
  getattr adapter_module (name ++ "Adapter") ONone <> ONone ->
  resolve_uncached import_module self name
  = Ok (getattr runner_module name ONone,
        getattr adapter_module (name ++ "Adapter") ONone).
Proof.
  intros Hr Ha Hrc Hac. unfold resolve_uncached, _import_module.
  rewrite Hr, Ha. simpl.
  destruct (getattr runner_module name ONone) as [| |]; [done| |];
    destruct (getattr adapter_module (name ++ "Adapter") ONone) as [| |];
    done.
Qed.

End ResolutionFacts.

(** X11: on a factory a program can hold, a resolution that succeeds never
    returns [None] for the runner class or for the adapter class. *)
Theorem resolved_classes_are_not_none (import_module : string -> result pymodule)
    (base : string) (self self' : AgentTypeReturner) (name : string)
    (runner_cls adapter_cls : pyobj) :
  reachable import_module base self ->
  _resolve_agent_classes import_module self name
  = (Ok (runner_cls, adapter_cls), self') ->
  runner_cls <> ONone /\ adapter_cls <> ONone.
Proof.
  intros Hreach. destruct (reachable_cache _ _ _ Hreach) as [_ Hcache].
  unfold _resolve_agent_classes.
  destruct (_cache self !! name) as [cached|] eqn:Hc.
  - intros [= -> _]. apply Hcache in Hc.
    by apply resolve_uncached_not_none in Hc.
  - destruct (resolve_uncached import_module self name) as [found|e] eqn:Hr;
      [|discriminate].
    intros [= -> _]. by apply resolve_uncached_not_none in Hr.
Qed.

Lemma resolved_classes_are_not_none_witness :
  OClass "agents.Example" "Runner" <> ONone
  /\ OClass "agents.ExampleAdapter" "ExampleAdapter" <> ONone.
Proof.
  apply (resolved_classes_are_not_none agents_package "agents"
           (new_AgentTypeReturner "agents")
           (_resolve_agent_classes agents_package
              (new_AgentTypeReturner "agents") "Example").2
           "Example").
  - apply reachable_new.
  - vm_compute. reflexivity.
Defined.

(** X12: the naming convention comes first: on a factory a program can
    hold, when both modules import and each has an attribute of the expected
    name that is not [None], resolution returns exactly these two
    attributes, whatever classes the modules define. *)
Theorem expected_names_are_preferred (import_module : string -> result pymodule)
    (base : string) (self : AgentTypeReturner) (name : string)
    (runner_module adapter_module : pymodule) :
  reachable import_module base self ->
  import_module (base ++ "." ++ name) = Ok runner_module ->
  import_module (base ++ "." ++ name ++ "Adapter") = Ok adapter_module ->
  getattr runner_module name ONone <> ONone ->
  getattr adapter_module (name ++ "Adapter") ONone <> ONone ->
  (_resolve_agent_classes import_module self name).1
  = Ok (getattr runner_module name ONone,
        getattr adapter_module (name ++ "Adapter") ONone).
Proof.
  intros Hreach Hr Ha Hrc Hac.
  destruct (reachable_cache _ _ _ Hreach) as [<- Hcache].
  pose proof (resolve_uncached_expected _ self name _ _ Hr Ha Hrc Hac) as Hres.
  unfold _resolve_agent_classes.
  destruct (_cache self !! name) as [cached|] eqn:Hc.
  - apply Hcache in Hc. simpl. congruence.
  - by rewrite Hres.
Qed.

Lemma expected_names_are_preferred_witness :
  _first_local_class
    {| __name__ := "agents.Tidy";
       members := [("Helper", OClass "agents.Tidy" "Helper");
                   ("Tidy", OClass "agents.Tidy" "Tidy")] |}
  = OClass "agents.Tidy" "Helper"
  /\ (_resolve_agent_classes tidy_package (new_AgentTypeReturner "agents") "Tidy").1
     = Ok (OClass "agents.Tidy" "Tidy", OClass "agents.TidyAdapter" "TidyAdapter").
Proof.
  split; [reflexivity|].
  apply (expected_names_are_preferred tidy_package "agents"
           (new_AgentTypeReturner "agents") "Tidy"
           {| __name__ := "agents.Tidy";
              members := [("Helper", OClass "agents.Tidy" "Helper");
                          ("Tidy", OClass "agents.Tidy" "Tidy")] |}
           {| __name__ := "agents.TidyAdapter";
              members := [("Bridge", OClass "agents.TidyAdapter" "Bridge");
                          ("TidyAdapter",
                           OClass "agents.TidyAdapter" "TidyAdapter")] |}).
  - apply reachable_new.
  - reflexivity.
  - reflexivity.
  - discriminate.
  - discriminate.
Defined.

(** X13: [_first_local_class] returns [None] exactly when no member of the
    module is a class defined in that module; otherwise it returns the
    first such member in the order of [inspect.getmembers], passing over
    classes imported from elsewhere. *)
Theorem first_local_class_is_first (module : pymodule) :
  (_first_local_class module = ONone
   <-> Forall (fun m : string * pyobj => is_local_class module m.2 = false)
         (members module))
  /\ (_first_local_class module <> ONone ->
      exists pre m post,
        members module = (pre ++ m :: post)%list
        /\ _first_local_class module = m.2
        /\ is_local_class module m.2 = true
        /\ Forall (fun m : string * pyobj => is_local_class module m.2 = false) pre).
Proof.
  unfold _first_local_class.
  generalize (members module) as l.
  induction l as [|m l [IHnone IHsome]]; simpl.
  - split; [split; [constructor|done]|done].
  - destruct (is_local_class module m.2) eqn:Hm.
    + split.
      * split.
        -- intros E. rewrite E in Hm. discriminate.
        -- intros H. inversion H; congruence.
      * intros _. exists [], m, l. repeat split; auto.
    + split.
      * rewrite IHnone. split.
        -- intros H. by constructor.
        -- intros H. by inversion H.
      * intros Hne. destruct (IHsome Hne) as (pre & m' & post & -> & Hf & Hl & Hpre).
        exists (m :: pre), m', post. repeat split; auto.
Qed.

(** ** [build_level]: where the agents are *)

Lemma NoDup_map_inj {A B : Type} (f : A -> B) (l : list A) :
  (forall x y, f x = f y -> x = y) -> NoDup l -> NoDup (map f l).
Proof.
  intros Hf Hl. induction Hl as [|x l Hx _ IH]; simpl; constructor; [|done].
  intros Hin. apply Hx. apply list_elem_of_In in Hin.
  apply in_map_iff in Hin as (y & E & Hy). apply Hf in E as ->.
  by apply list_elem_of_In.
Qed.

Lemma map_snd_combine {A B : Type} (l : list A) (k : list B) :
  length k = length l -> map snd (combine l k) = k.
Proof.
  revert k. induction l as [|x l IH]; intros [|y k]; simpl; try done.
  intros [= H]. by rewrite IH.
Qed.

Lemma py_range_NoDup (n : Z) : NoDup (py_range n).
Proof.
  unfold py_range. apply NoDup_map_inj; [intros x y; lia|].
  apply NoDup_ListNoDup, List.seq_NoDup.
Qed.

Lemma all_coords_In (height width r c : Z) :
  In (r, c) (all_coords height width) <-> (0 <= r < height)%Z /\ (0 <= c < width)%Z.
Proof.
  unfold all_coords. rewrite in_flat_map. split.
  - intros (r' & Hr & Hin). apply in_map_iff in Hin as (c' & [= <- <-] & Hc).
    by rewrite <- !py_range_In.
  - intros [Hr Hc]. exists r. rewrite !py_range_In. split; [done|].
    apply in_map_iff. exists c. by rewrite py_range_In.
Qed.

Lemma pairs_NoDup (rows cols : list Z) :
  NoDup rows -> NoDup cols ->
  NoDup (flat_map (fun r => map (fun c => (r, c)) cols) rows).
Proof.
  intros Hrows Hcols. induction Hrows as [|r rows Hr _ IH]; simpl; [constructor|].
  apply NoDup_app. repeat split; [|  |done].
  - apply NoDup_map_inj; [by intros x y [= ->]|done].
  - intros [r' c'] Hin Hin'. apply list_elem_of_In in Hin, Hin'.
    apply in_map_iff in Hin as (c1 & [= <- <-] & _).
    apply in_flat_map in Hin' as (r2 & Hr2 & Hin').
    apply in_map_iff in Hin' as (c2 & [= <- <-] & _).
    apply Hr. by apply list_elem_of_In.
Qed.

Lemma all_coords_NoDup (height width : Z) : NoDup (all_coords height width).
Proof. apply pairs_NoDup; apply py_range_NoDup. Qed.

Lemma all_coords_length (height width : Z) :
  length (all_coords height width) = (Z.to_nat height * Z.to_nat width)%nat.
Proof.
  unfold all_coords. rewrite <- (py_range_length height).
  induction (py_range height) as [|r rows IH]; simpl; [done|].
  by rewrite length_app, length_map, py_range_length, IH.
Qed.

Lemma combine_lookup {A B : Type} (l : list A) (k : list B) (i : nat) (a : A) (b : B) :
  l !! i = Some a -> k !! i = Some b -> In (a, b) (combine l k).
Proof.
  revert k i. induction l as [|x l IH]; intros [|y k] [|i]; simpl; try done.
  - intros [= ->] [= ->]. by left.
  - intros Ha Hb. right. by eapply IH.
Qed.

Section PlacementFacts.

Context {Agent : Type}.

Lemma set_cell_cells (matrix : list (list (option Agent)))
    (height width r c : Z) (agent : Agent) :
  well_shaped matrix height width ->
  (0 <= r < height)%Z -> (0 <= c < width)%Z ->
  exists matrix',
    set_cell matrix r c agent = Ok matrix'
    /\ well_shaped matrix' height width
    /\ cell matrix' r c = Some (Some agent)
    /\ forall r' c', (0 <= r')%Z -> (0 <= c')%Z -> (r', c') <> (r, c) ->
                     cell matrix' r' c' = cell matrix r' c'.
Proof.
  intros [Hlen Hrows] Hr Hc. unfold set_cell.
  rewrite py_index_in_range by lia. simpl.
  destruct (lookup_lt_is_Some_2 matrix (Z.to_nat r)) as [row Hrow]; [lia|].
  rewrite Hrow.
  pose proof (proj1 (Forall_lookup _ _) Hrows _ _ Hrow) as Hw. simpl in Hw.
  rewrite py_index_in_range by lia. simpl.
  eexists. split; [reflexivity|]. repeat split.
  - by rewrite length_insert.
  - apply Forall_insert; [done|]. by rewrite length_insert.
  - unfold cell. rewrite list_lookup_insert_eq by lia.
    apply list_lookup_insert_eq. lia.
  - intros r' c' Hr' Hc' Hne. unfold cell.
    destruct (decide (Z.to_nat r = Z.to_nat r')) as [E|E].
    + assert (r' = r) as -> by lia.
      rewrite list_lookup_insert_eq by lia. rewrite Hrow.
      apply list_lookup_insert_ne. intros E'. apply Hne. f_equal. lia.
    + by rewrite list_lookup_insert_ne.
Qed.

Lemma place_cells (pairs : list (Agent * (Z * Z))) :
  forall (matrix : list (list (option Agent))) (height width : Z),
    well_shaped matrix height width ->
    Forall (fun pair : Agent * (Z * Z) =>
              (0 <= pair.2.1 < height)%Z /\ (0 <= pair.2.2 < width)%Z) pairs ->
    NoDup (map snd pairs) ->
    exists matrix',
      place matrix pairs = Ok matrix'
      /\ well_shaped matrix' height width
      /\ (forall agent rc, In (agent, rc) pairs ->
                           cell matrix' rc.1 rc.2 = Some (Some agent))
      /\ (forall r c, (0 <= r)%Z -> (0 <= c)%Z -> ~ In (r, c) (map snd pairs) ->
                      cell matrix' r c = cell matrix r c).
Proof.
  induction pairs as [|[agent [r c]] pairs IH];
    intros matrix height width Hm Hp Hnd.
  - exists matrix. split; [done|]. split; [done|].
    split; [intros agent rc []|done].
  - apply List.Forall_cons_iff in Hp as [[Hr Hc] Hp']. simpl in Hr, Hc.
    change (map snd ((agent, (r, c)) :: pairs))
      with ((r, c) :: map snd pairs) in Hnd.
    apply NoDup_cons in Hnd as [Hnotin Hnd].
    destruct (set_cell_cells matrix height width r c agent Hm Hr Hc)
      as (matrix1 & Hset & Hm1 & Hhere & Hother).
    destruct (IH matrix1 height width Hm1 Hp' Hnd)
      as (matrix' & Hplace & Hm' & Hin & Hout).
    exists matrix'. cbn [place]. rewrite Hset. cbn [bind].
    split; [exact Hplace|]. split; [exact Hm'|]. split.
    + intros agent' rc [[= <- <-]|Hin']; [|by apply Hin].
      cbn [fst snd]. rewrite Hout; [done|lia|lia|].
      intros H. apply Hnotin. by apply list_elem_of_In.
    + intros r' c' Hr' Hc' Hnot.
      change (map snd ((agent, (r, c)) :: pairs))
        with ((r, c) :: map snd pairs) in Hnot.
      rewrite Hout; [|done|done|].
      * apply Hother; [done|done|]. intros E. apply Hnot. left. by symmetry.
      * intros H. apply Hnot. by right.
Qed.

Lemma empty_matrix_cells (height width r c : Z) :
  (0 <= r < height)%Z -> (0 <= c < width)%Z ->
  cell (map (fun _ : Z => map (fun _ : Z => @None Agent) (py_range width))
          (py_range height)) r c
  = Some None.
Proof.
  intros Hr Hc. unfold cell.
  rewrite list_lookup_fmap.
  destruct (lookup_lt_is_Some_2 (py_range height) (Z.to_nat r)) as [x ->];
    [rewrite py_range_length; lia|].
  simpl. rewrite list_lookup_fmap.
  destruct (lookup_lt_is_Some_2 (py_range width) (Z.to_nat c)) as [y ->];
    [rewrite py_range_length; lia|].
  reflexivity.
Qed.

End PlacementFacts.

(** X14: on inputs it accepts, with a shuffle that permutes, [build_level]
    puts the i-th agent into the cell named by the i-th shuffled
    coordinate; these cells are pairwise distinct, as many as there are
    agents, and every other cell of the matrix holds [None]. *)
Theorem build_level_places_every_agent {Agent Rng : Type}
    (shuffle : Rng -> list (Z * Z) -> list (Z * Z) * Rng)
    (height width : Z) (agents : list Agent) (rng : Rng) :
  (forall rng coords, Permutation coords (shuffle rng coords).1) ->
  ~ refused height width agents ->
  exists matrix,
    build_level shuffle height width agents rng
    = (Ok matrix, (shuffle rng (all_coords height width)).2)
    /\ let chosen :=
         firstn (length agents) (shuffle rng (all_coords height width)).1 in
       length chosen = length agents
       /\ NoDup chosen
       /\ (forall i agent rc,
             agents !! i = Some agent -> chosen !! i = Some rc ->
             cell matrix rc.1 rc.2 = Some (Some agent))
       /\ (forall r c,
             (0 <= r < height)%Z -> (0 <= c < width)%Z -> ~ In (r, c) chosen ->
             cell matrix r c = Some None).
Proof.
  intros Hperm Href. unfold refused in Href. unfold build_level.
  destruct (Z.leb_spec height 0); [lia|].
  destruct (Z.leb_spec width 0); [lia|]. simpl.
  destruct (Z.ltb_spec (height * width) (Z.of_nat (length agents))); [lia|].
  rewrite Nat2Z.id.
  fold (all_coords height width).
  pose proof (Hperm rng (all_coords height width)) as Hp.
  destruct (shuffle rng (all_coords height width)) as [coords rng']. simpl in *.
  assert (Hlen : length (firstn (length agents) coords) = length agents).
  { apply firstn_length_le.
    rewrite <- (Permutation_length Hp), all_coords_length. nia. }
  assert (Hnd : NoDup (firstn (length agents) coords)).
  { apply NoDup_ListNoDup. rewrite <- (firstn_skipn (length agents) coords) in Hp.
    pose proof (all_coords_NoDup height width) as Hall.
    apply NoDup_ListNoDup in Hall.
    apply (Permutation_NoDup Hp) in Hall. by apply List.NoDup_app_remove_r in Hall. }
  destruct (place_cells (combine agents (firstn (length agents) coords))
              _ height width (empty_matrix_shaped height width))
    as (matrix & Hplace & _ & Hin & Hout).
  - apply List.Forall_forall. intros [agent [r c]] Hin. simpl.
    apply in_combine_r, In_firstn in Hin.
    apply (Permutation_in _ (Permutation_sym Hp)) in Hin.
    by apply all_coords_In.
  - by rewrite map_snd_combine.
  - exists matrix. rewrite Hplace. repeat split; try done.
    + intros i agent rc Ha Hc. apply Hin. by eapply combine_lookup.
    + intros r c Hr Hc Hnot. rewrite Hout; [|lia|lia|].
      * by apply empty_matrix_cells.
      * intros H'. apply Hnot. by apply in_map_iff in H' as ([a rc] & <- & ?%in_combine_r).
Qed.

Lemma build_level_places_every_agent_witness :
  exists matrix,
    build_level reversing 2 2 ["a"; "b"; "c"] 0%nat = (Ok matrix, 1%nat)
    /\ cell matrix 1 1 = Some (Some "a")
    /\ cell matrix 0 1 = Some (Some "c")
    /\ cell matrix 0 0 = Some None.
Proof.
  destruct (build_level_places_every_agent reversing 2 2 ["a"; "b"; "c"] 0%nat)
    as (matrix & Hb & _ & _ & Hin & Hout).
  - intros rng coords. apply Permutation_rev.
  - unfold refused. simpl. lia.
  - exists matrix. split; [exact Hb|]. split; [|split].
    + apply (Hin 0%nat "a" (1, 1)); reflexivity.
    + apply (Hin 2%nat "c" (0, 1)); reflexivity.
    + apply Hout; [lia|lia|]. simpl. intros [H|[H|[H|[]]]]; discriminate.
Defined.

(** ** Event helpers *)

Lemma prefix_app (p s : string) : String.prefix p (p ++ s) = true.
Proof.
  induction p as [|c p IH]; simpl; [by destruct s|].
  destruct (ascii_dec c c); [done|congruence].
Qed.

Lemma replace_from_skip (old new p s : string) :
  replace_from old new (String.length p) (p ++ s) = replace_from old new O s.
Proof. induction p as [|c p IH]; simpl; [by destruct s|done]. Qed.

Lemma replace_from_absent (old new s : string) :
  contains old s = false -> replace_from old new O s = s.
Proof.
  induction s as [|c s IH]; [done|].
  cbn [contains]. intros H. apply orb_false_iff in H as [Hp Hc].
  cbn [replace_from]. rewrite Hp. f_equal. by apply IH.
Qed.

(** Removing a marker in front of a text that does not contain it gives
    the text back. *)
Lemma replace_marker (c : ascii) (marker name : string) :
  contains (String c marker) name = false ->
  replace (String c marker) "" (String c marker ++ name) = name.
Proof.
  intros Hc. unfold replace.
  change (String c marker ++ name) with (String c (marker ++ name)).
  cbn [replace_from].
  change (String c (marker ++ name)) with (String c marker ++ name).
  rewrite prefix_app.
  replace (String.length (String c marker) - 1)%nat with (String.length marker)
    by (simpl; lia).
  rewrite replace_from_skip. simpl. by apply replace_from_absent.
Qed.

Lemma contains_nonempty (c : ascii) (sub s : string) :
  contains (String c sub) s = true -> s <> EmptyString.
Proof. by destruct s. Qed.

Lemma last_char_spec (s : string) :
  s <> EmptyString ->
  exists c rest, last_char s = Ok (String c EmptyString)
                 /\ s = rest ++ String c EmptyString.
Proof.
  induction s as [|c s IH]; [done|]. intros _.
  destruct s as [|c' s'].
  - by exists c, EmptyString.
  - destruct IH as (k & rest & Hl & Hs); [done|].
    exists k, (String c rest). split.
    + exact Hl.
    + change (String c (String c' s') = String c (rest ++ String k EmptyString)).
      f_equal. exact Hs.
Qed.

(** X15: when the action of the current event (its [action] attribute,
    or its third item when there is no such attribute) is the text
    ["RULE FIRED: "] followed by a name that does not itself contain that
    marker, [get_production_fired] returns exactly the name. *)
Theorem fired_production_name (agent : EventSource) (event : pyobject)
    (name : string) :
  current_event agent = Ok event ->
  attr_or_item event "action" 2 = Ok (VStr ("RULE FIRED: " ++ name)) ->
  contains "RULE FIRED: " name = false ->
  get_production_fired agent = Ok (Some name)
  /\ request_if_production_fired agent = Ok true.
Proof.
  intros He Ha Hc.
  assert (Hget : get_production_fired agent = Ok (Some name)).
  { unfold get_production_fired. rewrite He, Ha.
    assert (Hin : contains "RULE FIRED: " ("RULE FIRED: " ++ name) = true).
    { destruct name; reflexivity. }
    rewrite Hin. do 2 f_equal. by apply replace_marker. }
  split; [done|]. unfold request_if_production_fired. by rewrite Hget.
Qed.

Lemma fired_production_name_witness :
  let event :=
    {| obj_attrs := ∅;
       obj_items := Some [VInt 0; VStr "PROCEDURAL"; VStr "RULE FIRED: encode_letter"] |} in
  get_production_fired {| simulation := Some (Some event) |}
  = Ok (Some "encode_letter")
  /\ request_if_production_fired {| simulation := Some (Some event) |} = Ok true.
Proof.
  intros event.
  apply (fired_production_name {| simulation := Some (Some event) |} event
           "encode_letter"); reflexivity.
Defined.

(** X16: the event helpers raise nothing, whatever the wrapper and the
    event are: a missing [simulation] or [current_event], an event without
    [action] that cannot be indexed, and an action that is not a string all
    end in [None]. *)
Theorem event_helpers_never_raise (agent : EventSource) :
  (exists fired, get_production_fired agent = Ok fired)
  /\ (exists key, key_pressed agent = Ok key)
  /\ (simulation agent = None \/ simulation agent = Some None ->
      get_production_fired agent = Ok None /\ key_pressed agent = Ok None).
Proof.
  unfold get_production_fired, key_pressed, current_event.
  destruct (simulation agent) as [[event|]|]; simpl.
  2, 3: by (split; [eauto|split; [eauto|]]).
  split; [|split].
  - destruct (attr_or_item event "action" 2) as [[| | | |action|]|e]; eauto.
    destruct (contains "RULE FIRED: " action); eauto.
  - destruct (attr_or_item event "action" 2) as [action|e]; [|eauto].
    destruct (py_eq _ (VStr "manual")); [|eauto].
    destruct action as [| | | |a|]; eauto.
    destruct (contains "KEY PRESSED:" a) eqn:Hc; [|eauto].
    apply contains_nonempty, last_char_spec in Hc as (c & rest & -> & _).
    simpl. eauto.
  - intros [|]; discriminate.
Qed.

(** X17: a key returned by [key_pressed] is one character, the last one
    of the action text; it is returned only for an event of the module
    ["manual"] whose action contains ["KEY PRESSED:"]. *)
Theorem pressed_key_is_last_character (agent : EventSource) (key : string) :
  key_pressed agent = Ok (Some key) ->
  String.length key = 1%nat
  /\ exists event module action rest,
      current_event agent = Ok event
      /\ attr_or_item event "action" 2 = Ok (VStr action)
      /\ (attr_or_item event "module" 1 = Ok module \/
          (exists e, attr_or_item event "module" 1 = Raise e) /\ module = VNone)
      /\ py_eq module (VStr "manual") = true
      /\ contains "KEY PRESSED:" action = true
      /\ action = rest ++ key.
Proof.
  unfold key_pressed.
  destruct (current_event agent) as [event|[]]; try discriminate.
  destruct (attr_or_item event "action" 2) as [action|e] eqn:Ha; [|discriminate].
  destruct (py_eq _ (VStr "manual")) eqn:Hm; [|discriminate].
  destruct action as [| | | |a|]; try discriminate.
  destruct (contains "KEY PRESSED:" a) eqn:Hc; [|discriminate].
  destruct (last_char_spec a (contains_nonempty _ _ _ Hc)) as (c & rest & Hl & Hs).
  rewrite Hl. simpl. intros [= <-]. split; [done|].
  destruct (attr_or_item event "module" 1) as [m|e] eqn:Hmod.
  - exists event, m, a, rest. repeat split; auto.
  - exists event, VNone, a, rest. repeat split; eauto.
Qed.

Lemma pressed_key_is_last_character_witness :
  let event :=
    {| obj_attrs := ∅;
       obj_items := Some [VInt 1; VStr "manual"; VStr "KEY PRESSED: SPACE"] |} in
  key_pressed {| simulation := Some (Some event) |} = Ok (Some "E")
  /\ String.length "E" = 1%nat.
Proof.
  intros event.
  assert (Hk : key_pressed {| simulation := Some (Some event) |} = Ok (Some "E"))
    by reflexivity.
  split; [exact Hk|].
  exact (proj1 (pressed_key_is_last_character _ _ Hk)).
Defined.

(** ** Goal, production and memory helpers *)

Section HelperFacts.

Context {Buffer ChunkT Val DMKey DMVal : Type}.
Context `{EqDecision DMKey}.
Variable add : Buffer -> ChunkT -> result Buffer.
Variable repr_keys : list string -> string.
Variable productionstring :
  ACTRModel Buffer Val DMKey DMVal -> string -> string ->
  result (ACTRModel Buffer Val DMKey DMVal).
Variable typename_of : DMKey -> option string.

Implicit Types agent_construct : AgentConstruct Buffer Val DMKey DMVal.

Lemma goals_get_update_eq (goals : list (string * Buffer)) key target buffer :
  goals_get goals key = Some target ->
  goals_get (goals_update goals key buffer) key = Some buffer.
Proof.
  unfold goals_get.
  induction goals as [|kb goals IH]; simpl; [discriminate|].
  destruct (String.eqb kb.1 key) eqn:E; simpl.
  - by rewrite E.
  - rewrite E. exact IH.
Qed.

Lemma goals_get_update_ne (goals : list (string * Buffer)) key other buffer :
  other <> key ->
  goals_get (goals_update goals key buffer) other = goals_get goals other.
Proof.
  intros Hne. unfold goals_get.
  induction goals as [|kb goals IH]; simpl; [done|].
  destruct (String.eqb_spec kb.1 key) as [E|E]; simpl.
  - destruct (String.eqb_spec kb.1 other); [congruence|done].
  - destruct (String.eqb kb.1 other); [done|]. exact IH.
Qed.

Lemma goals_update_keys (goals : list (string * Buffer)) key buffer :
  map fst (goals_update goals key buffer) = map fst goals.
Proof.
  induction goals as [|kb goals IH]; simpl; [done|].
  destruct (String.eqb kb.1 key); simpl; [done|]. by rewrite IH.
Qed.

(** X18: [set_goal] calls [add] on the first buffer of [goals], whatever
    its name, and on no other: [get_goal], which reads the buffer named
    ["g"], sees the buffer [add] leaves when the first buffer is ["g"],
    and what it saw before otherwise; [goals] keeps its names, their order
    and the other buffers. *)
Theorem set_goal_writes_first_buffer agent_construct chunk key first_goal
    rest first_goal' :
  goals (actr_agent agent_construct) = (key, first_goal) :: rest ->
  add first_goal chunk = Ok first_goal' ->
  exists agent_construct',
    set_goal add agent_construct chunk = Updated agent_construct'
    /\ goals (actr_agent agent_construct') = (key, first_goal') :: rest
    /\ (key = "g" -> get_goal agent_construct' = Some first_goal')
    /\ (key <> "g" -> get_goal agent_construct' = get_goal agent_construct).
Proof.
  intros Hg Ha. unfold set_goal. rewrite Hg. simpl. rewrite Ha.
  eexists. split; [reflexivity|]. simpl. repeat split.
  - intros ->. reflexivity.
  - intros Hne. unfold get_goal, goals_get. rewrite Hg. simpl.
    by destruct (String.eqb_spec key "g").
Qed.

(** X19: writing a chunk into an existing buffer with [set_imaginal] and
    reading the buffer back with [get_imaginal] gives the buffer [add]
    produced; nothing is printed, the buffers keep their names and order,
    and every other buffer reads as before. *)
Theorem set_imaginal_then_get agent_construct new_chunk key target target' :
  goals_get (goals (actr_agent agent_construct)) key = Some target ->
  add target new_chunk = Ok target' ->
  exists agent_construct',
    set_imaginal add repr_keys agent_construct new_chunk key
    = (Ok agent_construct', [])
    /\ get_imaginal repr_keys agent_construct' key = (Some target', [])
    /\ map fst (goals (actr_agent agent_construct'))
       = map fst (goals (actr_agent agent_construct))
    /\ forall other, other <> key ->
         get_imaginal repr_keys agent_construct' other
         = get_imaginal repr_keys agent_construct other.
Proof.
  intros Hg Ha. unfold set_imaginal. rewrite Hg, Ha. simpl.
  eexists. split; [reflexivity|]. unfold get_imaginal. simpl. repeat split.
  - by rewrite (goals_get_update_eq _ _ _ _ Hg).
  - apply goals_update_keys.
  - intros other Hne.
    by rewrite goals_get_update_ne, goals_update_keys.
Qed.

(** X20: [set_imaginal] on a name that is not in [goals] raises nothing and
    leaves the wrapper as it is, printing one line. When it raises, the
    buffer exists and [add] raised: an [AttributeError] of [add] comes out
    as [TypeError], any other exception unchanged; [set_imaginal] itself
    never raises [AttributeError] or [KeyError] for a missing buffer. *)
Theorem set_imaginal_errors agent_construct new_chunk key :
  (goals_get (goals (actr_agent agent_construct)) key = None ->
   exists line,
     set_imaginal add repr_keys agent_construct new_chunk key
     = (Ok agent_construct, [line]))
  /\ (forall e,
        (set_imaginal add repr_keys agent_construct new_chunk key).1 = Raise e ->
        e <> AttributeError
        /\ exists target e',
            goals_get (goals (actr_agent agent_construct)) key = Some target
            /\ add target new_chunk = Raise e'
            /\ (e' = AttributeError /\ e = TypeError
                \/ e' <> AttributeError /\ e = e')).
Proof.
  unfold set_imaginal. split.
  - intros ->. eauto.
  - intros e.
    destruct (goals_get (goals (actr_agent agent_construct)) key) as [target|];
      simpl; [|discriminate].
    destruct (add target new_chunk) as [target'|e'] eqn:Ha; simpl; [discriminate|].
    destruct e'; simpl; intros [= <-]; (split; [discriminate|]);
      exists target; eexists; (split; [done|]); (split; [done|]);
      first [by left | right; split; [discriminate|done]].
Qed.

(** X21: on a production that exists, [update_utility] followed by
    [get_production_utility] returns the utility just set; the other
    entries of the production, the other productions, the goals and the
    memory are unchanged. *)
Theorem update_utility_then_get agent_construct production_name utility entries :
  productions (actr_agent agent_construct) !! production_name = Some entries ->
  exists agent_construct',
    update_utility agent_construct production_name utility = Ok agent_construct'
    /\ get_production_utility agent_construct' production_name = Some utility
    /\ (forall other, other <> production_name ->
          productions (actr_agent agent_construct') !! other
          = productions (actr_agent agent_construct) !! other)
    /\ (exists entries',
          productions (actr_agent agent_construct') !! production_name
          = Some entries'
          /\ forall k, k <> "utility" -> entries' !! k = entries !! k)
    /\ goals (actr_agent agent_construct') = goals (actr_agent agent_construct)
    /\ decmem (actr_agent agent_construct') = decmem (actr_agent agent_construct).
Proof.
  intros Hp. unfold update_utility. rewrite Hp.
  eexists. split; [reflexivity|]. unfold get_production_utility. simpl.
  repeat split.
  - by rewrite !lookup_insert_eq.
  - intros other Hne. by rewrite lookup_insert_ne.
  - eexists. split; [apply lookup_insert_eq|].
    intros k Hk. by rewrite lookup_insert_ne.
Qed.

(** X22: [update_utility] never creates a production: it succeeds exactly
    when the production exists and raises [KeyError] otherwise, and it can
    add at most the entry ["utility"]; [get_production_utility] returns a
    utility exactly when the production exists and has that entry. *)
Theorem utility_needs_its_production agent_construct production_name utility :
  ((exists agent_construct',
      update_utility agent_construct production_name utility = Ok agent_construct')
   <-> is_Some (productions (actr_agent agent_construct) !! production_name))
  /\ (productions (actr_agent agent_construct) !! production_name = None ->
      update_utility agent_construct production_name utility = Raise KeyError)
  /\ (forall agent_construct',
        update_utility agent_construct production_name utility = Ok agent_construct' ->
        dom (productions (actr_agent agent_construct'))
        = dom (productions (actr_agent agent_construct)))
  /\ (forall u,
        get_production_utility agent_construct production_name = Some u
        <-> exists entries,
            productions (actr_agent agent_construct) !! production_name
            = Some entries
            /\ entries !! "utility" = Some u).
Proof.
  unfold update_utility, get_production_utility.
  destruct (productions (actr_agent agent_construct) !! production_name)
    as [entries|] eqn:Hp.
  - split; [split; [by eauto|intros _; by eauto]|].
    split; [discriminate|]. split.
    + intros ac' [= <-]. simpl. apply dom_insert_lookup_L. by rewrite Hp.
    + intros u. split.
      * intros Hu. exists entries. split; [done|].
        destruct (entries !! "utility") as [u'|]; [|discriminate].
        by injection Hu as ->.
      * intros (entries' & [= <-] & ->). done.
  - split; [split; [intros [ac' H']; discriminate|intros [x Hx]; discriminate]|].
    split; [done|]. split; [discriminate|].
    intros u. split; [discriminate|].
    intros (entries' & H' & _). discriminate.
Qed.

(** X23: when [add_production] with a utility succeeds, the utility of the
    new production reads back as given. *)
Theorem add_production_sets_utility agent_construct name string utility
    agent_construct' :
  add_production productionstring agent_construct name string (Some utility)
  = Ok agent_construct' ->
  get_production_utility agent_construct' name = Some utility.
Proof.
  unfold add_production.
  destruct (productionstring (actr_agent agent_construct) name string)
    as [model'|e]; simpl; [|discriminate].
  intros Hu.
  destruct (productions model' !! name) as [entries|] eqn:Hp.
  - destruct (update_utility_then_get {| actr_agent := model' |} name utility
                entries Hp) as (ac' & Hu' & Hget & _).
    congruence.
  - unfold update_utility in Hu. simpl in Hu. rewrite Hp in Hu. discriminate.
Qed.

Lemma delete_each_cons (kv : DMKey * DMVal) dm (to_delete : list DMKey) :
  Forall (fun chunk => kv.1 <> chunk) to_delete ->
  delete_each (kv :: dm) to_delete
  = ((delete_each dm to_delete).1, kv :: (delete_each dm to_delete).2)
  \/ exists e, (delete_each dm to_delete).1 = Raise e
               /\ (delete_each (kv :: dm) to_delete).1 = Raise e.
Proof.
  intros Hne. revert dm.
  induction Hne as [|chunk to_delete Hc _ IH]; intros dm; simpl; [by left|].
  destruct (decide (kv.1 = chunk)); [done|].
  destruct (del_item dm chunk) as [dm'|e]; simpl; [apply IH|].
  right. by exists e.
Qed.

Lemma delete_each_filter (P : DMKey -> bool) (dm : list (DMKey * DMVal)) :
  delete_each dm (List.filter P (map fst dm))
  = (Ok tt, List.filter (fun kv => negb (P kv.1)) dm).
Proof.
  induction dm as [|kv dm IH]; simpl; [done|].
  destruct (P kv.1) eqn:HP; simpl.
  - destruct (decide (kv.1 = kv.1)); [|done]. exact IH.
  - destruct (delete_each_cons kv dm (List.filter P (map fst dm)))
      as [-> | (e & He & _)].
    + apply List.Forall_forall. intros chunk Hin E.
      apply filter_In in Hin as [_ Hin]. congruence.
    + by rewrite IH.
    + rewrite IH in He. discriminate.
Qed.

(** X24: [delete_declarative_chunk_type] raises nothing, returns the number
    of chunks [get_declarative_chunk_type] listed for the type, and leaves
    exactly the other chunks, in their order: afterwards the type lists no
    chunk and every other type lists what it listed before. Goals and
    productions are unchanged. *)
Theorem delete_removes_exactly_the_type agent_construct typename :
  let outcome := delete_declarative_chunk_type typename_of agent_construct typename in
  outcome.1
  = Ok (length (get_declarative_chunk_type typename_of agent_construct typename))
  /\ decmem (actr_agent outcome.2)
     = List.filter (fun kv => negb (has_typename typename_of typename kv.1))
         (decmem (actr_agent agent_construct))
  /\ get_declarative_chunk_type typename_of outcome.2 typename = []
  /\ (forall other, other <> typename ->
        get_declarative_chunk_type typename_of outcome.2 other
        = get_declarative_chunk_type typename_of agent_construct other)
  /\ goals (actr_agent outcome.2) = goals (actr_agent agent_construct)
  /\ productions (actr_agent outcome.2) = productions (actr_agent agent_construct).
Proof.
  unfold delete_declarative_chunk_type, get_declarative_chunk_type.
  rewrite delete_each_filter. simpl.
  generalize (decmem (actr_agent agent_construct)) as dm. intros dm.
  repeat split.
  - induction dm as [|kv dm IH]; simpl; [done|].
    destruct (has_typename typename_of typename kv.1) eqn:E; simpl; [done|].
    by rewrite E.
  - intros other Hne. induction dm as [|kv dm IH]; simpl; [done|].
    destruct (has_typename typename_of typename kv.1) eqn:E; simpl.
    + assert (has_typename typename_of other kv.1 = false) as ->; [|done].
      unfold has_typename in *. destruct (typename_of kv.1) as [t|]; [|done].
      apply String.eqb_eq in E as ->. by apply String.eqb_neq.
    + by rewrite IH.
Qed.

End HelperFacts.

Example set_goal_without_buffers :
  set_goal replacing_add
    {| actr_agent := {| goals := []; productions := productions (actr_agent example_agent);
                        decmem := decmem (actr_agent example_agent) |} |}
    "chunk"
  = Exhausted.
Proof. reflexivity. Qed.

Lemma set_goal_writes_first_buffer_witness :
  exists agent_construct',
    set_goal replacing_add example_agent "count" = Updated agent_construct'
    /\ goals (actr_agent agent_construct') = [("imaginal", ["count"]); ("g", ["start"])]
    /\ get_goal agent_construct' = Some ["start"].
Proof.
  destruct (set_goal_writes_first_buffer replacing_add example_agent "count"
              "imaginal" [] [("g", ["start"])] ["count"])
    as (ac' & Hset & Hgoals & _ & Hother).
  - reflexivity.
  - reflexivity.
  - exists ac'. split; [exact Hset|]. split; [exact Hgoals|].
    rewrite Hother; [reflexivity|discriminate].
Defined.

Lemma set_imaginal_then_get_witness :
  exists agent_construct',
    set_imaginal replacing_add (fun _ => "") example_agent "count" "g"
    = (Ok agent_construct', [])
    /\ get_imaginal (fun _ => "") agent_construct' "g" = (Some ["count"], [])
    /\ get_imaginal (fun _ => "") agent_construct' "imaginal" = (Some [], []).
Proof.
  destruct (set_imaginal_then_get replacing_add (fun _ => "") example_agent "count"
              "g" ["start"] ["count"])
    as (ac' & Hset & Hget & _ & Hother).
  - reflexivity.
  - reflexivity.
  - exists ac'. split; [exact Hset|]. split; [exact Hget|].
    rewrite Hother; [reflexivity|discriminate].
Defined.

Lemma update_utility_then_get_witness :
  exists agent_construct',
    update_utility example_agent "encode" 7 = Ok agent_construct'
    /\ get_production_utility agent_construct' "encode" = Some 7.
Proof.
  destruct (update_utility_then_get example_agent "encode" 7
              {[ "utility" := 0%Z; "reward" := 1%Z ]})
    as (ac' & Hset & Hget & _).
  - reflexivity.
  - exists ac'. split; [exact Hset | exact Hget].
Defined.

Lemma add_production_sets_utility_witness :
  exists agent_construct',
    add_production registering example_agent "retrieve" "g> isa goal" (Some 5)
    = Ok agent_construct'
    /\ get_production_utility agent_construct' "retrieve" = Some 5.
Proof.
  eexists. split; [reflexivity|].
  apply (add_production_sets_utility registering example_agent "retrieve"
           "g> isa goal" 5).
  reflexivity.
Defined.

Example delete_facts :
  (delete_declarative_chunk_type (fun chunk : string * string => Some chunk.1)
     example_agent "fact").1 = Ok 2%nat
  /\ decmem (actr_agent
       (delete_declarative_chunk_type (fun chunk : string * string => Some chunk.1)
          example_agent "fact").2)
     = [(("goal", "b"), 2%nat)].
Proof. split; reflexivity. Qed.

(** ** [ExampleGUI] *)

Example format_02x_examples :
  format_02x 5 = "05" /\ format_02x 255 = "ff" /\ format_02x 184 = "b8"
  /\ format_02x 256 = "100" /\ format_02x (-1) = "-1".
Proof. repeat split; reflexivity. Qed.

Section GuiFacts.

Context {F Root : Type}.
Variables fadd fsub fmul fdiv : F -> F -> F.
Variables flt feq : F -> F -> bool.
Variable of_int : Z -> F.
Variable trunc : F -> Z.
Variable decimal : string -> F.
Variable hash : string -> Z.

Implicit Types self : ExampleGUI F Root.

Local Abbreviation color_for :=
  (_color_for fadd fsub fmul fdiv flt feq of_int trunc decimal hash).
Local Abbreviation draw_agent :=
  (_draw_agent fadd fsub fmul fdiv flt feq of_int trunc decimal hash).
Local Abbreviation cell_loop :=
  (draw_cell fadd fsub fmul fdiv flt feq of_int trunc decimal hash).
Local Abbreviation cols_loop :=
  (draw_cols fadd fsub fmul fdiv flt feq of_int trunc decimal hash).
Local Abbreviation rows_loop :=
  (draw_rows fadd fsub fmul fdiv flt feq of_int trunc decimal hash).
Local Abbreviation redraw :=
  (update fadd fsub fmul fdiv flt feq of_int trunc decimal hash).

Lemma truthy_hit_Some (hit : option string) :
  truthy_hit hit = true <-> exists v, hit = Some v /\ v <> EmptyString.
Proof.
  destruct hit as [[|c v]|]; simpl; split; try discriminate.
  - intros (v & [= <-] & Hv). done.
  - intros _. by eexists.
  - done.
  - intros (v & H & _). discriminate.
Qed.

Lemma hexcol_nonempty key :
  hexcol fadd fsub fmul fdiv flt feq of_int trunc decimal hash key <> EmptyString.
Proof. unfold hexcol. discriminate. Qed.

(** After [_color_for] the key has a truthy entry, which is the colour
    returned; truthy entries are kept. *)
Lemma color_for_spec self key :
  let out := color_for self key in
  out.1 <> EmptyString
  /\ _color_cache out.2 !! key = Some out.1
  /\ truthy_sub (_color_cache self) (_color_cache out.2)
  /\ env out.2 = env self /\ root out.2 = root self
  /\ cell_px out.2 = cell_px self /\ canvas out.2 = canvas self.
Proof.
  unfold _color_for.
  destruct (truthy_hit (_color_cache self !! key)) eqn:Hhit; simpl.
  - apply truthy_hit_Some in Hhit as (v & -> & Hv). simpl.
    repeat split; try done. by intros k w.
  - split; [apply hexcol_nonempty|]. split; [apply lookup_insert_eq|].
    split; [|done].
    intros k v Hk Hv. destruct (decide (key = k)) as [->|Hne].
    + exfalso. rewrite Hk in Hhit. by destruct v.
    + by rewrite lookup_insert_ne.
Qed.

(** With a cache that has the colour, [_color_for] returns it and changes
    nothing. *)
Lemma color_for_hit self key v :
  _color_cache self !! key = Some v -> v <> EmptyString ->
  color_for self key = (v, self).
Proof.
  intros Hk Hv. unfold _color_for. rewrite Hk.
  by destruct v.
Qed.

(** X25: a colour handed out for a label is never empty and stays the
    colour of that label: asking again, at once or after colours for any
    other labels have been handed out, returns the same colour and leaves
    the view as it is. This holds for every content of the cache. *)
Theorem colour_is_stable self (key : string) (keys : list string) :
  let colour := _color_for fadd fsub fmul fdiv flt feq of_int trunc decimal hash in
  let first := colour self key in
  let later := fold_left (fun s k => (colour s k).2) keys first.2 in
  first.1 <> EmptyString
  /\ colour first.2 key = (first.1, first.2)
  /\ colour later key = (first.1, later).
Proof.
  intros colour first later. subst colour.
  destruct (color_for_spec self key) as (Hne & Hk & _).
  fold first in Hne, Hk.
  split; [done|]. split; [by apply color_for_hit|].
  apply color_for_hit; [|done]. subst later.
  assert (Hkeep : forall s : ExampleGUI F Root,
             _color_cache s !! key = Some first.1 ->
             _color_cache (fold_left (fun s k => (color_for s k).2) keys s) !! key
             = Some first.1).
  { induction keys as [|k keys IH]; intros s Hs; simpl; [done|].
    apply IH. destruct (color_for_spec s k) as (_ & _ & Hsub & _).
    by apply Hsub. }
  by apply Hkeep.
Qed.

(** X26: the rectangles of the grid tile the canvas: with a positive cell
    size, the bounds of a cell inside a grid of [cols] by [rows] cells lie
    on the canvas that [_resize_canvas] configures, the cell is a square of
    [cell_px] pixels, and two different cells do not overlap. *)
Theorem cells_tile_the_canvas self (cols rows : nat) (col row col' row' : Z) :
  (0 < cell_px self)%Z ->
  (0 <= col < Z.of_nat cols)%Z -> (0 <= row < Z.of_nat rows)%Z ->
  match _cell_bounds self col row, _cell_bounds self col' row' with
  | (x1, y1, x2, y2), (x1', y1', x2', y2') =>
      (0 <= x1 /\ x2 <= Z.max 1 (Z.of_nat cols * cell_px self))%Z
      /\ (0 <= y1 /\ y2 <= Z.max 1 (Z.of_nat rows * cell_px self))%Z
      /\ (x2 - x1 = cell_px self /\ y2 - y1 = cell_px self)%Z
      /\ ((col', row') <> (col, row) ->
          (x2 <= x1' \/ x2' <= x1 \/ y2 <= y1' \/ y2' <= y1)%Z)
  end.
Proof.
  intros Hpx Hc Hr. unfold _cell_bounds. repeat split; try nia.
  intros Hne.
  destruct (Z.lt_trichotomy col col') as [|[->|]]; [nia| |nia].
  destruct (Z.lt_trichotomy row row') as [|[->|]]; [nia| |nia].
  done.
Qed.

End GuiFacts.

Section GuiLoops.

Context {F Root : Type}.
Variables fadd fsub fmul fdiv : F -> F -> F.
Variables flt feq : F -> F -> bool.
Variable of_int : Z -> F.
Variable trunc : F -> Z.
Variable decimal : string -> F.
Variable hash : string -> Z.

Implicit Types self : ExampleGUI F Root.

Local Abbreviation color_for :=
  (_color_for fadd fsub fmul fdiv flt feq of_int trunc decimal hash).
Local Abbreviation draw_agent :=
  (_draw_agent fadd fsub fmul fdiv flt feq of_int trunc decimal hash).
Local Abbreviation cell_loop :=
  (draw_cell fadd fsub fmul fdiv flt feq of_int trunc decimal hash).
Local Abbreviation cols_loop :=
  (draw_cols fadd fsub fmul fdiv flt feq of_int trunc decimal hash).
Local Abbreviation rows_loop :=
  (draw_rows fadd fsub fmul fdiv flt feq of_int trunc decimal hash).
Local Abbreviation redraw :=
  (update fadd fsub fmul fdiv flt feq of_int trunc decimal hash).

Lemma truthy_sub_refl (K : gmap string string) : truthy_sub K K.
Proof. by intros k v. Qed.

Lemma truthy_sub_trans (K1 K2 K3 : gmap string string) :
  truthy_sub K1 K2 -> truthy_sub K2 K3 -> truthy_sub K1 K3.
Proof. intros H12 H23 k v Hk Hv. apply H23; [|done]. by apply H12. Qed.

Lemma kept_refl self cv : canvas self = Some cv -> kept self self.
Proof.
  intros Hc. repeat split; try done.
  - exists cv, cv. by repeat split.
  - apply truthy_sub_refl.
Qed.

Lemma kept_trans self self1 self2 :
  kept self self1 -> kept self1 self2 -> kept self self2.
Proof.
  intros (He & Hr & Hp & (cv & cv1 & Hc & Hc1 & Hw & Hh & Hb) & Hs)
         (He' & Hr' & Hp' & (cv1' & cv2 & Hc1' & Hc2 & Hw' & Hh' & Hb') & Hs').
  rewrite Hc1 in Hc1'. injection Hc1' as <-.
  repeat split; try congruence.
  - exists cv, cv2. repeat split; congruence.
  - by eapply truthy_sub_trans.
Qed.

Lemma replays_id self cv : canvas self = Some cv -> replays Drawn self self.
Proof.
  intros Hc. split; [done|]. split; [by eapply kept_refl|]. done.
Qed.

(** Drawing steps compose. *)
Lemma replays_then (f : ExampleGUI F Root -> drawn (ExampleGUI F Root))
    (g : ExampleGUI F Root -> drawn (ExampleGUI F Root)) self self1 self2 :
  replays f self self1 -> replays g self1 self2 ->
  replays (fun s => and_then (f s) g) self self2.
Proof.
  intros (Hf & Hk & Hre) (Hg & Hk' & Hre'). split; [|split].
  - by rewrite Hf.
  - by eapply kept_trans.
  - intros K2 HK. rewrite Hre; [by apply Hre'|].
    eapply truthy_sub_trans; [|exact HK]. apply Hk'.
Qed.

Lemma with_cache_canvas self K : canvas (with_cache self K) = canvas self.
Proof. done. Qed.

Lemma draw_agent_replays self c r label cv :
  canvas self = Some cv ->
  exists self1, replays (fun s => draw_agent s c r label) self self1.
Proof.
  intros Hc.
  destruct (color_for_spec fadd fsub fmul fdiv flt feq of_int trunc decimal hash
              self label) as (Hne & Hk & Hsub & He & Hr & Hp & Hcv).
  destruct (color_for self label) as [color self'] eqn:Hcol.
  cbn [fst snd] in Hne, Hk, Hsub, He, Hr, Hp, Hcv.
  eexists. unfold replays. split; [|split].
  - unfold _draw_agent. cbn [_cell_bounds]. rewrite Hcol, Hcv, Hc. reflexivity.
  - split; [exact He|]. split; [exact Hr|]. split; [exact Hp|]. split; [|exact Hsub].
    exists cv. eexists. split; [exact Hc|]. split; [reflexivity|]. by repeat split.
  - intros K2 HK. cbn [_color_cache with_canvas] in HK.
    unfold _draw_agent. cbn [_cell_bounds].
    rewrite (color_for_hit fadd fsub fmul fdiv flt feq of_int trunc decimal hash
               (with_cache self K2) label color); [|by apply HK|done].
    rewrite with_cache_canvas, Hc. unfold with_canvas, with_cache. cbn.
    by rewrite He, Hr, Hp.
Qed.

Lemma replays_canvas (f : ExampleGUI F Root -> drawn (ExampleGUI F Root))
    self self1 :
  replays f self self1 -> exists cv1, canvas self1 = Some cv1.
Proof. intros (_ & (_ & _ & _ & (cv & cv1 & _ & H & _) & _) & _). eauto. Qed.

Lemma cell_loop_replays (objs : list (option pyobject)) self c r cv :
  canvas self = Some cv ->
  exists self1, replays (fun s => cell_loop s c r objs) self self1.
Proof.
  revert self cv. induction objs as [|obj objs IH]; intros self cv Hc.
  - exists self. by eapply replays_id.
  - destruct obj as [obj|]; [|by eapply IH].
    cbn [draw_cell].
    destruct (getattr_or_None obj "name") as [| | | |[|a label]|]; try by eapply IH.
    destruct (draw_agent_replays self c r (String a label) cv Hc) as [self1 H1].
    destruct (replays_canvas _ _ _ H1) as [cv1 Hc1].
    destruct (IH self1 cv1 Hc1) as [self2 H2].
    exists self2. by apply (replays_then _ _ _ _ _ H1 H2).
Qed.

(** The loop over the columns of a row succeeds when the row has a cell
    for every column, and fails otherwise. *)
Lemma cols_loop_replays matrix r (cs : list Z) self cv :
  canvas self = Some cv ->
  Forall (fun c => is_Some (cell matrix r c)) cs ->
  exists self1, replays (fun s => cols_loop s matrix r cs) self self1.
Proof.
  intros Hc Hall. revert self cv Hc.
  induction Hall as [|c cs [objs Hcell] _ IH]; intros self cv Hc.
  - exists self. by eapply replays_id.
  - destruct (cell_loop_replays objs self c r cv Hc) as [self1 H1].
    destruct (replays_canvas _ _ _ H1) as [cv1 Hc1].
    destruct (IH self1 cv1 Hc1) as [self2 H2].
    exists self2. cbn [draw_cols]. rewrite Hcell.
    by apply (replays_then _ _ _ _ _ H1 H2).
Qed.

Lemma cols_loop_fails matrix r (cs : list Z) self cv :
  canvas self = Some cv ->
  ~ Forall (fun c => is_Some (cell matrix r c)) cs ->
  cols_loop self matrix r cs = IndexFailure.
Proof.
  revert self cv. induction cs as [|c cs IH]; intros self cv Hc Hnot.
  - destruct Hnot. constructor.
  - cbn [draw_cols]. destruct (cell matrix r c) as [objs|] eqn:Hcell; [|done].
    destruct (cell_loop_replays objs self c r cv Hc) as [self1 H1].
    destruct (replays_canvas _ _ _ H1) as [cv1 Hc1].
    destruct H1 as (-> & _). simpl. apply (IH self1 cv1 Hc1).
    intros Hall. apply Hnot. constructor; [by rewrite Hcell|done].
Qed.

Lemma rows_loop_replays matrix (rs : list Z) (cols : nat) self cv :
  canvas self = Some cv ->
  Forall (fun r => Forall (fun c => is_Some (cell matrix r c))
                     (py_range (Z.of_nat cols))) rs ->
  exists self1, replays (fun s => rows_loop s matrix rs cols) self self1.
Proof.
  intros Hc Hall. revert self cv Hc.
  induction Hall as [|r rs Hr _ IH]; intros self cv Hc.
  - exists self. by eapply replays_id.
  - destruct (cols_loop_replays matrix r _ self cv Hc Hr) as [self1 H1].
    destruct (replays_canvas _ _ _ H1) as [cv1 Hc1].
    destruct (IH self1 cv1 Hc1) as [self2 H2].
    exists self2. cbn [draw_rows].
    by apply (replays_then _ _ _ _ _ H1 H2).
Qed.

Lemma rows_loop_fails matrix (rs : list Z) (cols : nat) self cv :
  canvas self = Some cv ->
  ~ Forall (fun r => Forall (fun c => is_Some (cell matrix r c))
                       (py_range (Z.of_nat cols))) rs ->
  rows_loop self matrix rs cols = IndexFailure.
Proof.
  revert self cv. induction rs as [|r rs IH]; intros self cv Hc Hnot.
  - destruct Hnot. constructor.
  - cbn [draw_rows].
    destruct (decide (Forall (fun c => is_Some (cell matrix r c))
                        (py_range (Z.of_nat cols)))) as [Hr|Hr].
    + destruct (cols_loop_replays matrix r _ self cv Hc Hr) as [self1 H1].
      destruct (replays_canvas _ _ _ H1) as [cv1 Hc1].
      destruct H1 as (-> & _). simpl. apply (IH self1 cv1 Hc1).
      intros Hall. apply Hnot. by constructor.
    + by rewrite (cols_loop_fails matrix r _ self cv Hc Hr).
Qed.

Lemma grid_cell_px self self' (rows cols : nat) :
  cell_px self' = cell_px self -> grid self' rows cols = grid self rows cols.
Proof. intros H. unfold grid, _cell_bounds. by rewrite H. Qed.

(** Every cell the loops read exists exactly when no row is shorter than
    the first one. *)
Lemma cells_exist_iff (matrix : list (list (list (option pyobject)))) :
  Forall (fun r => Forall (fun c => is_Some (cell matrix r c))
                     (py_range (Z.of_nat (dimensions matrix).2)))
    (py_range (Z.of_nat (dimensions matrix).1))
  <-> ~ ragged matrix.
Proof.
  set (cols := (dimensions matrix).2). unfold ragged. fold cols.
  cbn [dimensions fst]. split.
  - intros Hall (row & Hin & Hlen).
    apply list_elem_of_In, list_elem_of_lookup in Hin as [i Hi].
    pose proof (lookup_lt_Some _ _ _ Hi) as Hlt.
    rewrite List.Forall_forall in Hall.
    specialize (Hall (Z.of_nat i)). rewrite py_range_In in Hall.
    specialize (Hall ltac:(lia)). rewrite List.Forall_forall in Hall.
    specialize (Hall (Z.of_nat (length row))). rewrite py_range_In in Hall.
    destruct (Hall ltac:(lia)) as [objs Hobjs].
    unfold cell in Hobjs. rewrite !Nat2Z.id, Hi in Hobjs.
    apply lookup_lt_Some in Hobjs. lia.
  - intros Hnot. apply List.Forall_forall. intros r Hr. apply py_range_In in Hr.
    apply List.Forall_forall. intros c Hc. apply py_range_In in Hc.
    unfold cell.
    destruct (lookup_lt_is_Some_2 matrix (Z.to_nat r)) as [row Hrow]; [lia|].
    rewrite Hrow. apply lookup_lt_is_Some_2.
    destruct (decide (length row < cols)%nat) as [Hlt|]; [|lia].
    destruct Hnot. exists row. split; [|done].
    apply list_elem_of_In, list_elem_of_lookup. eauto.
Qed.

(** The state from which [update] starts to draw the agents. *)
Lemma update_unfold self cv :
  canvas self = Some cv ->
  redraw self
  = rows_loop
      (with_canvas self
         (Some {| cv_width := Z.max 1 (Z.of_nat (dimensions (level_matrix (env self))).2
                                       * cell_px self);
                  cv_height := Z.max 1 (Z.of_nat (dimensions (level_matrix (env self))).1
                                        * cell_px self);
                  cv_bg := cv_bg cv;
                  cv_items := grid self (dimensions (level_matrix (env self))).1
                                (dimensions (level_matrix (env self))).2 |}))
      (level_matrix (env self))
      (py_range (Z.of_nat (dimensions (level_matrix (env self))).1))
      (dimensions (level_matrix (env self))).2.
Proof. intros Hc. unfold update, _resize_canvas. rewrite Hc. reflexivity. Qed.

(** X27: [update] is idempotent: a second call after a call that returned
    leaves the view exactly as the first call left it, canvas items, canvas
    size and colour cache included. *)
Theorem update_is_idempotent self self' :
  update fadd fsub fmul fdiv flt feq of_int trunc decimal hash self = Drawn self' ->
  update fadd fsub fmul fdiv flt feq of_int trunc decimal hash self' = Drawn self'.
Proof.
  destruct (canvas self) as [cv|] eqn:Hc.
  2: { unfold update. rewrite Hc. intros [= <-]. by rewrite Hc. }
  rewrite (update_unfold self cv Hc).
  set (matrix := level_matrix (env self)).
  set (s0 := with_canvas self _). intros Hrun.
  destruct (decide (Forall (fun r => Forall (fun c => is_Some (cell matrix r c))
                                      (py_range (Z.of_nat (dimensions matrix).2)))
                      (py_range (Z.of_nat (dimensions matrix).1)))) as [Hall|Hnot].
  2: { by rewrite (rows_loop_fails matrix _ _ s0 _ eq_refl Hnot) in Hrun. }
  destruct (rows_loop_replays matrix _ _ s0 _ eq_refl Hall)
    as (self1 & Hrun1 & Hkept & Hreplay).
  rewrite Hrun in Hrun1. injection Hrun1 as <-.
  destruct Hkept as (He & Hr & Hp & (cv0 & cv' & Hc0 & Hc' & Hw & Hh & Hb) & _).
  injection Hc0 as <-. cbn in He, Hr, Hp, Hw, Hh, Hb.
  rewrite (update_unfold self' cv' Hc'), He. fold matrix.
  specialize (Hreplay (_color_cache self') (truthy_sub_refl _)).
  replace (with_cache self' (_color_cache self')) with self' in Hreplay
    by (by destruct self').
  rewrite <- Hreplay. f_equal.
  unfold s0, with_canvas, with_cache. cbn.
  rewrite He, Hr, Hp, Hb. fold matrix. do 2 f_equal.
  by rewrite (grid_cell_px self self').
Qed.

(** X28: on a view with a canvas, [update] raises [IndexError] exactly when
    some row of the matrix is shorter than the first row; rows that are
    longer are accepted. It never fails the assertion of [_draw_agent], and
    without a canvas it returns at once, leaving the view as it is. *)
Theorem update_needs_full_rows self :
  (redraw self = IndexFailure
   <-> is_Some (canvas self) /\ ragged (level_matrix (env self)))
  /\ redraw self <> AssertionFailure
  /\ (canvas self = None -> redraw self = Drawn self).
Proof.
  destruct (canvas self) as [cv|] eqn:Hc.
  2: { unfold update. rewrite Hc. repeat split; try done.
       intros [[x Hx] _]. discriminate. }
  rewrite (update_unfold self cv Hc).
  set (matrix := level_matrix (env self)).
  set (s0 := with_canvas self _).
  pose proof (cells_exist_iff matrix) as Hiff.
  destruct (decide (Forall (fun r => Forall (fun c => is_Some (cell matrix r c))
                                      (py_range (Z.of_nat (dimensions matrix).2)))
                      (py_range (Z.of_nat (dimensions matrix).1)))) as [Hall|Hnot].
  - destruct (rows_loop_replays matrix _ _ s0 _ eq_refl Hall) as (self1 & -> & _).
    split; [|split; [done|done]]. split; [done|].
    intros [_ Hrag]. by apply Hiff in Hall.
  - rewrite (rows_loop_fails matrix _ _ s0 _ eq_refl Hnot).
    split; [|split; [done|done]]. split; [|done].
    intros _. split; [by eexists|].
    destruct (decide (Forall (fun row => ((dimensions matrix).2 <= length row)%nat)
                        matrix)) as [Hfull|Hshort].
    + destruct Hnot. apply Hiff. intros (row & Hin & Hlen).
      rewrite List.Forall_forall in Hfull. specialize (Hfull row Hin). lia.
    + apply not_Forall_Exists in Hshort; [|intros row; apply _].
      apply List.Exists_exists in Hshort as (row & Hin & Hlen).
      unfold compose in Hlen. exists row. split; [done|lia].
Qed.

End GuiLoops.

Example update_paints_grid_then_agents :
  exists self',
    int_update example_view = Drawn self'
    /\ option_map (fun cv => (cv_width cv, cv_height cv, length (cv_items cv)))
         (canvas self')
       = Some (80, 80, 10%nat)
    /\ map fst (map_to_list (_color_cache self')) = ["alice"; "bob"].
Proof. eexists. split; [vm_compute; reflexivity|]. split; vm_compute; reflexivity. Qed.

Lemma update_is_idempotent_witness :
  exists self',
    int_update example_view = Drawn self' /\ int_update self' = Drawn self'.
Proof.
  eexists. split; [vm_compute; reflexivity|].
  apply (update_is_idempotent Z.add Z.sub Z.mul Z.div Z.ltb Z.eqb
           (fun n => n) (fun x => x) (fun _ => 1%Z)
           (fun key => Z.of_nat (String.length key)) example_view).
  vm_compute. reflexivity.
Defined.

Lemma cells_tile_the_canvas_witness :
  _cell_bounds example_view 1 0 = (40, 0, 80, 40)%Z
  /\ _cell_bounds example_view 0 1 = (0, 40, 40, 80)%Z
  /\ (80 <= Z.max 1 (Z.of_nat 2 * cell_px example_view))%Z.
Proof.
  pose proof (cells_tile_the_canvas example_view 2 2 1 0 0 1) as H.
  split; [reflexivity|]. split; [reflexivity|].
  apply H; simpl; lia.
Defined.
